(** * JCoz experiment engine: a shallow embedding and its properties

    The development follows the two native sources of the agent:
    - [entry.cc]: the scope filter ([is_class_fqn_prefix],
      [contains_class_fqn_prefix], [is_in_allowed_scope]);
    - [profiler.cc]: the speedup draw, the duration controller, the
      bytecode ranges of an experiment, the signal handler with its delay
      protocol, the breakpoint handler and the scheduler loops.

    Machine integers are integers of [Z] with the wrap-around of their
    width written out; C strings are [string]s (the terminating NUL is
    implicit); [float] is IEEE binary32, taken from [SpecFloat]. *)

From Stdlib Require Import ZArith List String Ascii Bool Lia QArith Qabs.
From Stdlib Require Import Floats.SpecFloat.
From stdpp Require Import base option list gmap sorting.

Local Open Scope Z_scope.

(* ===================================================================== *)
(** * Part I: the embedding *)
(* ===================================================================== *)

(** ** Scope filter ([entry.cc]) *)

Module ScopeFilter.

(** [strstr(haystack, needle)]: the first occurrence of [needle] in
    [haystack], as an offset from [haystack]; [None] is the NULL
    pointer.  The empty needle is found at offset 0. *)
Fixpoint strstr (haystack needle : string) : option nat :=
  if String.prefix needle haystack then Some 0%nat
  else match haystack with
       | EmptyString => None
       | String _ rest => S <$> strstr rest needle
       end.

(** [strstr(class_sig, prefix) == class_sig + 1] *)
Definition is_class_fqn_prefix (prefix class_sig : string) : bool :=
  match strstr class_sig prefix with
  | Some 1%nat => true
  | _ => false
  end.

(** [std::find_if(begin, end, predicate) != end] *)
Definition contains_class_fqn_prefix
    (elements : list string) (class_sig : string) : bool :=
  existsb (fun scope => is_class_fqn_prefix scope class_sig) elements.

(** The two scope lists are the statics [Profiler::ignored_scopes] and
    [Profiler::search_scopes]; they are arguments here. *)
Definition is_in_allowed_scope
    (ignored_scopes search_scopes : list string) (class_sig : string) : bool :=
  negb (contains_class_fqn_prefix ignored_scopes class_sig)
  && contains_class_fqn_prefix search_scopes class_sig.

(** The reference implementation of the specification: drop the
    one-character marker of the signature and test whether what is left
    starts with the prefix. *)
Definition naive_is_prefix (prefix class_sig : string) : bool :=
  match class_sig with
  | EmptyString => false
  | String _ name => String.prefix prefix name
  end.

Definition naive_is_in_scope
    (search_scopes ignored_scopes : list string) (class_sig : string) : bool :=
  existsb (fun p => naive_is_prefix p class_sig) search_scopes
  && negb (existsb (fun p => naive_is_prefix p class_sig) ignored_scopes).

(** A class signature [L<name>;]. *)
Definition class_signature (name : string) : string :=
  String "L" (name ++ ";").

End ScopeFilter.

(** ** Machine integers *)

Module MachineInt.

(** Two's complement wrap-around of a [bits]-wide signed integer. *)
Definition wrap_signed (bits z : Z) : Z :=
  (z + 2 ^ (bits - 1)) mod 2 ^ bits - 2 ^ (bits - 1).

Definition LONG_MAX : Z := 2 ^ 63 - 1.
Definition LONG_MIN : Z := - 2 ^ 63.

(** [long] (LP64), [jint] and [unsigned long]. *)
Definition to_long (z : Z) : Z := wrap_signed 64 z.
Definition to_jint (z : Z) : Z := wrap_signed 32 z.
Definition to_ulong (z : Z) : Z := z mod 2 ^ 64.

Definition in_long (z : Z) : Prop := LONG_MIN <= z <= LONG_MAX.
Definition in_jint (z : Z) : Prop := - 2 ^ 31 <= z <= 2 ^ 31 - 1.

Definition long_add (a b : Z) : Z := to_long (a + b).
Definition long_sub (a b : Z) : Z := to_long (a - b).
(** [std::labs] *)
Definition labs (a : Z) : Z := to_long (Z.abs a).

End MachineInt.

(** ** IEEE binary32, the C [float] *)

Module Float32.

Definition prec : Z := 24.
Definition emax : Z := 128.

(** Conversion of an integer to [float], round to nearest even. *)
Definition float_of_Z (z : Z) : spec_float := binary_normalize prec emax z 0 false.
Definition fdiv : spec_float -> spec_float -> spec_float := SFdiv prec emax.
Definition fmul : spec_float -> spec_float -> spec_float := SFmul prec emax.

(** The cast [(long) f]: truncation toward zero.  The cast of an infinity
    or of a NaN is undefined; x86-64 yields [LONG_MIN]. *)
Definition long_of_float (f : spec_float) : Z :=
  match f with
  | S754_zero _ => 0
  | S754_finite s m e =>
      let magnitude :=
        match e with
        | Z0 => Zpos m
        | Zpos k => Zpos m * 2 ^ Zpos k
        | Zneg k => Zpos m / 2 ^ Zpos k
        end in
      MachineInt.to_long (if s then - magnitude else magnitude)
  | _ => MachineInt.LONG_MIN
  end.

(** The real number a finite float stands for. *)
Definition Q_of_float (f : spec_float) : Q :=
  match f with
  | S754_finite s m e =>
      let q := (match e with
                | Z0 => inject_Z (Zpos m)
                | Zpos k => inject_Z (Zpos m * 2 ^ Zpos k)
                | Zneg k => Qmake (Zpos m) (2 ^ k)
                end)%Q in
      if s then Qopp q else q
  | _ => 0%Q
  end.

Definition float_eqb (x y : spec_float) : bool :=
  match x, y with
  | S754_zero s1, S754_zero s2 => Bool.eqb s1 s2
  | S754_infinity s1, S754_infinity s2 => Bool.eqb s1 s2
  | S754_nan, S754_nan => true
  | S754_finite s1 m1 e1, S754_finite s2 m2 e2 =>
      Bool.eqb s1 s2 && Pos.eqb m1 m2 && Z.eqb e1 e2
  | _, _ => false
  end.

End Float32.

(** ** Constants of the headers

    [profiler.h] and [globals.h] are not part of the sources at hand; the
    constants they define are parameters of the development. *)

Class Header := {
  MIN_EXP_TIME : Z;
  MAX_EXP_TIME : Z;
  EXP_TIME_FACTOR : Z;
  HITS_TO_INC_EXP_TIME : Z;
  HITS_TO_DEC_EXP_TIME : Z;
  NUM_STATIC_CALL_FRAMES : Z;
  kNumCallTraceErrors : Z
}.

(** [#define SIGNAL_FREQ 1000000L] and [#define MAX_BCI 65535]. *)
Definition SIGNAL_FREQ : Z := 1000000.
Definition MAX_BCI : Z := 65535.

(** ** The speedup draw ([Profiler::calculate_random_speedup]) *)

Module Speedup.
Import Float32.

(** [rand_value] is what [rand()] returned; [%] is the remainder of the
    truncating division. *)
Definition calculate_random_speedup (rand_value : Z) : spec_float :=
  let randVal := Z.rem rand_value 25 in
  if randVal <? 5 then float_of_Z 0
  else fdiv (float_of_Z (randVal - 4)) (float_of_Z 20).

(** [(long)(current_experiment.speedup * SIGNAL_FREQ)] *)
Definition delay_of_speedup (speedup : spec_float) : Z :=
  long_of_float (fmul speedup (float_of_Z SIGNAL_FREQ)).

(** The 25 outcomes of a uniform 25-way draw. *)
Definition draws : list Z := map Z.of_nat (seq 0 25).

Definition outcomes_equal_to (v : spec_float) : nat :=
  length (filter (fun r => float_eqb (calculate_random_speedup r) v) draws).

(** [v] is the single-precision number next to [k/20]: it is finite, a
    valid binary32 and within half a unit in the last place of numbers
    up to 1, that is [2^-25], of [k/20]. *)
Definition is_twentieth (k : Z) (v : spec_float) : Prop :=
  valid_binary prec emax v = true /\
  (Qabs (Q_of_float v - (k # 20)) <= 1 # (2 ^ 25))%Q.

End Speedup.

(** ** Data of the profiler ([profiler.h], as [profiler.cc] uses it) *)

Module Frame.
(** [lineno] holds the bytecode index of the frame. *)
Record JVMPI_CallFrame := { lineno : Z; method_id : Z }.
End Frame.

Record JVMPI_CallTrace := { num_frames : Z; frames : list Frame.JVMPI_CallFrame }.

(** [start_location] is a [jlocation], a 64-bit integer. *)
Record jvmtiLineNumberEntry := { start_location : Z; line_number : Z }.

Module Exp.
Record Experiment := {
  method_id : Z;
  lineno : Z;
  bci : Z;
  location_ranges : list (Z * Z);
  num_ranges : Z;
  speedup : spec_float;
  delay : Z;
  points_hit : Z;
  duration : Z
}.

Definition set_target (m b : Z) (e : Experiment) : Experiment :=
  {| method_id := m; lineno := lineno e; bci := b;
     location_ranges := location_ranges e; num_ranges := num_ranges e;
     speedup := speedup e; delay := delay e; points_hit := points_hit e;
     duration := duration e |}.
Definition set_lineno (l : Z) (e : Experiment) : Experiment :=
  {| method_id := method_id e; lineno := l; bci := bci e;
     location_ranges := location_ranges e; num_ranges := num_ranges e;
     speedup := speedup e; delay := delay e; points_hit := points_hit e;
     duration := duration e |}.
Definition set_location_ranges (n : Z) (r : list (Z * Z)) (e : Experiment) : Experiment :=
  {| method_id := method_id e; lineno := lineno e; bci := bci e;
     location_ranges := r; num_ranges := n;
     speedup := speedup e; delay := delay e; points_hit := points_hit e;
     duration := duration e |}.
Definition set_speedup (s : spec_float) (e : Experiment) : Experiment :=
  {| method_id := method_id e; lineno := lineno e; bci := bci e;
     location_ranges := location_ranges e; num_ranges := num_ranges e;
     speedup := s; delay := delay e; points_hit := points_hit e;
     duration := duration e |}.
Definition set_delay (d : Z) (e : Experiment) : Experiment :=
  {| method_id := method_id e; lineno := lineno e; bci := bci e;
     location_ranges := location_ranges e; num_ranges := num_ranges e;
     speedup := speedup e; delay := d; points_hit := points_hit e;
     duration := duration e |}.
Definition set_points_hit (h : Z) (e : Experiment) : Experiment :=
  {| method_id := method_id e; lineno := lineno e; bci := bci e;
     location_ranges := location_ranges e; num_ranges := num_ranges e;
     speedup := speedup e; delay := delay e; points_hit := h;
     duration := duration e |}.
Definition set_duration (d : Z) (e : Experiment) : Experiment :=
  {| method_id := method_id e; lineno := lineno e; bci := bci e;
     location_ranges := location_ranges e; num_ranges := num_ranges e;
     speedup := speedup e; delay := delay e; points_hit := points_hit e;
     duration := d |}.
End Exp.

Module UT.
(** [new struct UserThread()] zeroes a new record. *)
Record UserThread := {
  local_delay : Z;
  points_hit : Z;
  num_signals_received : Z
}.

Definition set_local_delay (d : Z) (u : UserThread) : UserThread :=
  {| local_delay := d; points_hit := points_hit u;
     num_signals_received := num_signals_received u |}.
Definition set_points_hit (h : Z) (u : UserThread) : UserThread :=
  {| local_delay := local_delay u; points_hit := h;
     num_signals_received := num_signals_received u |}.
Definition set_num_signals_received (n : Z) (u : UserThread) : UserThread :=
  {| local_delay := local_delay u; points_hit := points_hit u;
     num_signals_received := n |}.
End UT.

(** The static members of [Profiler] and the file-level statics
    [call_index] and [static_call_frames]. *)
Record Profiler := {
  in_scope_ids : gset Z;
  in_experiment : bool;
  current_experiment : Exp.Experiment;
  global_delay : Z;
  points_hit : Z;
  _running : bool;
  end_to_end : bool;
  experiment_time : Z;
  prof_ready : bool;
  fix_exp : bool;
  call_index : Z;
  static_call_frames : list Frame.JVMPI_CallFrame
}.

Definition set_in_experiment (b : bool) (p : Profiler) : Profiler :=
  {| in_scope_ids := in_scope_ids p; in_experiment := b;
     current_experiment := current_experiment p; global_delay := global_delay p;
     points_hit := points_hit p; _running := _running p;
     end_to_end := end_to_end p; experiment_time := experiment_time p;
     prof_ready := prof_ready p; fix_exp := fix_exp p;
     call_index := call_index p; static_call_frames := static_call_frames p |}.
Definition set_current_experiment (e : Exp.Experiment) (p : Profiler) : Profiler :=
  {| in_scope_ids := in_scope_ids p; in_experiment := in_experiment p;
     current_experiment := e; global_delay := global_delay p;
     points_hit := points_hit p; _running := _running p;
     end_to_end := end_to_end p; experiment_time := experiment_time p;
     prof_ready := prof_ready p; fix_exp := fix_exp p;
     call_index := call_index p; static_call_frames := static_call_frames p |}.
Definition set_global_delay (d : Z) (p : Profiler) : Profiler :=
  {| in_scope_ids := in_scope_ids p; in_experiment := in_experiment p;
     current_experiment := current_experiment p; global_delay := d;
     points_hit := points_hit p; _running := _running p;
     end_to_end := end_to_end p; experiment_time := experiment_time p;
     prof_ready := prof_ready p; fix_exp := fix_exp p;
     call_index := call_index p; static_call_frames := static_call_frames p |}.
Definition set_points_hit (h : Z) (p : Profiler) : Profiler :=
  {| in_scope_ids := in_scope_ids p; in_experiment := in_experiment p;
     current_experiment := current_experiment p; global_delay := global_delay p;
     points_hit := h; _running := _running p;
     end_to_end := end_to_end p; experiment_time := experiment_time p;
     prof_ready := prof_ready p; fix_exp := fix_exp p;
     call_index := call_index p; static_call_frames := static_call_frames p |}.
Definition set_running (b : bool) (p : Profiler) : Profiler :=
  {| in_scope_ids := in_scope_ids p; in_experiment := in_experiment p;
     current_experiment := current_experiment p; global_delay := global_delay p;
     points_hit := points_hit p; _running := b;
     end_to_end := end_to_end p; experiment_time := experiment_time p;
     prof_ready := prof_ready p; fix_exp := fix_exp p;
     call_index := call_index p; static_call_frames := static_call_frames p |}.
Definition set_experiment_time (t : Z) (p : Profiler) : Profiler :=
  {| in_scope_ids := in_scope_ids p; in_experiment := in_experiment p;
     current_experiment := current_experiment p; global_delay := global_delay p;
     points_hit := points_hit p; _running := _running p;
     end_to_end := end_to_end p; experiment_time := t;
     prof_ready := prof_ready p; fix_exp := fix_exp p;
     call_index := call_index p; static_call_frames := static_call_frames p |}.
Definition set_end_to_end (b : bool) (p : Profiler) : Profiler :=
  {| in_scope_ids := in_scope_ids p; in_experiment := in_experiment p;
     current_experiment := current_experiment p; global_delay := global_delay p;
     points_hit := points_hit p; _running := _running p;
     end_to_end := b; experiment_time := experiment_time p;
     prof_ready := prof_ready p; fix_exp := fix_exp p;
     call_index := call_index p; static_call_frames := static_call_frames p |}.
Definition set_prof_ready (b : bool) (p : Profiler) : Profiler :=
  {| in_scope_ids := in_scope_ids p; in_experiment := in_experiment p;
     current_experiment := current_experiment p; global_delay := global_delay p;
     points_hit := points_hit p; _running := _running p;
     end_to_end := end_to_end p; experiment_time := experiment_time p;
     prof_ready := b; fix_exp := fix_exp p;
     call_index := call_index p; static_call_frames := static_call_frames p |}.
Definition set_call_frames (i : Z) (fs : list Frame.JVMPI_CallFrame) (p : Profiler) : Profiler :=
  {| in_scope_ids := in_scope_ids p; in_experiment := in_experiment p;
     current_experiment := current_experiment p; global_delay := global_delay p;
     points_hit := points_hit p; _running := _running p;
     end_to_end := end_to_end p; experiment_time := experiment_time p;
     prof_ready := prof_ready p; fix_exp := fix_exp p;
     call_index := i; static_call_frames := fs |}.

(** A header whose maximum is not the minimum doubled a number of times. *)
Definition uneven_header : Header :=
  {| MIN_EXP_TIME := 5000; MAX_EXP_TIME := 30000; EXP_TIME_FACTOR := 2;
     HITS_TO_INC_EXP_TIME := 5; HITS_TO_DEC_EXP_TIME := 20;
     NUM_STATIC_CALL_FRAMES := 200; kNumCallTraceErrors := 10 |}.

(** ** The duration controller ([Profiler::update_experiment_length]) *)

Module Duration.
Import MachineInt.

Section WithHeader.
Context `{Header}.

(** [experiment_time] is an [unsigned long]. *)
Definition update_experiment_length (p : Profiler) : Profiler :=
  if fix_exp p then p
  else if Exp.points_hit (current_experiment p) <=? HITS_TO_INC_EXP_TIME then
    if MAX_EXP_TIME <? to_ulong (experiment_time p * 2)
    then set_experiment_time MAX_EXP_TIME p
    else set_experiment_time (to_ulong (experiment_time p * EXP_TIME_FACTOR)) p
  else if (MIN_EXP_TIME <? experiment_time p)
          && (HITS_TO_DEC_EXP_TIME <=? Exp.points_hit (current_experiment p))
  then set_experiment_time (experiment_time p / EXP_TIME_FACTOR) p
  else p.

(** One trial that ended with [hits] progress-point hits, as
    [runExperiment] feeds it to the controller, and a series of them. *)
Definition trial (p : Profiler) (hits : Z) : Profiler :=
  update_experiment_length
    (set_current_experiment (Exp.set_points_hit hits (current_experiment p)) p).

Definition trials (hits : list Z) (p : Profiler) : Profiler :=
  fold_left trial hits p.

(** The durations the controller moves between: the minimum doubled a
    number of times, up to the maximum. *)
Definition on_ladder (t : Z) : Prop :=
  exists k : nat, t = MIN_EXP_TIME * 2 ^ Z.of_nat k /\ t <= MAX_EXP_TIME.

End WithHeader.
End Duration.

(** ** The initial statics

    The initialisers at the top of [profiler.cc]; statics without an
    initialiser are zeroed. *)

Definition zero_frame : Frame.JVMPI_CallFrame :=
  {| Frame.lineno := 0; Frame.method_id := 0 |}.

Definition zero_experiment : Exp.Experiment :=
  {| Exp.method_id := 0; Exp.lineno := 0; Exp.bci := 0;
     Exp.location_ranges := []; Exp.num_ranges := 0;
     Exp.speedup := S754_zero false; Exp.delay := 0; Exp.points_hit := 0;
     Exp.duration := 0 |}.

Definition initial_profiler `{Header} : Profiler :=
  {| in_scope_ids := ∅; in_experiment := false;
     current_experiment := zero_experiment; global_delay := 0;
     points_hit := 0; _running := false; end_to_end := false;
     experiment_time := MIN_EXP_TIME; prof_ready := false; fix_exp := false;
     call_index := 0;
     static_call_frames := replicate (Z.to_nat NUM_STATIC_CALL_FRAMES) zero_frame |}.

(** A header to run the definitions on. *)
Definition sample_header : Header :=
  {| MIN_EXP_TIME := 5000; MAX_EXP_TIME := 80000; EXP_TIME_FACTOR := 2;
     HITS_TO_INC_EXP_TIME := 5; HITS_TO_DEC_EXP_TIME := 20;
     NUM_STATIC_CALL_FRAMES := 200; kNumCallTraceErrors := 10 |}.

(** ** The bytecode ranges of an experiment

    The blocks of [Profiler::runAgentThread] that fill in
    [current_experiment] once a frame and its line-number table are
    chosen, and [Profiler::inExperiment]. *)

Module Ranges.
Import MachineInt.

#[global] Instance jvmtiLineNumberEntry_inhabited : Inhabited jvmtiLineNumberEntry :=
  populate {| start_location := 0; line_number := 0 |}.

(** [for (int i = 1; i <= num_entries; i++)]: the line of the entry
    before the first one that starts after the frame's bytecode index.
    The loop leaves [current_experiment.lineno] as it was on an empty
    table. *)
Definition resolve_lineno
    (entries : list jvmtiLineNumberEntry) (frame_lineno old_lineno : Z) : Z :=
  let num_entries := length entries in
  (fix loop (indices : list nat) : Z :=
     match indices with
     | [] => old_lineno
     | i :: rest =>
         if (i =? num_entries)%nat
            || (frame_lineno <? start_location (entries !!! i))
         then line_number (entries !!! (i - 1)%nat)
         else loop rest
     end) (seq 1 num_entries).

(** The range pushed for entry [i]; the pair holds [jint]s. *)
Definition range_of_entry (entries : list jvmtiLineNumberEntry) (i : nat) : Z * Z :=
  if Z.of_nat i <? Z.of_nat (length entries) - 1
  then (to_jint (start_location (entries !!! i)),
        to_jint (start_location (entries !!! (i + 1)%nat)))
  else (to_jint (start_location (entries !!! i)), MAX_BCI + 1).

(** [for (int i = 0; i < num_entries; i++)] with its [push_back]. *)
Definition build_location_ranges
    (entries : list jvmtiLineNumberEntry) (lineno : Z) : list (Z * Z) :=
  fold_left
    (fun location_ranges i =>
       if line_number (entries !!! i) =? lineno
       then location_ranges ++ [range_of_entry entries i]
       else location_ranges)
    (seq 0 (length entries)) [].

(** Lines 563-604: the experiment for [exp_frame] and its table. *)
Definition select_experiment
    (exp_frame : Frame.JVMPI_CallFrame) (entries : list jvmtiLineNumberEntry)
    (p : Profiler) : Profiler :=
  let e := Exp.set_target (Frame.method_id exp_frame) (Frame.lineno exp_frame)
             (current_experiment p) in
  let e := Exp.set_lineno
             (resolve_lineno entries (Frame.lineno exp_frame) (Exp.lineno e)) e in
  let location_ranges := build_location_ranges entries (Exp.lineno e) in
  let e := Exp.set_location_ranges
             (Z.of_nat (length location_ranges)) location_ranges e in
  set_call_frames 0 (static_call_frames p) (set_current_experiment e p).

(** [Profiler::inExperiment] *)
Definition inExperiment (curr_frame : Frame.JVMPI_CallFrame) (p : Profiler) : bool :=
  let e := current_experiment p in
  if negb (Frame.method_id curr_frame =? Exp.method_id e) then false
  else
    existsb
      (fun i =>
         let range := Exp.location_ranges e !!! i in
         (range.1 <=? Frame.lineno curr_frame)
         && (Frame.lineno curr_frame <? range.2))
      (seq 0 (Z.to_nat (Exp.num_ranges e))).

(** What the host runtime hands out: bytecode indices. *)
Definition valid_entry (e : jvmtiLineNumberEntry) : Prop :=
  0 <= start_location e <= MAX_BCI.

(** The exclusive end the specification gives to the range of entry [i]. *)
Definition next_start (entries : list jvmtiLineNumberEntry) (i : nat) : Z :=
  match entries !! S i with
  | Some next => start_location next
  | None => MAX_BCI + 1
  end.

(** A table with line 10 in two places, and a frame at bytecode 3. *)
Definition sample_entries : list jvmtiLineNumberEntry :=
  [ {| start_location := 0; line_number := 10 |};
    {| start_location := 5; line_number := 11 |};
    {| start_location := 9; line_number := 10 |} ].

Definition sample_exp_frame : Frame.JVMPI_CallFrame :=
  {| Frame.lineno := 3; Frame.method_id := 77 |}.

End Ranges.

(** ** What the agent does to the world around it *)

(** One row of the output file:
    [line,speedup,duration,effectiveDuration,points_hit]. *)
Record Row := {
  row_class : string;
  row_lineno : Z;
  row_speedup : spec_float;
  row_duration : Z;
  row_effective_duration : Z;
  row_points_hit : Z
}.

Inductive Event :=
| Sleep (nanoseconds : Z)          (* [nanosleep] of [tv_sec = 0], [tv_nsec = nanoseconds] *)
| SignalUserThreads                (* [SIGPROF] sent to every registered thread *)
| AddHit (class_sig : string) (method_id lineno bci : Z)   (* [bci_hits::add_hit] *)
| AppendRow (row : Row).           (* a row appended to the output file *)

(** [jcoz_sleep]: nothing happens for 0 nanoseconds; otherwise
    [nanosleep] is asked for [nanoseconds], again for what it reports as
    left while it fails, and the time that went by on the clock from
    before the first call to after the last, [elapsed], is returned.
    What the system makes of the request is not modelled: [elapsed] is
    any number. *)
Definition jcoz_sleep (nanoseconds elapsed : Z) : Z * list Event :=
  if nanoseconds =? 0 then (0, []) else (elapsed, [Sleep nanoseconds]).

(** ** The handlers ([Profiler::Handle], [Profiler::HandleBreakpoint])

    A handler runs on the interrupted thread: it sees the statics and the
    thread's own [curr_ut], which is NULL for a thread outside the main
    group.  A dereference of NULL has no result ([None]).  One run of a
    handler is modelled without interleaving; the spin locks it takes are
    free then and are left out. *)

Module Handler.
Import MachineInt Ranges.

Section WithHeader.
Context `{Header}.

(** [Profiler::frameInScope] *)
Definition frameInScope (curr_frame : Frame.JVMPI_CallFrame) (p : Profiler) : bool :=
  bool_decide (Frame.method_id curr_frame ∈ in_scope_ids p).

(** The frames [trace.frames[0 .. trace.num_frames - 1]] a loop visits;
    the stack walk fills in as many frames as it counts. *)
Definition scanned (trace : JVMPI_CallTrace) : list Frame.JVMPI_CallFrame :=
  take (Z.to_nat (num_frames trace)) (frames trace).

(** The body of [if (frameInScope(curr_frame))]: [call_index] is an
    atomic [int]; a negative index would write in front of the array. *)
Definition record_frame (curr_frame : Frame.JVMPI_CallFrame) (p : Profiler)
  : option Profiler :=
  let index := call_index p in
  if index <? 0 then None
  else
    Some (set_call_frames (to_jint (index + 1))
            (if index <? NUM_STATIC_CALL_FRAMES
             then <[Z.to_nat index := curr_frame]> (static_call_frames p)
             else static_call_frames p)
            p).

(** The signal is not handled: the profiler is not ready, the thread has
    no JNI environment, or the stack walk failed with a code out of the
    range of the known ones. *)
Definition not_handled (jni_env_present : bool) (trace : JVMPI_CallTrace)
    (p : Profiler) : bool :=
  negb (prof_ready p)
  || negb jni_env_present
  || ((num_frames trace <? 0) && (kNumCallTraceErrors <? - num_frames trace)).

(** [elapsed] is what the clock measures over the sleep of the handler,
    should it sleep.  [num_signals_received] is incremented as an
    integer without a width: it stays between 0 and 10. *)
Definition Handle (jni_env_present : bool) (trace : JVMPI_CallTrace) (elapsed : Z)
    (p : Profiler) (curr_ut : option UT.UserThread)
  : option (Profiler * option UT.UserThread * list Event) :=
  if not_handled jni_env_present trace p then Some (p, curr_ut, [])
  else
    match curr_ut with
    | None => None
    | Some ut =>
        if negb (in_experiment p) then
          let ut := UT.set_local_delay 0 ut in
          match List.find (fun f => frameInScope f p) (scanned trace) with
          | Some curr_frame =>
              p' ← record_frame curr_frame p; Some (p', Some ut, [])
          | None => Some (p, Some ut, [])
          end
        else
          let ut := UT.set_num_signals_received (UT.num_signals_received ut + 1) ut in
          let ut :=
            if existsb (fun f => inExperiment f p) (scanned trace)
            then UT.set_local_delay
                   (long_add (UT.local_delay ut) (Exp.delay (current_experiment p))) ut
            else ut in
          let '(p, ut, events) :=
            if UT.num_signals_received ut =? 10 then
              let sleep_diff := long_sub (global_delay p) (UT.local_delay ut) in
              let '(p, ut, events) :=
                if 0 <? sleep_diff then
                  let '(slept, events) := jcoz_sleep sleep_diff elapsed in
                  (p, UT.set_local_delay (long_add (UT.local_delay ut) slept) ut, events)
                else
                  (set_global_delay (long_add (global_delay p) (labs sleep_diff)) p,
                   ut, [])
              in (p, UT.set_num_signals_received 0 ut, events)
            else (p, ut, []) in
          let p := set_points_hit (to_ulong (points_hit p + UT.points_hit ut)) p in
          let ut := UT.set_points_hit 0 ut in
          Some (p, Some ut, events)
    end.

(** [curr_ut->points_hit += in_experiment] *)
Definition HandleBreakpoint (p : Profiler) (curr_ut : option UT.UserThread)
  : option UT.UserThread :=
  ut ← curr_ut;
  Some (UT.set_points_hit
          (long_add (UT.points_hit ut) (if in_experiment p then 1 else 0)) ut).

(** [Profiler::addUserThread], for the record of the new thread:
    [in_main] is the answer of [thread_in_main]; [new struct UserThread()]
    zeroes the counter of signals. *)
Definition addUserThread (in_main : bool) (p : Profiler) : option UT.UserThread :=
  if in_main
  then Some {| UT.local_delay := global_delay p; UT.points_hit := 0;
               UT.num_signals_received := 0 |}
  else None.

(** What one thread goes through: sampling signals and hits of the
    progress point. *)
Inductive ThreadEvent :=
| Signal (jni_env_present : bool) (trace : JVMPI_CallTrace) (elapsed : Z)
| Breakpoint.

Definition thread_step (ev : ThreadEvent) (p : Profiler) (curr_ut : option UT.UserThread)
  : option (Profiler * option UT.UserThread * list Event) :=
  match ev with
  | Signal jni_env_present trace elapsed => Handle jni_env_present trace elapsed p curr_ut
  | Breakpoint => ut ← HandleBreakpoint p curr_ut; Some (p, Some ut, [])
  end.

Fixpoint thread_run (evs : list ThreadEvent) (p : Profiler)
    (curr_ut : option UT.UserThread)
  : option (Profiler * option UT.UserThread * list Event) :=
  match evs with
  | [] => Some (p, curr_ut, [])
  | ev :: evs' =>
      '(p1, ut1, events1) ← thread_step ev p curr_ut;
      '(p2, ut2, events2) ← thread_run evs' p1 ut1;
      Some (p2, ut2, events1 ++ events2)
  end.

Definition is_handled_signal (p : Profiler) (ev : ThreadEvent) : bool :=
  match ev with
  | Signal jni_env_present trace _ => negb (not_handled jni_env_present trace p)
  | Breakpoint => false
  end.

(** What a handler outside an experiment leaves alone. *)
Definition same_outside (p p' : Profiler) : Prop :=
  in_experiment p' = in_experiment p /\
  prof_ready p' = prof_ready p /\
  global_delay p' = global_delay p /\
  points_hit p' = points_hit p /\
  current_experiment p' = current_experiment p /\
  call_index p <= call_index p' <= call_index p + 1.

(** Nanosecond amounts a run can reach: far inside the range of [long]. *)
Definition nanoseconds_amount (z : Z) : Prop := 0 <= z < 2 ^ 61.

End WithHeader.

(** An experiment under way on the sample table: a quarter of the signal
    period is the delay quantum and 600000 ns are on the ledger. *)
Definition sample_profiler : Profiler :=
  let p := select_experiment sample_exp_frame sample_entries
             (@initial_profiler sample_header) in
  set_global_delay 600000
    (set_in_experiment true
       (set_prof_ready true
          (set_current_experiment
             (Exp.set_delay 250000 (current_experiment p)) p))).

Definition sample_trace : JVMPI_CallTrace :=
  {| num_frames := 2;
     frames := [ {| Frame.lineno := 7; Frame.method_id := 12 |};
                 sample_exp_frame ] |}.

Definition sample_thread : UT.UserThread :=
  {| UT.local_delay := 100000; UT.points_hit := 2;
     UT.num_signals_received := 9 |}.

End Handler.

(** ** The scheduler ([Profiler::runAgentThread], [Profiler::runExperiment])

    The scheduler thread only stops in [jcoz_sleep].  While it sleeps the
    other threads run: their handlers add to [points_hit] and to the
    ledger, and [Profiler::Stop] clears [_running].  What the scheduler
    finds when it wakes up is an input of the model, one [Wakeup] a
    sleep; a loop that waits longer than the wake-ups it is given has no
    result. *)

Module Scheduler.
Import MachineInt Float32 Speedup Duration.

Record Wakeup := {
  elapsed : Z;
  running_now : bool;
  points_hit_now : Z;
  global_delay_now : Z
}.

(** The statics, the clock in nanoseconds and what was done so far. *)
Record World := {
  prof : Profiler;
  now : Z;
  events : list Event
}.

Definition with_prof (p : Profiler) (w : World) : World :=
  {| prof := p; now := now w; events := events w |}.

Definition log (evs : list Event) (w : World) : World :=
  {| prof := prof w; now := now w; events := events w ++ evs |}.

(** [jcoz_sleep(nanoseconds)] on the scheduler thread. *)
Definition sleep (nanoseconds : Z) (wk : Wakeup) (w : World) : World :=
  {| prof := set_global_delay (global_delay_now wk)
               (set_points_hit (points_hit_now wk)
                  (set_running (running_now wk) (prof w)));
     now := now w + elapsed wk;
     events := events w ++ snd (jcoz_sleep nanoseconds (elapsed wk)) |}.

(** [Profiler::signal_user_threads] *)
Definition signal_user_threads (w : World) : World := log [SignalUserThreads] w.

(** *** The sampling rounds of [runAgentThread] *)

(** [2 * SIGNAL_FREQ - (rand() % SIGNAL_FREQ)] *)
Definition curr_sleep_of (rand_value : Z) : Z :=
  2 * SIGNAL_FREQ - Z.rem rand_value SIGNAL_FREQ.

Definition total_needed_time : Z := 30 * SIGNAL_FREQ.

(** [while (total_accrued_time < total_needed_time)]: the events of the
    loop, the time accrued at its end and the draws left over.  The loop
    accrues the time it asked for, not what [jcoz_sleep] returns. *)
Fixpoint sampling_loop (rands : list Z) (total_accrued_time : Z)
  : option (list Event * Z * list Z) :=
  if total_accrued_time <? total_needed_time then
    match rands with
    | [] => None
    | rand_value :: rands' =>
        let curr_sleep := curr_sleep_of rand_value in
        '(evs, total, rest) ← sampling_loop rands' (total_accrued_time + curr_sleep);
        Some (snd (jcoz_sleep curr_sleep curr_sleep) ++ SignalUserThreads :: evs,
              total, rest)
    end
  else Some ([], total_accrued_time, rands).

(** What the loop does on the draws it uses: a sleep, then a broadcast. *)
Definition sampling_events (used : list Z) : list Event :=
  flat_map (fun r => [Sleep (curr_sleep_of r); SignalUserThreads]) used.

(** The intervals a draw can give. *)
Definition attainable (interval : Z) : Prop :=
  exists rand_value : Z, 0 <= rand_value /\ curr_sleep_of rand_value = interval.

(** The intervals lie symmetrically about [twice_center / 2]. *)
Definition centered_on_half_of (twice_center : Z) : Prop :=
  forall interval : Z, attainable interval <-> attainable (twice_center - interval).

Definition sum_Z (l : list Z) : Z := fold_right Z.add 0 l.

(** Thirty draws that all give the shortest interval. *)
Definition sample_rands : list Z := repeat (SIGNAL_FREQ - 1) 30.

(** *** [runExperiment] *)

(** [Profiler::cleanSignature] *)
Fixpoint clean_chars (s : string) : string :=
  match s with
  | EmptyString => EmptyString
  | String c rest =>
      if Ascii.eqb c "/" then String "." (clean_chars rest)
      else if Ascii.eqb c "$" then EmptyString
      else String c (clean_chars rest)
  end.

Definition cleanSignature (sig : string) : string :=
  let sig_len := String.length sig in
  if (sig_len <? 3)%nat then sig
  else clean_chars (String.substring 1 (sig_len - 2) sig).

Section WithHeader.
Context `{Header}.

(** Lines 376-381: the experiment is switched on and its speedup drawn. *)
Definition experiment_started (rand_value : Z) (w : World) : World :=
  let p := set_points_hit 0 (set_in_experiment true (prof w)) in
  let speedup := calculate_random_speedup rand_value in
  let e := Exp.set_speedup speedup (current_experiment p) in
  let e := Exp.set_delay (delay_of_speedup speedup) e in
  with_prof (set_current_experiment e p) w.

(** [start + duration], [experiment_time] being in milliseconds. *)
Definition end_time (w : World) : Z := now w + experiment_time (prof w) * 1000000.

(** The condition of the [while] of [runExperiment]. *)
Definition wait_condition (end_ : Z) (w : World) : bool :=
  _running (prof w)
  && ((end_to_end (prof w) && (points_hit (prof w) =? 0)) || (now w <? end_)).

Definition wait_round (wk : Wakeup) (w : World) : World :=
  signal_user_threads (sleep SIGNAL_FREQ wk w).

Fixpoint wait_loop (end_ : Z) (wakeups : list Wakeup) (w : World)
  : option (World * list Wakeup) :=
  if wait_condition end_ w then
    match wakeups with
    | [] => None
    | wk :: wakeups' => wait_loop end_ wakeups' (wait_round wk w)
    end
  else Some (w, wakeups).

(** [rand_value] is the draw of [rand()]; [class_sig] is what
    [getClassFromMethodIDLocation] returns, [None] for NULL. *)
Definition runExperiment (rand_value : Z) (class_sig : option string)
    (wakeups : list Wakeup) (w : World) : option (World * list Wakeup) :=
  let w := experiment_started rand_value w in
  let start := now w in
  let end_ := end_time w in
  '(w, wakeups) ← wait_loop end_ wakeups w;
  match wakeups with
  | wk1 :: wk2 :: wakeups =>
      let w := sleep SIGNAL_FREQ wk1 w in
      let w := with_prof (set_in_experiment false (prof w)) w in
      let w := signal_user_threads w in
      let w := sleep SIGNAL_FREQ wk2 w in
      if negb (_running (prof w)) then Some (w, wakeups)
      else
        let expEnd := now w in
        let p := prof w in
        let e := Exp.set_delay (global_delay p) (current_experiment p) in
        let e := Exp.set_points_hit (points_hit p) e in
        let p := set_points_hit 0 p in
        let e := Exp.set_duration (expEnd - start) e in
        let p := set_global_delay 0 (set_current_experiment e p) in
        match class_sig with
        | None => Some (with_prof p w, wakeups)
        | Some sig =>
            let sig := cleanSignature sig in
            let p := update_experiment_length p in
            let e := current_experiment p in
            let effectiveDuration := long_sub (Exp.duration e) (Exp.delay e) in
            Some (log [ AddHit sig (Exp.method_id e) (Exp.lineno e) (Exp.bci e);
                        AppendRow {| row_class := sig;
                                     row_lineno := Exp.lineno e;
                                     row_speedup := Exp.speedup e;
                                     row_duration := Exp.duration e;
                                     row_effective_duration := effectiveDuration;
                                     row_points_hit := Exp.points_hit e |} ]
                    (with_prof p w),
                  wakeups)
        end
  | _ => None
  end.

(** The loop is still waiting after each of the wake-ups of [pre]. *)
Fixpoint waits_through (end_ : Z) (pre : list Wakeup) (w : World) : bool :=
  wait_condition end_ w
  && match pre with
     | [] => true
     | wk :: pre' => waits_through end_ pre' (wait_round wk w)
     end.

Definition wait_rounds (wks : list Wakeup) (w : World) : World :=
  fold_left (fun w wk => wait_round wk w) wks w.

(** The rows of the output file among the events. *)
Definition appended_rows (evs : list Event) : list Row :=
  flat_map (fun ev => match ev with AppendRow row => [row] | _ => [] end) evs.

(** What the wait loop does on the wake-ups it uses. *)
Definition wait_events (wks : list Wakeup) : list Event :=
  flat_map (fun _ => [Sleep SIGNAL_FREQ; SignalUserThreads]) wks.

End WithHeader.

(** The scheduler of the sample header at work, the profiler started;
    the same in end-to-end mode with one hit already counted. *)
Definition sample_world : World :=
  {| prof := set_running true (set_prof_ready true (@initial_profiler sample_header));
     now := 0; events := [] |}.

Definition sample_end_to_end_world : World :=
  with_prof (set_points_hit 1 (set_end_to_end true (prof sample_world))) sample_world.

(** The scheduler in end-to-end mode before any hit. *)
Definition sample_waiting_world : World :=
  with_prof (set_end_to_end true (prof sample_world)) sample_world.

(** A wake-up after one millisecond with nothing changed, one that finds
    the profiler stopped, and one after six seconds with a hit counted. *)
Definition wakeup_quiet : Wakeup :=
  {| elapsed := 1000000; running_now := true; points_hit_now := 0;
     global_delay_now := 0 |}.

Definition wakeup_stopped : Wakeup :=
  {| elapsed := 1000000; running_now := false; points_hit_now := 0;
     global_delay_now := 0 |}.

Definition wakeup_late : Wakeup :=
  {| elapsed := 6000000000; running_now := true; points_hit_now := 1;
     global_delay_now := 0 |}.

End Scheduler.

(** ** Strings of the configuration and of the output *)

Module Text.

(** [std::replace(begin, end, from, to)] *)
Fixpoint replace_char (from to : ascii) (s : string) : string :=
  match s with
  | EmptyString => EmptyString
  | String c rest =>
      String (if Ascii.eqb c from then to else c) (replace_char from to rest)
  end.


Fixpoint has_char (c : ascii) (s : string) : bool :=
  match s with
  | EmptyString => false
  | String d rest => Ascii.eqb d c || has_char c rest
  end.

(** A prefix that has a first character, and not the marker [L] of a
    class signature. *)
Definition starts_off_marker (prefix : string) : bool :=
  match prefix with
  | EmptyString => false
  | String c _ => negb (Ascii.eqb c "L")
  end.

End Text.

(** ** The candidate frames of a round

    The order and the equality of call frames, and the blocks of
    [Profiler::runAgentThread] that copy the sampled frames out of the
    static buffer and remove the duplicates. *)

Module Frames.
Import Handler.

#[global] Instance JVMPI_CallFrame_inhabited : Inhabited Frame.JVMPI_CallFrame :=
  populate zero_frame.

(** [operator<] on call frames; method identities are addresses. *)
Definition frame_lt (lhs rhs : Frame.JVMPI_CallFrame) : bool :=
  if Frame.method_id lhs =? Frame.method_id rhs
  then Frame.lineno lhs <? Frame.lineno rhs
  else Frame.method_id lhs <? Frame.method_id rhs.

(** [operator==] on call frames. *)
Definition frame_eq (lhs rhs : Frame.JVMPI_CallFrame) : bool :=
  (Frame.method_id lhs =? Frame.method_id rhs)
  && (Frame.lineno lhs =? Frame.lineno rhs).

(** [rhs] does not come before [lhs]. *)
Definition frame_le (lhs rhs : Frame.JVMPI_CallFrame) : Prop :=
  frame_lt rhs lhs = false.

#[global] Instance frame_le_dec (lhs rhs : Frame.JVMPI_CallFrame) :
  Decision (frame_le lhs rhs) := decide (frame_lt rhs lhs = false).

(** [std::sort(begin, end)]: the frames in the order of [operator<].
    Frames the order does not tell apart are equal, so every sorting
    algorithm returns the same list; it is computed by a merge sort. *)
Definition sort (call_frames : list Frame.JVMPI_CallFrame)
  : list Frame.JVMPI_CallFrame :=
  merge_sort frame_le call_frames.

(** [std::unique(begin, end)] with the [erase] of the tail: of every run
    of equal neighbours the first is kept. *)
Fixpoint unique_after (prev : Frame.JVMPI_CallFrame)
    (l : list Frame.JVMPI_CallFrame) : list Frame.JVMPI_CallFrame :=
  match l with
  | [] => []
  | f :: l' => if frame_eq prev f then unique_after prev l'
               else f :: unique_after f l'
  end.

Definition unique (l : list Frame.JVMPI_CallFrame) : list Frame.JVMPI_CallFrame :=
  match l with
  | [] => []
  | f :: l' => f :: unique_after f l'
  end.

(** Lines 530-532: sort, unique, erase. *)
Definition unique_call_frames (call_frames : list Frame.JVMPI_CallFrame)
  : list Frame.JVMPI_CallFrame :=
  unique (sort call_frames).

Section WithHeader.
Context `{Header}.

(** Lines 518-521:
    [for (i = 0; (i < call_index) && (i < NUM_STATIC_CALL_FRAMES); i++)]
    pushes [static_call_frames[i]]. *)
Definition copied_frames (p : Profiler) : list Frame.JVMPI_CallFrame :=
  map (fun i => static_call_frames p !!! i)
    (seq 0 (Z.to_nat (Z.min (call_index p) NUM_STATIC_CALL_FRAMES))).

(** The frame a thread event hands to the buffer outside an experiment:
    the first frame in scope of a handled signal. *)
Definition sampled_frame (p : Profiler) (ev : ThreadEvent)
  : option Frame.JVMPI_CallFrame :=
  match ev with
  | Signal jni_env_present trace _ =>
      if not_handled jni_env_present trace p then None
      else List.find (fun f => frameInScope f p) (scanned trace)
  | Breakpoint => None
  end.

Definition sampled_frames (p : Profiler) (evs : list ThreadEvent)
  : list Frame.JVMPI_CallFrame :=
  omap (sampled_frame p) evs.

(** What a step outside an experiment does to the buffer. *)
Definition buffer_step (p p' : Profiler) (new : list Frame.JVMPI_CallFrame) : Prop :=
  in_experiment p' = in_experiment p /\
  prof_ready p' = prof_ready p /\
  in_scope_ids p' = in_scope_ids p /\
  length (static_call_frames p') = length (static_call_frames p) /\
  call_index p' = call_index p + Z.of_nat (length new) /\
  copied_frames p' =
    take (Z.to_nat NUM_STATIC_CALL_FRAMES) (copied_frames p ++ new).

End WithHeader.

(** [Profiler::addInScopeMethods] and [Profiler::clearInScopeMethods] *)
Definition set_in_scope_ids (ids : gset Z) (p : Profiler) : Profiler :=
  {| in_scope_ids := ids; in_experiment := in_experiment p;
     current_experiment := current_experiment p; global_delay := global_delay p;
     points_hit := points_hit p; _running := _running p;
     end_to_end := end_to_end p; experiment_time := experiment_time p;
     prof_ready := prof_ready p; fix_exp := fix_exp p;
     call_index := call_index p; static_call_frames := static_call_frames p |}.

Definition addInScopeMethods (methods : list Z) (p : Profiler) : Profiler :=
  set_in_scope_ids
    (fold_left (fun ids method => {[method]} ∪ ids) methods (in_scope_ids p)) p.

Definition clearInScopeMethods (p : Profiler) : Profiler := set_in_scope_ids ∅ p.

(** The sample scheduler with the method of the sample frame in scope,
    and a thread that is sampled twice and hits the progress point. *)
Definition sample_sampling_profiler : Profiler :=
  addInScopeMethods [77] (set_prof_ready true (@initial_profiler sample_header)).

Definition sample_thread_events : list ThreadEvent :=
  [Signal true sample_trace 0; Breakpoint; Signal true sample_trace 0].

End Frames.

(** ** Threads that come and go

    [user_threads] is the set of the addresses of the records of the
    registered threads; a thread knows its own record by [curr_ut]. *)

Module Threads.
Import MachineInt Handler.

(** [Profiler::addUserThread] with the registry: [address] is where
    [new] puts the record. *)
Definition register (address : Z) (in_main : bool) (p : Profiler)
    (user_threads : gset Z) : option (Z * UT.UserThread) * gset Z :=
  match addUserThread in_main p with
  | Some ut => (Some (address, ut), {[address]} ∪ user_threads)
  | None => (None, user_threads)
  end.

(** [Profiler::removeUserThread]; [elapsed] is what the clock measures
    over the sleep, should the thread sleep. *)
Definition removeUserThread (elapsed : Z) (p : Profiler) (user_threads : gset Z)
    (curr_ut : option (Z * UT.UserThread)) : Profiler * gset Z * list Event :=
  match curr_ut with
  | None => (p, user_threads, [])
  | Some (address, ut) =>
      let p := set_points_hit (to_ulong (points_hit p + UT.points_hit ut)) p in
      let sleep_time := long_sub (global_delay p) (UT.local_delay ut) in
      let '(p, events) :=
        if 0 <? sleep_time
        then (p, snd (jcoz_sleep (Z.max 0 sleep_time) elapsed))
        else (set_global_delay (long_add (global_delay p) (labs sleep_time)) p, [])
      in (p, user_threads ∖ {[address]}, events)
  end.


(** Two threads level with the ledger of the sample experiment, each
    one signal short of its tenth, and a stack outside the experiment. *)
Definition sample_level_thread : UT.UserThread :=
  {| UT.local_delay := 600000; UT.points_hit := 0;
     UT.num_signals_received := 9 |}.

Definition sample_other_trace : JVMPI_CallTrace :=
  {| num_frames := 1;
     frames := [ {| Frame.lineno := 7; Frame.method_id := 12 |} ] |}.

End Threads.

(** ** The choice of the experiment of a round

    Lines 533-562 of [Profiler::runAgentThread].  [std::random_shuffle]
    leaves some permutation of the frames; which one is an input.
    [table] is [GetLineNumberTable]: the line number table of a method,
    [None] when the call reports an error (it leaves [entries] NULL
    then). *)

Module Rounds.
Import Ranges.

(** [for (int i = 0; i < call_frames.size(); i++)]: the first frame the
    table of whose method is found; [None] when [entries] is NULL after
    the loop. *)
Fixpoint first_with_table (table : Z -> option (list jvmtiLineNumberEntry))
    (call_frames : list Frame.JVMPI_CallFrame)
  : option (Frame.JVMPI_CallFrame * list jvmtiLineNumberEntry) :=
  match call_frames with
  | [] => None
  | exp_frame :: rest =>
      match table (Frame.method_id exp_frame) with
      | Some entries => Some (exp_frame, entries)
      | None => first_with_table table rest
      end
  end.

(** The statics when [runExperiment] is called; [None] is the
    [continue] of a round without a candidate. *)
Definition round_experiment (table : Z -> option (list jvmtiLineNumberEntry))
    (shuffled : list Frame.JVMPI_CallFrame) (p : Profiler) : option Profiler :=
  '(exp_frame, entries) ← first_with_table table shuffled;
  Some (select_experiment exp_frame entries
          (set_call_frames 0 (static_call_frames p) p)).

(** The table of the sample method, the only one the virtual machine
    knows. *)
Definition sample_table (method : Z) : option (list jvmtiLineNumberEntry) :=
  if method =? 77 then Some sample_entries else None.

(** The statics and the thread after the sample events of a sampling. *)
Definition sample_sampled_profiler : Profiler :=
  match @Handler.thread_run sample_header Frames.sample_thread_events
          Frames.sample_sampling_profiler (Some Handler.sample_thread) with
  | Some (p, _, _) => p
  | None => Frames.sample_sampling_profiler
  end.

Definition sample_sampled_thread : UT.UserThread :=
  match @Handler.thread_run sample_header Frames.sample_thread_events
          Frames.sample_sampling_profiler (Some Handler.sample_thread) with
  | Some (_, Some ut, _) => ut
  | _ => Handler.sample_thread
  end.

End Rounds.

(** ** The progress point

    The check of the class in [CreateJMethodIDsForClass] ([entry.cc]),
    [Profiler::addProgressPoint] and [Profiler::clearProgressPoint]. *)

Module Progress.
Import ScopeFilter.

(** [klass_sig.replace(klass_sig.length() - 1, 1, "\0")]: the literal is
    an empty C string, so the last character is erased.  On the empty
    string the position is out of range and [replace] throws ([None]). *)
Fixpoint erase_last (klass_sig : string) : option string :=
  match klass_sig with
  | EmptyString => None
  | String c rest =>
      match rest with
      | EmptyString => Some EmptyString
      | String _ _ => String c <$> erase_last rest
      end
  end.

(** Lines 205-222 of [entry.cc]: whether [addProgressPoint] is called for
    a class of signature [klass_sig]. *)
Definition progress_class_check (progress_class klass_sig : string) : option bool :=
  match strstr klass_sig progress_class with
  | Some 0%nat =>
      stripped ← erase_last klass_sig;
      Some (String.eqb stripped progress_class)
  | _ => Some false
  end.

(** [struct ProgressPoint]; [method_id] is an address, 0 for [nullptr]. *)
Record ProgressPoint := {
  lineno : Z;
  method_id : Z;
  location : Z
}.

Inductive BreakpointCall :=
| SetBreakpoint (method location : Z)
| ClearBreakpoint (method location : Z).

(** The inner loop of [addProgressPoint]: the first entry of the line. *)
Definition entry_on_line (lineno : Z) (entries : list jvmtiLineNumberEntry)
  : option jvmtiLineNumberEntry :=
  List.find (fun curr_entry => line_number curr_entry =? lineno) entries.

(** The outer loop: a method comes with its line number table, [None]
    when [GetLineNumberTable] fails. *)
Fixpoint first_on_line (lineno : Z)
    (methods : list (Z * option (list jvmtiLineNumberEntry))) : option (Z * Z) :=
  match methods with
  | [] => None
  | (method, table) :: rest =>
      match table with
      | None => first_on_line lineno rest
      | Some entries =>
          match entry_on_line lineno entries with
          | Some curr_entry => Some (method, start_location curr_entry)
          | None => first_on_line lineno rest
          end
      end
  end.

(** [Profiler::addProgressPoint]; [None] is [exit(1)]. *)
Definition addProgressPoint (end_to_end : bool)
    (methods : list (Z * option (list jvmtiLineNumberEntry)))
    (progress_point : ProgressPoint)
  : option (ProgressPoint * list BreakpointCall) :=
  if end_to_end || negb (method_id progress_point =? 0)
  then Some (progress_point, [])
  else
    match first_on_line (lineno progress_point) methods with
    | Some (method, loc) =>
        Some ({| lineno := lineno progress_point; method_id := method;
                 location := loc |},
              [SetBreakpoint method loc])
    | None => None
    end.

(** [Profiler::clearProgressPoint] *)
Definition clearProgressPoint (end_to_end : bool) (progress_point : ProgressPoint)
  : ProgressPoint * list BreakpointCall :=
  if negb end_to_end && negb (method_id progress_point =? 0)
  then ({| lineno := lineno progress_point; method_id := 0;
           location := location progress_point |},
        [ClearBreakpoint (method_id progress_point) (location progress_point)])
  else (progress_point, []).

(** [addProgressPoint] for the classes that pass the check, one after
    the other, with the calls of all of them. *)
Fixpoint add_for_classes (end_to_end : bool)
    (classes : list (list (Z * option (list jvmtiLineNumberEntry))))
    (progress_point : ProgressPoint)
  : option (ProgressPoint * list BreakpointCall) :=
  match classes with
  | [] => Some (progress_point, [])
  | methods :: rest =>
      '(progress_point, calls) ← addProgressPoint end_to_end methods progress_point;
      '(progress_point, more) ← add_for_classes end_to_end rest progress_point;
      Some (progress_point, calls ++ more)
  end.

(** No entry of the table of the method, should it have one, is on the
    line. *)
Definition off_line (lineno : Z) (m : Z * option (list jvmtiLineNumberEntry))
  : Prop :=
  forall entries : list jvmtiLineNumberEntry,
  snd m = Some entries -> List.Forall (fun e => line_number e <> lineno) entries.

(** Every method identity handed over is a real one. *)
Definition real_methods (methods : list (Z * option (list jvmtiLineNumberEntry)))
  : Prop :=
  List.Forall (fun m => fst m <> 0) methods.

(** The progress point after [ParseOptions] for line 12, and a class
    whose second method has the line. *)
Definition sample_progress_point : ProgressPoint :=
  {| lineno := 12; method_id := 0; location := 0 |}.

Definition sample_methods : list (Z * option (list jvmtiLineNumberEntry)) :=
  [ (40, None);
    (48, Some [ {| start_location := 0; line_number := 10 |} ]);
    (56, Some [ {| start_location := 0; line_number := 11 |};
                {| start_location := 6; line_number := 12 |};
                {| start_location := 9; line_number := 12 |} ]);
    (64, Some [ {| start_location := 0; line_number := 12 |} ]) ].

End Progress.

(* ===================================================================== *)
(** * Part II: properties *)
(* ===================================================================== *)

Module ScopeFilterFacts.
Import ScopeFilter.

Lemma strstr_at_1 (c : ascii) (name prefix : string) :
  strstr (String c name) prefix = Some 1%nat <->
  String.prefix prefix (String c name) = false /\
  String.prefix prefix name = true.
Proof.
  cbn [strstr].
  destruct (String.prefix prefix (String c name)) eqn:H0.
  - split; [discriminate | intros [? _]; discriminate].
  - destruct name as [|d name']; cbn [strstr].
    + destruct (String.prefix prefix "") eqn:H1; cbn; split;
        intros H; try discriminate; auto; destruct H; discriminate.
    + destruct (String.prefix prefix (String d name')) eqn:H1; cbn.
      * split; auto.
      * split; [|intros [_ ?]; discriminate].
        destruct (strstr name' prefix); cbn; discriminate.
Qed.

(** What the pointer comparison computes: the prefix is found right
    after the marker and not already at the marker itself. *)
Lemma is_class_fqn_prefix_spec (c : ascii) (name prefix : string) :
  is_class_fqn_prefix prefix (String c name) =
  negb (String.prefix prefix (String c name)) && String.prefix prefix name.
Proof.
  unfold is_class_fqn_prefix.
  destruct (strstr (String c name) prefix) as [[|[|n]]|] eqn:E.
  - cbn [strstr] in E.
    destruct (String.prefix prefix (String c name)) eqn:H0; [reflexivity|].
    destruct (strstr name prefix); discriminate.
  - apply strstr_at_1 in E as [-> ->]. reflexivity.
  - destruct (String.prefix prefix (String c name)) eqn:H0; [reflexivity|].
    destruct (String.prefix prefix name) eqn:H1; [|reflexivity].
    assert (strstr (String c name) prefix = Some 1%nat) by (apply strstr_at_1; auto).
    congruence.
  - destruct (String.prefix prefix (String c name)) eqn:H0; [reflexivity|].
    destruct (String.prefix prefix name) eqn:H1; [|reflexivity].
    assert (strstr (String c name) prefix = Some 1%nat) by (apply strstr_at_1; auto).
    congruence.
Qed.

(** The code and the reference agree on every prefix that does not also
    match at the marker. *)
Lemma is_class_fqn_prefix_naive (prefix class_sig : string) :
  String.prefix prefix class_sig = false ->
  is_class_fqn_prefix prefix class_sig = naive_is_prefix prefix class_sig.
Proof.
  destruct class_sig as [|c name]; intros H.
  - unfold is_class_fqn_prefix, naive_is_prefix. cbn [strstr].
    rewrite H. reflexivity.
  - rewrite is_class_fqn_prefix_spec, H. reflexivity.
Qed.

Lemma contains_class_fqn_prefix_naive (elements : list string) (class_sig : string) :
  List.Forall (fun p => String.prefix p class_sig = false) elements ->
  contains_class_fqn_prefix elements class_sig =
  existsb (fun p => naive_is_prefix p class_sig) elements.
Proof.
  unfold contains_class_fqn_prefix.
  induction 1 as [|p elements Hp _ IH]; [reflexivity|].
  cbn [existsb]. rewrite IH, (is_class_fqn_prefix_naive p class_sig Hp). reflexivity.
Qed.

(** With scope lists none of whose prefixes starts the signature itself,
    [is_in_allowed_scope] is the reference. *)
Lemma is_in_allowed_scope_naive
    (ignored_scopes search_scopes : list string) (class_sig : string) :
  List.Forall (fun p => String.prefix p class_sig = false) ignored_scopes ->
  List.Forall (fun p => String.prefix p class_sig = false) search_scopes ->
  is_in_allowed_scope ignored_scopes search_scopes class_sig =
  naive_is_in_scope search_scopes ignored_scopes class_sig.
Proof.
  intros Hi Hs. unfold is_in_allowed_scope, naive_is_in_scope.
  rewrite !contains_class_fqn_prefix_naive by assumption.
  apply andb_comm.
Qed.

(** C3.  Scope classification against the naive reference: the class
    [Lama] of the default package has the signature [LLama;]; with the
    search scope [L] the reference accepts it (the name starts with [L])
    and [is_in_allowed_scope] rejects it, because [strstr] finds the
    prefix at the marker first; so it is with the class [Main] of a
    package [LL] and the search scope [LL].  The same slip makes an
    ignore scope [L] ineffective and makes the empty prefix match
    nothing. *)
Theorem is_in_allowed_scope_misses_marker_prefix :
  class_signature "Lama" = "LLama;"%string /\
  is_in_allowed_scope [] ["L"%string] (class_signature "Lama") = false /\
  naive_is_in_scope ["L"%string] [] (class_signature "Lama") = true /\
  is_in_allowed_scope [] ["LL"%string] (class_signature "LL/Main") = false /\
  naive_is_in_scope ["LL"%string] [] (class_signature "LL/Main") = true /\
  is_in_allowed_scope ["L"%string] ["Lama"%string] (class_signature "Lama") = true /\
  naive_is_in_scope ["Lama"%string] ["L"%string] (class_signature "Lama") = false /\
  is_in_allowed_scope [] [""%string] (class_signature "Lama") = false /\
  naive_is_in_scope [""%string] [] (class_signature "Lama") = true.
Proof. repeat split; vm_compute; reflexivity. Qed.

End ScopeFilterFacts.

(** ** The speedup draw *)

Module SpeedupFacts.
Import Float32 Speedup.

Lemma is_twentieth_by_computation (k : Z) (v : spec_float) :
  valid_binary prec emax v = true ->
  Qle_bool (Qabs (Q_of_float v - (k # 20))) (1 # (2 ^ 25)) = true ->
  is_twentieth k v.
Proof. intros Hv Hq. split; [exact Hv | apply Qle_bool_iff, Hq]. Qed.

Ltac twentieth := apply is_twentieth_by_computation; vm_compute; reflexivity.

(** The draw only looks at the remainder, which for the non-negative
    results of [rand()] is one of the 25 outcomes. *)
Lemma calculate_random_speedup_rem (r : Z) :
  0 <= r ->
  In (Z.rem r 25) draws /\
  calculate_random_speedup r = calculate_random_speedup (Z.rem r 25).
Proof.
  intros Hr.
  pose proof (Z.rem_bound_pos r 25 Hr ltac:(lia)) as Hb.
  split.
  - unfold draws. apply in_map_iff. exists (Z.to_nat (Z.rem r 25)).
    split; [lia | apply in_seq; lia].
  - unfold calculate_random_speedup.
    rewrite (Z.rem_small (Z.rem r 25) 25) by lia. reflexivity.
Qed.

Lemma zero_or_twentieth (v : Z) :
  -25 < v < 25 ->
  let s := if v <? 5 then float_of_Z 0
           else fdiv (float_of_Z (v - 4)) (float_of_Z 20) in
  s = S754_zero false \/ exists k, 1 <= k <= 20 /\ is_twentieth k s.
Proof.
  intros Hv. cbv zeta.
  destruct (Z.ltb_spec v 5) as [Hlt | Hge]; [left; reflexivity | right].
  exists (v - 4). split; [lia |].
  assert (Hcases :
    v = 5 \/ v = 6 \/ v = 7 \/ v = 8 \/ v = 9 \/ v = 10 \/ v = 11 \/
    v = 12 \/ v = 13 \/ v = 14 \/ v = 15 \/ v = 16 \/ v = 17 \/ v = 18 \/
    v = 19 \/ v = 20 \/ v = 21 \/ v = 22 \/ v = 23 \/ v = 24) by lia.
  repeat (destruct Hcases as [-> | Hcases]; [twentieth |]).
  subst v. twentieth.
Qed.

(** C5.  Every value [calculate_random_speedup] returns is exactly 0 or
    the [float] next to one of [1/20, 2/20, ..., 20/20]; of the 25
    outcomes of a uniform 25-way draw, 5 give 0 (20%) and each of the 20
    other values is given by exactly one (4%), so the 20 values are
    pairwise different and equally likely; the value 20/20 is exactly 1. *)
Theorem calculate_random_speedup_distribution :
  (forall r : Z,
     calculate_random_speedup r = S754_zero false \/
     exists k, 1 <= k <= 20 /\ is_twentieth k (calculate_random_speedup r)) /\
  length draws = 25%nat /\
  outcomes_equal_to (S754_zero false) = 5%nat /\
  (forall k : Z, 1 <= k <= 20 ->
     let v := calculate_random_speedup (k + 4) in
     is_twentieth k v /\ v <> S754_zero false /\
     outcomes_equal_to v = 1%nat) /\
  calculate_random_speedup 24 = float_of_Z 1.
Proof.
  split; [| split; [| split; [| split]]].
  - intros r. unfold calculate_random_speedup.
    apply zero_or_twentieth.
    pose proof (Z.rem_bound_abs r 25 ltac:(lia)). lia.
  - reflexivity.
  - vm_compute. reflexivity.
  - intros k Hk. cbv zeta.
    assert (Hcases :
      k = 1 \/ k = 2 \/ k = 3 \/ k = 4 \/ k = 5 \/ k = 6 \/ k = 7 \/
      k = 8 \/ k = 9 \/ k = 10 \/ k = 11 \/ k = 12 \/ k = 13 \/ k = 14 \/
      k = 15 \/ k = 16 \/ k = 17 \/ k = 18 \/ k = 19 \/ k = 20) by lia.
    repeat (destruct Hcases as [-> | Hcases];
            [split; [twentieth | split; [vm_compute; discriminate
                                        | vm_compute; reflexivity]] |]).
    subst k.
    split; [twentieth | split; [vm_compute; discriminate | vm_compute; reflexivity]].
  - vm_compute. reflexivity.
Qed.

Lemma calculate_random_speedup_distribution_witness :
  1 <= 1 <= 20 /\
  is_twentieth 1 (calculate_random_speedup (1 + 4)) /\
  calculate_random_speedup (1 + 4) <> S754_zero false /\
  outcomes_equal_to (calculate_random_speedup (1 + 4)) = 1%nat.
Proof.
  split; [lia|].
  apply (proj1 (proj2 (proj2 (proj2 calculate_random_speedup_distribution))) 1).
  lia.
Defined.

(** The delay quantum of each speedup is the exact multiple of a
    twentieth of the signal period. *)
Lemma delay_of_speedup_values (k : Z) :
  0 <= k <= 20 ->
  delay_of_speedup (calculate_random_speedup (if k =? 0 then 0 else k + 4))
  = k * (SIGNAL_FREQ / 20).
Proof.
  intros Hk.
  assert (Hcases :
    k = 0 \/ k = 1 \/ k = 2 \/ k = 3 \/ k = 4 \/ k = 5 \/ k = 6 \/ k = 7 \/
    k = 8 \/ k = 9 \/ k = 10 \/ k = 11 \/ k = 12 \/ k = 13 \/ k = 14 \/
    k = 15 \/ k = 16 \/ k = 17 \/ k = 18 \/ k = 19 \/ k = 20) by lia.
  repeat (destruct Hcases as [-> | Hcases]; [vm_compute; reflexivity |]).
  subst k. vm_compute. reflexivity.
Qed.

End SpeedupFacts.

(** ** The duration controller *)

Module DurationFacts.
Import MachineInt Duration.

Section WithHeader.
Context `{Header}.

Lemma update_experiment_length_fixed (p : Profiler) :
  fix_exp p = true -> update_experiment_length p = p.
Proof. intros Hfix. unfold update_experiment_length. rewrite Hfix. reflexivity. Qed.

Lemma update_experiment_length_fix_exp (p : Profiler) :
  fix_exp (update_experiment_length p) = fix_exp p.
Proof.
  unfold update_experiment_length.
  destruct (fix_exp p) eqn:Hfix; [exact Hfix|].
  repeat match goal with |- context [if ?b then _ else _] => destruct b end;
    exact Hfix.
Qed.

Lemma trial_fix_exp (p : Profiler) (hits : Z) : fix_exp (trial p hits) = fix_exp p.
Proof. unfold trial. rewrite update_experiment_length_fix_exp. reflexivity. Qed.

Lemma trials_fixed (hits : list Z) (p : Profiler) :
  fix_exp p = true -> experiment_time (trials hits p) = experiment_time p.
Proof.
  revert p. induction hits as [|h hits IH]; intros p Hfix; [reflexivity|].
  cbn [trials fold_left]. fold (trials hits (trial p h)).
  rewrite IH by (rewrite trial_fix_exp; exact Hfix).
  unfold trial. rewrite update_experiment_length_fixed by exact Hfix. reflexivity.
Qed.

(** What is assumed of the constants: the factor is the 2 of the cap
    test, the thresholds are ordered, and the maximum is the minimum
    doubled a number of times and fits the type. *)
Hypothesis factor_is_2 : EXP_TIME_FACTOR = 2.
Hypothesis min_positive : 0 < MIN_EXP_TIME.
Hypothesis max_on_ladder : exists j : nat, MAX_EXP_TIME = MIN_EXP_TIME * 2 ^ Z.of_nat j.
Hypothesis max_fits : MAX_EXP_TIME <= LONG_MAX.
Hypothesis thresholds_ordered : HITS_TO_INC_EXP_TIME < HITS_TO_DEC_EXP_TIME.

Lemma on_ladder_bounds (t : Z) : on_ladder t -> MIN_EXP_TIME <= t <= MAX_EXP_TIME.
Proof.
  intros (k & -> & Hle). split; [|exact Hle].
  assert (0 < 2 ^ Z.of_nat k) by (apply Z.pow_pos_nonneg; lia). nia.
Qed.

Lemma on_ladder_min : on_ladder MIN_EXP_TIME.
Proof.
  exists 0%nat. split; [cbn; lia|].
  destruct max_on_ladder as (j & ->).
  assert (0 < 2 ^ Z.of_nat j) by (apply Z.pow_pos_nonneg; lia). nia.
Qed.

Lemma on_ladder_max : on_ladder MAX_EXP_TIME.
Proof. destruct max_on_ladder as (j & Hj). exists j. split; [exact Hj | lia]. Qed.

Lemma trial_low (p : Profiler) (hits : Z) :
  fix_exp p = false -> hits <= HITS_TO_INC_EXP_TIME ->
  0 <= experiment_time p <= MAX_EXP_TIME ->
  experiment_time (trial p hits) =
  Z.min (experiment_time p * EXP_TIME_FACTOR) MAX_EXP_TIME.
Proof.
  intros Hfix Hhits Ht. unfold trial, update_experiment_length. cbn.
  rewrite Hfix. destruct (Z.leb_spec hits HITS_TO_INC_EXP_TIME) as [_|?]; [|lia].
  rewrite factor_is_2. unfold to_ulong.
  rewrite Z.mod_small by (unfold LONG_MAX in max_fits; lia).
  destruct (Z.ltb_spec MAX_EXP_TIME (experiment_time p * 2)); cbn; lia.
Qed.

Lemma trial_high (p : Profiler) (hits : Z) :
  fix_exp p = false -> HITS_TO_DEC_EXP_TIME <= hits ->
  experiment_time (trial p hits) =
  if MIN_EXP_TIME <? experiment_time p
  then experiment_time p / EXP_TIME_FACTOR else experiment_time p.
Proof.
  intros Hfix Hhits. unfold trial, update_experiment_length. cbn.
  rewrite Hfix. destruct (Z.leb_spec hits HITS_TO_INC_EXP_TIME) as [?|_]; [lia|].
  destruct (Z.leb_spec HITS_TO_DEC_EXP_TIME hits) as [_|?]; [|lia].
  destruct (Z.ltb_spec MIN_EXP_TIME (experiment_time p)); reflexivity.
Qed.

Lemma trial_middle (p : Profiler) (hits : Z) :
  HITS_TO_INC_EXP_TIME < hits < HITS_TO_DEC_EXP_TIME ->
  experiment_time (trial p hits) = experiment_time p.
Proof.
  intros Hhits. unfold trial, update_experiment_length. cbn.
  destruct (fix_exp p); [reflexivity|].
  destruct (Z.leb_spec hits HITS_TO_INC_EXP_TIME) as [?|_]; [lia|].
  destruct (Z.leb_spec HITS_TO_DEC_EXP_TIME hits) as [?|_]; [lia|].
  rewrite andb_false_r. reflexivity.
Qed.

Lemma ladder_half (k : nat) :
  MIN_EXP_TIME * 2 ^ Z.of_nat (S k) / 2 = MIN_EXP_TIME * 2 ^ Z.of_nat k.
Proof.
  rewrite Nat2Z.inj_succ, Z.pow_succ_r by lia.
  replace (MIN_EXP_TIME * (2 * 2 ^ Z.of_nat k))
    with (MIN_EXP_TIME * 2 ^ Z.of_nat k * 2) by lia.
  apply Z.div_mul. lia.
Qed.

(** Every duration the controller can reach from [MIN_EXP_TIME] is on
    the ladder. *)
Lemma trial_on_ladder (p : Profiler) (hits : Z) :
  on_ladder (experiment_time p) -> on_ladder (experiment_time (trial p hits)).
Proof.
  intros Hl. pose proof (on_ladder_bounds _ Hl) as Hb.
  destruct (fix_exp p) eqn:Hfix.
  { unfold trial. rewrite update_experiment_length_fixed by exact Hfix. exact Hl. }
  destruct (Z.le_gt_cases hits HITS_TO_INC_EXP_TIME) as [Hlow | Hnotlow].
  - rewrite trial_low by (auto; lia). rewrite factor_is_2.
    destruct (Z.le_gt_cases (experiment_time p * 2) MAX_EXP_TIME) as [Hle | Hgt].
    + rewrite Z.min_l by exact Hle.
      destruct Hl as (k & Hk & _). exists (S k). split; [|exact Hle].
      rewrite Hk, Nat2Z.inj_succ, Z.pow_succ_r by lia. lia.
    + rewrite Z.min_r by lia. apply on_ladder_max.
  - destruct (Z.le_gt_cases HITS_TO_DEC_EXP_TIME hits) as [Hhigh | Hmid].
    + rewrite trial_high by auto.
      destruct (Z.ltb_spec MIN_EXP_TIME (experiment_time p)) as [Hgt | _]; [|exact Hl].
      destruct Hl as ([|k] & Hk & Hle); [cbn in Hk; lia|].
      rewrite factor_is_2, Hk, ladder_half. exists k. split; [reflexivity|].
      assert (0 < 2 ^ Z.of_nat k) by (apply Z.pow_pos_nonneg; lia).
      rewrite Hk, Nat2Z.inj_succ, Z.pow_succ_r in Hle by lia. nia.
    + rewrite trial_middle by lia. exact Hl.
Qed.

Lemma trials_low (hits : list Z) (p : Profiler) :
  fix_exp p = false -> on_ladder (experiment_time p) ->
  Forall (fun h => h <= HITS_TO_INC_EXP_TIME) hits ->
  experiment_time (trials hits p) =
  Z.min (experiment_time p * EXP_TIME_FACTOR ^ Z.of_nat (length hits)) MAX_EXP_TIME.
Proof.
  revert p. induction hits as [|h hits IH]; intros p Hfix Hl Hall.
  - cbn. pose proof (on_ladder_bounds _ Hl). lia.
  - inversion Hall as [|? ? Hh Hall']; subst.
    cbn [trials fold_left]. fold (trials hits (trial p h)).
    rewrite IH; [| rewrite trial_fix_exp; exact Hfix
                 | apply trial_on_ladder; exact Hl | exact Hall'].
    pose proof (on_ladder_bounds _ Hl) as Hb.
    rewrite trial_low by (auto; lia).
    cbn [length]. rewrite Nat2Z.inj_succ, Z.pow_succ_r by lia.
    rewrite factor_is_2.
    assert (0 < 2 ^ Z.of_nat (length hits)) by (apply Z.pow_pos_nonneg; lia).
    destruct (Z.le_gt_cases (experiment_time p * 2) MAX_EXP_TIME).
    + rewrite (Z.min_l (experiment_time p * 2)) by lia. f_equal. lia.
    + rewrite (Z.min_r (experiment_time p * 2)) by lia.
      rewrite !Z.min_r by nia. reflexivity.
Qed.

Lemma trials_high (hits : list Z) (p : Profiler) (k : nat) :
  fix_exp p = false ->
  experiment_time p = MIN_EXP_TIME * EXP_TIME_FACTOR ^ Z.of_nat k ->
  Forall (fun h => HITS_TO_DEC_EXP_TIME <= h) hits ->
  experiment_time (trials hits p) =
  MIN_EXP_TIME * EXP_TIME_FACTOR ^ Z.of_nat (k - length hits).
Proof.
  revert p k. induction hits as [|h hits IH]; intros p k Hfix Hk Hall.
  - cbn. rewrite Nat.sub_0_r. exact Hk.
  - inversion Hall as [|? ? Hh Hall']; subst.
    cbn [trials fold_left]. fold (trials hits (trial p h)).
    rewrite factor_is_2 in *.
    destruct k as [|k].
    + rewrite (IH _ 0%nat); [reflexivity | rewrite trial_fix_exp; exact Hfix | | exact Hall'].
      rewrite trial_high by auto. rewrite Hk.
      change (Z.of_nat 0) with 0. rewrite Z.pow_0_r.
      destruct (Z.ltb_spec MIN_EXP_TIME (MIN_EXP_TIME * 1)); [lia | reflexivity].
    + rewrite (IH _ k); [reflexivity | rewrite trial_fix_exp; exact Hfix | | exact Hall'].
      rewrite trial_high by auto. rewrite Hk.
      assert (0 < 2 ^ Z.of_nat k) by (apply Z.pow_pos_nonneg; lia).
      destruct (Z.ltb_spec MIN_EXP_TIME (MIN_EXP_TIME * 2 ^ Z.of_nat (S k))) as [_ | Hle].
      * rewrite factor_is_2. apply ladder_half.
      * rewrite Nat2Z.inj_succ, Z.pow_succ_r in Hle by lia. nia.
Qed.

(** C4.  Duration control.  With the fixed-duration flag set no series
    of trials changes [experiment_time], whatever the hit counts.
    Otherwise a trial with [points_hit] at or below the low threshold
    multiplies [experiment_time] by the factor, capped at the maximum: it
    grows strictly below the maximum and stays at the maximum once
    there, also over repeated low-hit trials.  A trial with [points_hit]
    at or above the high threshold divides an [experiment_time] above the
    minimum by the factor, never below the minimum, and leaves the
    minimum where it is, so that repeated high-hit trials walk down to
    the minimum and stay there.  All durations reachable from the
    initial [MIN_EXP_TIME] are on the ladder the statement speaks of. *)
Theorem update_experiment_length_adapts :
  (forall (p : Profiler) (hits : list Z),
     fix_exp p = true ->
     experiment_time (trials hits p) = experiment_time p) /\
  (forall (p : Profiler) (hits : Z),
     fix_exp p = false -> on_ladder (experiment_time p) ->
     hits <= HITS_TO_INC_EXP_TIME ->
     experiment_time (trial p hits) =
       Z.min (experiment_time p * EXP_TIME_FACTOR) MAX_EXP_TIME /\
     (experiment_time p < MAX_EXP_TIME ->
      experiment_time p < experiment_time (trial p hits)) /\
     (experiment_time p = MAX_EXP_TIME ->
      experiment_time (trial p hits) = MAX_EXP_TIME)) /\
  (forall (p : Profiler) (lows : list Z),
     fix_exp p = false -> on_ladder (experiment_time p) ->
     Forall (fun h => h <= HITS_TO_INC_EXP_TIME) lows ->
     experiment_time (trials lows p) =
       Z.min (experiment_time p * EXP_TIME_FACTOR ^ Z.of_nat (length lows))
             MAX_EXP_TIME) /\
  (forall (p : Profiler) (hits : Z),
     fix_exp p = false -> on_ladder (experiment_time p) ->
     HITS_TO_DEC_EXP_TIME <= hits ->
     (MIN_EXP_TIME < experiment_time p ->
      experiment_time (trial p hits) = experiment_time p / EXP_TIME_FACTOR /\
      MIN_EXP_TIME <= experiment_time (trial p hits) < experiment_time p) /\
     (experiment_time p = MIN_EXP_TIME ->
      experiment_time (trial p hits) = MIN_EXP_TIME)) /\
  (forall (p : Profiler) (k : nat) (highs : list Z),
     fix_exp p = false ->
     experiment_time p = MIN_EXP_TIME * EXP_TIME_FACTOR ^ Z.of_nat k ->
     Forall (fun h => HITS_TO_DEC_EXP_TIME <= h) highs ->
     experiment_time (trials highs p) =
       MIN_EXP_TIME * EXP_TIME_FACTOR ^ Z.of_nat (k - length highs)) /\
  on_ladder (experiment_time initial_profiler) /\
  (forall (p : Profiler) (hits : Z),
     on_ladder (experiment_time p) -> on_ladder (experiment_time (trial p hits))).
Proof.
  split; [| split; [| split; [| split; [| split; [| split]]]]].
  - intros p hits Hfix. apply trials_fixed, Hfix.
  - intros p hits Hfix Hl Hlow.
    pose proof (on_ladder_bounds _ Hl) as Hb.
    rewrite trial_low by (auto; lia). rewrite factor_is_2.
    split; [reflexivity | split; intros; lia].
  - intros p lows Hfix Hl Hall. apply trials_low; assumption.
  - intros p hits Hfix Hl Hhigh.
    pose proof (on_ladder_bounds _ Hl) as Hb.
    pose proof (trial_on_ladder p hits Hl) as Hl'.
    apply on_ladder_bounds in Hl'.
    rewrite trial_high in * by auto.
    destruct (Z.ltb_spec MIN_EXP_TIME (experiment_time p)) as [Hgt | Hle].
    + split; [intros _ | lia]. split; [reflexivity|]. split; [lia|].
      rewrite factor_is_2. apply Z.div_lt; lia.
    + split; [lia | intros _; lia].
  - intros p k highs Hfix Hk Hall. apply trials_high; assumption.
  - apply on_ladder_min.
  - intros p hits. apply trial_on_ladder.
Qed.

End WithHeader.

Lemma update_experiment_length_adapts_witness :
  (@EXP_TIME_FACTOR sample_header = 2 /\ 0 < @MIN_EXP_TIME sample_header /\
   (exists j : nat,
      @MAX_EXP_TIME sample_header = @MIN_EXP_TIME sample_header * 2 ^ Z.of_nat j) /\
   @MAX_EXP_TIME sample_header <= LONG_MAX /\
   @HITS_TO_INC_EXP_TIME sample_header < @HITS_TO_DEC_EXP_TIME sample_header) /\
  experiment_time
    (@trials sample_header [0; 1; 2; 3; 4; 5] (@initial_profiler sample_header))
  = 80000 /\
  experiment_time
    (@trials sample_header [20; 30; 40]
       (set_experiment_time 20000 (@initial_profiler sample_header))) = 5000.
Proof.
  pose (H := sample_header).
  assert (H1 : EXP_TIME_FACTOR = 2) by reflexivity.
  assert (H2 : 0 < MIN_EXP_TIME) by (cbn; lia).
  assert (H3 : exists j : nat, MAX_EXP_TIME = MIN_EXP_TIME * 2 ^ Z.of_nat j)
    by (exists 4%nat; reflexivity).
  assert (H4 : MAX_EXP_TIME <= LONG_MAX) by (vm_compute; discriminate).
  assert (H5 : HITS_TO_INC_EXP_TIME < HITS_TO_DEC_EXP_TIME) by (cbn; lia).
  destruct (@update_experiment_length_adapts H H1 H2 H3 H4 H5)
    as (_ & _ & Hlows & _ & Hhighs & Hinit & _).
  split; [repeat split; assumption |]. split.
  - rewrite Hlows; [reflexivity | reflexivity | exact Hinit |].
    repeat constructor; cbn; lia.
  - rewrite (Hhighs _ 2%nat); [reflexivity | reflexivity | reflexivity |].
    repeat constructor; cbn; lia.
Defined.

(** Why the maximum is asked to be on the ladder: with the uneven header
    three low-hit trials reach the maximum 30000, and three high-hit
    trials then halve it to 3750, below the minimum 5000, the test of
    the code being made before the division. *)
Example uneven_header_steps_below_minimum :
  experiment_time
    (@trials uneven_header [0; 0; 0] (@initial_profiler uneven_header)) = 30000 /\
  experiment_time
    (@trials uneven_header [0; 0; 0; 20; 20; 20] (@initial_profiler uneven_header))
  = 3750.
Proof. split; reflexivity. Qed.

End DurationFacts.

(** ** The bytecode ranges of an experiment *)

Module RangesFacts.
Import MachineInt Ranges.

Lemma to_jint_bci (z : Z) : 0 <= z <= MAX_BCI -> to_jint z = z.
Proof.
  unfold MAX_BCI, to_jint, wrap_signed. intros Hz.
  change (2 ^ (32 - 1)) with 2147483648. change (2 ^ 32) with 4294967296.
  rewrite Z.mod_small; lia.
Qed.

Lemma fold_left_push {A B : Type} (c : A -> bool) (g : A -> B)
    (l : list A) (init : list B) :
  fold_left (fun acc i => if c i then acc ++ [g i] else acc) l init =
  init ++ flat_map (fun i => if c i then [g i] else []) l.
Proof.
  revert init. induction l as [|a l IH]; intros init; cbn.
  - rewrite app_nil_r. reflexivity.
  - rewrite IH. destruct (c a); cbn; [rewrite <- app_assoc|]; reflexivity.
Qed.

Lemma flat_map_agree {A B : Type} (f g : A -> list B) (l : list A) :
  (forall a, In a l -> f a = g a) -> flat_map f l = flat_map g l.
Proof.
  induction l as [|a l IH]; intros Hfg; [reflexivity|]. cbn.
  rewrite (Hfg a) by (left; reflexivity).
  rewrite IH by (intros b Hb; apply Hfg; right; exact Hb). reflexivity.
Qed.

Lemma range_of_entry_valid (entries : list jvmtiLineNumberEntry) (i : nat) :
  Forall valid_entry entries -> (i < length entries)%nat ->
  range_of_entry entries i = (start_location (entries !!! i), next_start entries i).
Proof.
  intros Hvalid Hi. unfold range_of_entry, next_start.
  assert (Hat : forall j, (j < length entries)%nat ->
                to_jint (start_location (entries !!! j)) = start_location (entries !!! j)).
  { intros j Hj. apply to_jint_bci.
    apply (proj1 (List.Forall_forall _ _) Hvalid).
    apply (proj1 (list_elem_of_In _ _)), list_elem_of_lookup_total_2, Hj. }
  destruct (Z.ltb_spec (Z.of_nat i) (Z.of_nat (length entries) - 1)) as [Hlt | Hge].
  - rewrite !Hat by lia. replace (i + 1)%nat with (S i) by lia.
    rewrite (list_lookup_lookup_total_lt entries (S i)) by lia. reflexivity.
  - rewrite Hat by lia.
    rewrite (lookup_ge_None_2 entries (S i)) by lia. reflexivity.
Qed.

Lemma build_location_ranges_exact (entries : list jvmtiLineNumberEntry) (line : Z) :
  Forall valid_entry entries ->
  build_location_ranges entries line =
  flat_map
    (fun i => if line_number (entries !!! i) =? line
              then [(start_location (entries !!! i), next_start entries i)]
              else [])
    (seq 0 (length entries)).
Proof.
  intros Hvalid. unfold build_location_ranges.
  rewrite (fold_left_push (fun i => line_number (entries !!! i) =? line)
             (range_of_entry entries)).
  cbn [app]. apply flat_map_agree. intros i Hi. apply in_seq in Hi.
  rewrite range_of_entry_valid by (auto; lia). reflexivity.
Qed.

Lemma in_build_location_ranges
    (entries : list jvmtiLineNumberEntry) (line s t : Z) :
  Forall valid_entry entries ->
  In (s, t) (build_location_ranges entries line) <->
  exists (i : nat) (entry : jvmtiLineNumberEntry),
    entries !! i = Some entry /\ line_number entry = line /\
    s = start_location entry /\ t = next_start entries i.
Proof.
  intros Hvalid. rewrite build_location_ranges_exact by exact Hvalid.
  rewrite in_flat_map. split.
  - intros (i & Hi & Hin). apply in_seq in Hi.
    exists i, (entries !!! i).
    split; [apply list_lookup_lookup_total_lt; lia|].
    destruct (Z.eqb_spec (line_number (entries !!! i)) line) as [Heq | Hne];
      [| destruct Hin].
    destruct Hin as [Hin | []]. inversion Hin. auto.
  - intros (i & entry & Hlook & Hline & -> & ->).
    exists i. split; [apply in_seq; apply lookup_lt_Some in Hlook; lia|].
    rewrite (list_lookup_total_correct _ _ _ Hlook).
    rewrite Hline, Z.eqb_refl. left. reflexivity.
Qed.

Lemma inExperiment_spec (f : Frame.JVMPI_CallFrame) (p : Profiler) :
  Exp.num_ranges (current_experiment p) =
    Z.of_nat (length (Exp.location_ranges (current_experiment p))) ->
  inExperiment f p = true <->
  Frame.method_id f = Exp.method_id (current_experiment p) /\
  exists s t : Z,
    In (s, t) (Exp.location_ranges (current_experiment p)) /\
    s <= Frame.lineno f < t.
Proof.
  intros Hnum. unfold inExperiment. rewrite Hnum, Nat2Z.id.
  destruct (Z.eqb_spec (Frame.method_id f) (Exp.method_id (current_experiment p)))
    as [Heq | Hne]; cbn [negb].
  - rewrite existsb_exists. split.
    + intros (i & Hi & Hc). apply in_seq in Hi.
      split; [exact Heq|].
      destruct (Exp.location_ranges (current_experiment p) !!! i) as [s t] eqn:Hr.
      exists s, t. split.
      * rewrite <- Hr.
        apply (proj1 (list_elem_of_In _ _)), list_elem_of_lookup_total_2. lia.
      * cbn in Hc. lia.
    + intros (_ & s & t & Hin & Hst).
      apply (proj2 (list_elem_of_In _ _)), list_elem_of_lookup in Hin as (i & Hlook).
      exists i. split; [apply in_seq; apply lookup_lt_Some in Hlook; lia|].
      rewrite (list_lookup_total_correct _ _ _ Hlook). cbn. lia.
  - split; [discriminate | intros [? _]; contradiction].
Qed.

(** C6.  The ranges of the experiment built for a frame are exactly the
    entries of the line-number table whose line is the resolved target
    line, in table order, each running from the start of its entry to
    the start of the next entry, or to [MAX_BCI + 1 = 65536] for the last
    entry of the table; and [inExperiment] holds of a frame if and only
    if its method is the target method and its bytecode index lies in
    one of the ranges, the end excluded. *)
Theorem location_ranges_and_membership
    (exp_frame : Frame.JVMPI_CallFrame) (entries : list jvmtiLineNumberEntry)
    (p : Profiler) :
  Forall valid_entry entries ->
  let p' := select_experiment exp_frame entries p in
  let e := current_experiment p' in
  MAX_BCI + 1 = 65536 /\
  Exp.method_id e = Frame.method_id exp_frame /\
  Exp.lineno e =
    resolve_lineno entries (Frame.lineno exp_frame)
      (Exp.lineno (current_experiment p)) /\
  Exp.location_ranges e =
    flat_map
      (fun i => if line_number (entries !!! i) =? Exp.lineno e
                then [(start_location (entries !!! i), next_start entries i)]
                else [])
      (seq 0 (length entries)) /\
  (forall s t : Z,
     In (s, t) (Exp.location_ranges e) <->
     exists (i : nat) (entry : jvmtiLineNumberEntry),
       entries !! i = Some entry /\ line_number entry = Exp.lineno e /\
       s = start_location entry /\ t = next_start entries i) /\
  (forall f : Frame.JVMPI_CallFrame,
     inExperiment f p' = true <->
     Frame.method_id f = Frame.method_id exp_frame /\
     exists s t : Z,
       In (s, t) (Exp.location_ranges e) /\ s <= Frame.lineno f < t).
Proof.
  intros Hvalid p' e.
  split; [reflexivity|]. split; [reflexivity|]. split; [reflexivity|].
  split; [apply build_location_ranges_exact, Hvalid|].
  split; [intros s t; apply in_build_location_ranges, Hvalid|].
  intros f. apply inExperiment_spec. reflexivity.
Qed.

(** In the sample table bytecode 0-4 and 9 to the end belong to line 10. *)
Lemma location_ranges_and_membership_witness :
  Forall valid_entry sample_entries /\
  Exp.lineno (current_experiment
    (select_experiment sample_exp_frame sample_entries
       (@initial_profiler sample_header))) = 10 /\
  Exp.location_ranges (current_experiment
    (select_experiment sample_exp_frame sample_entries
       (@initial_profiler sample_header))) = [(0, 5); (9, 65536)] /\
  inExperiment {| Frame.lineno := 4; Frame.method_id := 77 |}
    (select_experiment sample_exp_frame sample_entries
       (@initial_profiler sample_header)) = true /\
  inExperiment {| Frame.lineno := 5; Frame.method_id := 77 |}
    (select_experiment sample_exp_frame sample_entries
       (@initial_profiler sample_header)) = false.
Proof.
  assert (Hvalid : Forall valid_entry sample_entries)
    by (repeat constructor; cbn; unfold MAX_BCI; lia).
  destruct (location_ranges_and_membership sample_exp_frame sample_entries
              (@initial_profiler sample_header) Hvalid)
    as (_ & _ & Hline & Hranges & _ & Hin).
  split; [exact Hvalid|]. split; [rewrite Hline; reflexivity|].
  split; [rewrite Hranges; reflexivity|]. split.
  - apply Hin. split; [reflexivity|]. exists 0, 5.
    split; [rewrite Hranges; left; reflexivity | cbn; lia].
  - reflexivity.
Defined.

End RangesFacts.

(** ** Machine integers *)

Module MachineIntFacts.
Import MachineInt.

Lemma to_long_id (z : Z) : in_long z -> to_long z = z.
Proof.
  unfold in_long, LONG_MIN, LONG_MAX, to_long, wrap_signed. intros Hz.
  change (2 ^ (64 - 1)) with 9223372036854775808.
  change (2 ^ 64) with 18446744073709551616.
  change (2 ^ 63) with 9223372036854775808 in Hz.
  rewrite Z.mod_small; lia.
Qed.

Lemma to_jint_id (z : Z) : in_jint z -> to_jint z = z.
Proof.
  unfold in_jint, to_jint, wrap_signed. intros Hz.
  change (2 ^ (32 - 1)) with 2147483648. change (2 ^ 32) with 4294967296.
  change (2 ^ 31) with 2147483648 in Hz.
  rewrite Z.mod_small; lia.
Qed.

Lemma long_add_exact (a b : Z) : in_long (a + b) -> long_add a b = a + b.
Proof. apply to_long_id. Qed.

Lemma long_sub_exact (a b : Z) : in_long (a - b) -> long_sub a b = a - b.
Proof. apply to_long_id. Qed.

Lemma labs_exact (a : Z) : in_long (Z.abs a) -> labs a = Z.abs a.
Proof. apply to_long_id. Qed.

End MachineIntFacts.

(** ** The handlers *)

Module HandlerFacts.
Import MachineInt MachineIntFacts Ranges Handler.

Lemma in_long_of_bounds (z : Z) : - 2 ^ 62 <= z <= 2 ^ 62 -> in_long z.
Proof. unfold in_long, LONG_MIN, LONG_MAX. lia. Qed.

(** C9.  A breakpoint hit adds exactly 1 to the pending [points_hit] of
    the handling thread while an experiment is active and exactly 0
    otherwise, and touches nothing else of the thread: hits outside an
    experiment are not counted. *)
Theorem HandleBreakpoint_counts_only_in_experiment
    (p : Profiler) (ut : UT.UserThread) :
  in_long (UT.points_hit ut) -> UT.points_hit ut < LONG_MAX ->
  exists ut' : UT.UserThread,
    HandleBreakpoint p (Some ut) = Some ut' /\
    UT.points_hit ut' = UT.points_hit ut + (if in_experiment p then 1 else 0) /\
    (in_experiment p = true -> UT.points_hit ut' = UT.points_hit ut + 1) /\
    (in_experiment p = false -> UT.points_hit ut' = UT.points_hit ut) /\
    UT.local_delay ut' = UT.local_delay ut /\
    UT.num_signals_received ut' = UT.num_signals_received ut.
Proof.
  intros Hin Hmax. eexists. split; [reflexivity|]. cbn.
  assert (Hexact : long_add (UT.points_hit ut) (if in_experiment p then 1 else 0)
                   = UT.points_hit ut + (if in_experiment p then 1 else 0)).
  { apply long_add_exact. unfold in_long in *. destruct (in_experiment p); lia. }
  rewrite Hexact. split; [reflexivity|].
  split; [intros ->; reflexivity|]. split; [intros ->; lia|]. split; reflexivity.
Qed.

(** A thread outside the main group has no record: the handler
    dereferences NULL. *)
Lemma HandleBreakpoint_unregistered (p : Profiler) : HandleBreakpoint p None = None.
Proof. reflexivity. Qed.

Lemma HandleBreakpoint_counts_only_in_experiment_witness :
  in_long 3 /\ 3 < LONG_MAX /\
  exists ut' : UT.UserThread,
    HandleBreakpoint (set_in_experiment true (@initial_profiler sample_header))
      (Some {| UT.local_delay := 0; UT.points_hit := 3;
               UT.num_signals_received := 0 |}) = Some ut' /\
    UT.points_hit ut' = 3 + 1.
Proof.
  assert (H1 : in_long 3) by (unfold in_long, LONG_MIN, LONG_MAX; lia).
  assert (H2 : 3 < LONG_MAX) by (unfold LONG_MAX; lia).
  split; [exact H1|]. split; [exact H2|].
  destruct (HandleBreakpoint_counts_only_in_experiment
              (set_in_experiment true (@initial_profiler sample_header))
              {| UT.local_delay := 0; UT.points_hit := 3;
                 UT.num_signals_received := 0 |} H1 H2)
    as (ut' & Hrun & Hhits & _).
  exists ut'. split; [exact Hrun | exact Hhits].
Defined.

Section WithHeader.
Context `{Header}.

Lemma same_outside_refl (p : Profiler) : same_outside p p.
Proof. unfold same_outside. repeat split; lia. Qed.

Lemma record_frame_same (f : Frame.JVMPI_CallFrame) (p : Profiler) :
  0 <= call_index p < 2 ^ 31 - 1 ->
  exists p', record_frame f p = Some p' /\ same_outside p p'.
Proof.
  intros Hidx. unfold record_frame.
  destruct (Z.ltb_spec (call_index p) 0) as [? | _]; [lia|].
  eexists. split; [reflexivity|]. unfold same_outside. cbn.
  rewrite to_jint_id by (unfold in_jint; lia). repeat split; lia.
Qed.

Lemma Handle_not_handled (jni_env_present : bool) (trace : JVMPI_CallTrace)
    (elapsed : Z) (p : Profiler) (curr_ut : option UT.UserThread) :
  not_handled jni_env_present trace p = true ->
  Handle jni_env_present trace elapsed p curr_ut = Some (p, curr_ut, []).
Proof. intros Hnot. unfold Handle. rewrite Hnot. reflexivity. Qed.

Lemma Handle_outside (jni_env_present : bool) (trace : JVMPI_CallTrace)
    (elapsed : Z) (p : Profiler) (ut : UT.UserThread) :
  in_experiment p = false ->
  not_handled jni_env_present trace p = false ->
  0 <= call_index p < 2 ^ 31 - 1 ->
  exists p',
    Handle jni_env_present trace elapsed p (Some ut)
      = Some (p', Some (UT.set_local_delay 0 ut), []) /\
    same_outside p p'.
Proof.
  intros Hout Hhandled Hidx. unfold Handle. rewrite Hhandled, Hout. cbn [negb].
  destruct (List.find (fun f => frameInScope f p) (scanned trace)) as [f|].
  - destruct (record_frame_same f p Hidx) as (p' & -> & Hsame).
    exists p'. split; [reflexivity | exact Hsame].
  - exists p. split; [reflexivity | apply same_outside_refl].
Qed.

Lemma is_handled_signal_same (p p' : Profiler) (ev : ThreadEvent) :
  prof_ready p' = prof_ready p ->
  is_handled_signal p' ev = is_handled_signal p ev.
Proof.
  intros Hready. destruct ev as [jni trace elapsed|]; [|reflexivity].
  unfold is_handled_signal, not_handled. rewrite Hready. reflexivity.
Qed.

Lemma existsb_handled_same (p p' : Profiler) (evs : list ThreadEvent) :
  prof_ready p' = prof_ready p ->
  existsb (is_handled_signal p') evs = existsb (is_handled_signal p) evs.
Proof.
  intros Hready. induction evs as [|ev evs IH]; [reflexivity|]. cbn.
  rewrite IH, (is_handled_signal_same p p' ev Hready). reflexivity.
Qed.

Lemma thread_step_outside (ev : ThreadEvent) (p : Profiler) (ut : UT.UserThread) :
  in_experiment p = false ->
  0 <= call_index p < 2 ^ 31 - 1 ->
  exists p' ut',
    thread_step ev p (Some ut) = Some (p', Some ut', []) /\
    same_outside p p' /\
    UT.local_delay ut' =
      (if is_handled_signal p ev then 0 else UT.local_delay ut).
Proof.
  intros Hout Hidx. destruct ev as [jni trace elapsed|]; cbn [thread_step].
  - destruct (not_handled jni trace p) eqn:Hnot.
    + rewrite Handle_not_handled by exact Hnot.
      exists p, ut. split; [reflexivity|]. split; [apply same_outside_refl|].
      cbn. rewrite Hnot. reflexivity.
    + destruct (Handle_outside jni trace elapsed p ut Hout Hnot Hidx)
        as (p' & -> & Hsame).
      exists p', (UT.set_local_delay 0 ut). split; [reflexivity|].
      split; [exact Hsame|]. cbn. rewrite Hnot. reflexivity.
  - cbn. eexists p, _. split; [reflexivity|].
    split; [apply same_outside_refl | reflexivity].
Qed.

Lemma thread_run_outside (evs : list ThreadEvent) :
  forall (p : Profiler) (ut : UT.UserThread),
  in_experiment p = false ->
  0 <= call_index p ->
  call_index p + Z.of_nat (length evs) < 2 ^ 31 ->
  exists p' ut',
    thread_run evs p (Some ut) = Some (p', Some ut', []) /\
    in_experiment p' = false /\
    global_delay p' = global_delay p /\
    points_hit p' = points_hit p /\
    UT.local_delay ut' =
      (if existsb (is_handled_signal p) evs then 0 else UT.local_delay ut).
Proof.
  induction evs as [|ev evs IH]; intros p ut Hout Hlo Hhi.
  - exists p, ut. repeat split; auto.
  - cbn [length] in Hhi. rewrite Nat2Z.inj_succ in Hhi.
    destruct (thread_step_outside ev p ut Hout ltac:(lia))
      as (p1 & ut1 & Hstep & (Hexp & Hready & Hdelay & Hhits & _ & Hidx) & Hld).
    destruct (IH p1 ut1 ltac:(congruence) ltac:(lia) ltac:(lia))
      as (p2 & ut2 & Hrun & Hexp2 & Hdelay2 & Hhits2 & Hld2).
    exists p2, ut2. cbn [thread_run]. rewrite Hstep. cbn. rewrite Hrun. cbn.
    split; [reflexivity|]. split; [exact Hexp2|].
    split; [congruence|]. split; [congruence|].
    rewrite Hld2, Hld.
    rewrite (existsb_handled_same p p1 evs Hready).
    cbn [existsb]. destruct (is_handled_signal p ev); cbn.
    + destruct (existsb (is_handled_signal p) evs); reflexivity.
    + reflexivity.
Qed.

(** C10.  Outside an experiment every handled sampling signal sets the
    [local_delay] of the interrupted thread to 0 and does nothing else
    to the thread: no sleep is entered and nothing is added to the
    ledger, so the skew the thread carried is dropped.  Hence, through
    any series of signals and breakpoint hits between two experiments
    with at least one handled signal, the thread ends with [local_delay]
    0, which is what it enters the next experiment with. *)
Theorem Handle_resets_local_delay_outside_experiment
    (p : Profiler) (ut : UT.UserThread) :
  in_experiment p = false ->
  0 <= call_index p ->
  (forall (jni_env_present : bool) (trace : JVMPI_CallTrace) (elapsed : Z),
     not_handled jni_env_present trace p = false ->
     call_index p < 2 ^ 31 - 1 ->
     exists p' : Profiler,
       Handle jni_env_present trace elapsed p (Some ut)
         = Some (p', Some (UT.set_local_delay 0 ut), []) /\
       global_delay p' = global_delay p /\
       in_experiment p' = false) /\
  (forall evs : list ThreadEvent,
     call_index p + Z.of_nat (length evs) < 2 ^ 31 ->
     existsb (is_handled_signal p) evs = true ->
     exists (p' : Profiler) (ut' : UT.UserThread),
       thread_run evs p (Some ut) = Some (p', Some ut', []) /\
       UT.local_delay ut' = 0 /\
       global_delay p' = global_delay p /\
       in_experiment p' = false).
Proof.
  intros Hout Hlo. split.
  - intros jni trace elapsed Hhandled Hhi.
    destruct (Handle_outside jni trace elapsed p ut Hout Hhandled ltac:(lia))
      as (p' & Hrun & Hexp & _ & Hdelay & _).
    exists p'. split; [exact Hrun|]. split; [exact Hdelay | congruence].
  - intros evs Hhi Hsome.
    destruct (thread_run_outside evs p ut Hout Hlo Hhi)
      as (p' & ut' & Hrun & Hexp & Hdelay & _ & Hld).
    rewrite Hsome in Hld. exists p', ut'. auto.
Qed.

(** The handler inside an experiment, with its branches told apart by
    two tests. *)
Lemma Handle_inside (jni_env_present : bool) (trace : JVMPI_CallTrace)
    (elapsed : Z) (p : Profiler) (ut : UT.UserThread) :
  in_experiment p = true ->
  not_handled jni_env_present trace p = false ->
  let received := UT.num_signals_received ut + 1 in
  let local :=
    if existsb (fun f => inExperiment f p) (scanned trace)
    then long_add (UT.local_delay ut) (Exp.delay (current_experiment p))
    else UT.local_delay ut in
  let sleep_diff := long_sub (global_delay p) local in
  Handle jni_env_present trace elapsed p (Some ut) =
  Some
    (set_points_hit (to_ulong (points_hit p + UT.points_hit ut))
       (if (received =? 10) && negb (0 <? sleep_diff)
        then set_global_delay (long_add (global_delay p) (labs sleep_diff)) p
        else p),
     Some {| UT.local_delay :=
               if (received =? 10) && (0 <? sleep_diff)
               then long_add local elapsed else local;
             UT.points_hit := 0;
             UT.num_signals_received := if received =? 10 then 0 else received |},
     if (received =? 10) && (0 <? sleep_diff) then [Sleep sleep_diff] else []).
Proof.
  intros Hin Hhandled. cbv zeta. unfold Handle.
  rewrite Hhandled, Hin. cbn [negb].
  destruct (existsb (fun f => inExperiment f p) (scanned trace));
    cbn [UT.set_num_signals_received UT.set_local_delay UT.local_delay
         UT.num_signals_received UT.points_hit];
    destruct (UT.num_signals_received ut + 1 =? 10); cbn [andb];
    try reflexivity;
    match goal with
    | |- context [0 <? ?d] =>
        destruct (Z.ltb_spec 0 d) as [Hpos | Hnonpos]; cbn [negb];
        [ unfold jcoz_sleep;
          destruct (Z.eqb_spec d 0) as [Hzero | _]; [lia | reflexivity]
        | reflexivity ]
    end.
Qed.

Lemma Handle_inside_counter (jni_env_present : bool) (trace : JVMPI_CallTrace)
    (elapsed : Z) (p : Profiler) (ut : UT.UserThread) :
  in_experiment p = true ->
  not_handled jni_env_present trace p = false ->
  exists p' ut' events,
    Handle jni_env_present trace elapsed p (Some ut) = Some (p', Some ut', events) /\
    in_experiment p' = true /\ prof_ready p' = prof_ready p /\
    UT.num_signals_received ut' =
      (if UT.num_signals_received ut + 1 =? 10 then 0
       else UT.num_signals_received ut + 1).
Proof.
  intros Hin Hhandled.
  rewrite (Handle_inside _ _ _ _ _ Hin Hhandled). cbv zeta.
  eexists _, _, _. split; [reflexivity|].
  split; [| split; [| reflexivity]].
  - destruct (_ && _); cbn; exact Hin.
  - destruct (_ && _); reflexivity.
Qed.

(** Through any series of handled signals of one experiment the counter
    of the thread counts modulo 10. *)
Lemma thread_run_inside_counter (evs : list ThreadEvent) :
  forall (p : Profiler) (ut : UT.UserThread),
  in_experiment p = true ->
  forallb (is_handled_signal p) evs = true ->
  0 <= UT.num_signals_received ut < 10 ->
  exists p' ut' events,
    thread_run evs p (Some ut) = Some (p', Some ut', events) /\
    UT.num_signals_received ut' =
      (UT.num_signals_received ut + Z.of_nat (length evs)) mod 10.
Proof.
  induction evs as [|ev evs IH]; intros p ut Hin Hall Hc.
  - exists p, ut, []. split; [reflexivity|].
    cbn. rewrite Z.add_0_r, Z.mod_small by lia. reflexivity.
  - cbn [forallb] in Hall. apply andb_prop in Hall as [Hev Hall].
    destruct ev as [jni trace elapsed|]; [|discriminate].
    cbn in Hev. apply negb_true_iff in Hev.
    destruct (Handle_inside_counter jni trace elapsed p ut Hin Hev)
      as (p1 & ut1 & events1 & Hstep & Hin1 & Hready & Hc1).
    assert (Hall1 : forallb (is_handled_signal p1) evs = true).
    { rewrite <- Hall. clear -Hready. induction evs as [|e evs IHe]; [reflexivity|].
      cbn. rewrite IHe, (is_handled_signal_same p p1 e Hready). reflexivity. }
    assert (Hrange : 0 <= UT.num_signals_received ut1 < 10).
    { rewrite Hc1. destruct (Z.eqb_spec (UT.num_signals_received ut + 1) 10); lia. }
    destruct (IH p1 ut1 Hin1 Hall1 Hrange) as (p2 & ut2 & events2 & Hrun & Hc2).
    exists p2, ut2, (events1 ++ events2).
    cbn [thread_run thread_step]. rewrite Hstep. cbn. rewrite Hrun. cbn.
    split; [reflexivity|]. rewrite Hc2, Hc1.
    cbn [length]. rewrite Nat2Z.inj_succ.
    destruct (Z.eqb_spec (UT.num_signals_received ut + 1) 10) as [Heq | Hne].
    + replace (UT.num_signals_received ut + Z.succ (Z.of_nat (length evs)))
        with (Z.of_nat (length evs) + 1 * 10) by lia.
      rewrite Z.mod_add by lia. reflexivity.
    + f_equal. lia.
Qed.

(** The counter of a thread is 0 when the thread is registered and stays
    below 10 from one handler to the next, whatever the other threads do
    to the statics in between. *)
Lemma addUserThread_counter (p : Profiler) (ut : UT.UserThread) :
  addUserThread true p = Some ut -> UT.num_signals_received ut = 0.
Proof. intros Hadd. inversion Hadd. reflexivity. Qed.

Lemma thread_step_counter (ev : ThreadEvent) (p p' : Profiler)
    (ut ut' : UT.UserThread) (events : list Event) :
  0 <= UT.num_signals_received ut < 10 ->
  thread_step ev p (Some ut) = Some (p', Some ut', events) ->
  0 <= UT.num_signals_received ut' < 10.
Proof.
  intros Hc Hstep. destruct ev as [jni trace elapsed|]; cbn in Hstep.
  - destruct (not_handled jni trace p) eqn:Hnot.
    + rewrite Handle_not_handled in Hstep by exact Hnot.
      inversion Hstep; subst. exact Hc.
    + destruct (in_experiment p) eqn:Hin.
      * destruct (Handle_inside_counter jni trace elapsed p ut Hin Hnot)
          as (p1 & ut1 & ev1 & Hrun & _ & _ & Hc1).
        rewrite Hrun in Hstep. inversion Hstep; subst.
        rewrite Hc1. destruct (Z.eqb_spec (UT.num_signals_received ut + 1) 10); lia.
      * unfold Handle in Hstep. rewrite Hnot, Hin in Hstep. cbn [negb] in Hstep.
        destruct (List.find (fun f => frameInScope f p) (scanned trace));
          [destruct (record_frame _ p); cbn in Hstep; [|discriminate]|];
          inversion Hstep; subst; exact Hc.
  - inversion Hstep; subst. exact Hc.
Qed.

(** C1.  A handled signal of an active experiment counts the signal and
    adds the delay quantum to [local_delay] if the thread is in the
    target region.  On the signal that brings the counter to 10 the
    ledger is compared with [local_delay]: if the ledger is larger the
    thread sleeps for the difference and adds the time it actually slept
    to [local_delay]; otherwise it adds the excess of [local_delay] over
    the ledger to the ledger; either way the counter goes back to 0.  On
    any other signal no sleep is entered and the ledger is not written.
    The counter counts the handled signals modulo 10, so the step comes
    back on every tenth of them. *)
Theorem Handle_delay_synchronization
    (jni_env_present : bool) (trace : JVMPI_CallTrace) (elapsed : Z)
    (p : Profiler) (ut : UT.UserThread) :
  in_experiment p = true ->
  not_handled jni_env_present trace p = false ->
  nanoseconds_amount (UT.local_delay ut) ->
  nanoseconds_amount (Exp.delay (current_experiment p)) ->
  nanoseconds_amount (global_delay p) ->
  nanoseconds_amount elapsed ->
  0 <= UT.num_signals_received ut < 10 ->
  let local :=
    UT.local_delay ut +
    (if existsb (fun f => inExperiment f p) (scanned trace)
     then Exp.delay (current_experiment p) else 0) in
  (exists (p' : Profiler) (ut' : UT.UserThread) (events : list Event),
     Handle jni_env_present trace elapsed p (Some ut) = Some (p', Some ut', events) /\
     in_experiment p' = true /\
     (UT.num_signals_received ut + 1 = 10 ->
        UT.num_signals_received ut' = 0 /\
        (local < global_delay p ->
           events = [Sleep (global_delay p - local)] /\
           UT.local_delay ut' = local + elapsed /\
           global_delay p' = global_delay p) /\
        (global_delay p <= local ->
           events = [] /\
           UT.local_delay ut' = local /\
           global_delay p' = global_delay p + (local - global_delay p))) /\
     (UT.num_signals_received ut + 1 <> 10 ->
        UT.num_signals_received ut' = UT.num_signals_received ut + 1 /\
        events = [] /\
        UT.local_delay ut' = local /\
        global_delay p' = global_delay p)) /\
  (forall evs : list ThreadEvent,
     forallb (is_handled_signal p) evs = true ->
     exists (p' : Profiler) (ut' : UT.UserThread) (events : list Event),
       thread_run evs p (Some ut) = Some (p', Some ut', events) /\
       UT.num_signals_received ut' =
         (UT.num_signals_received ut + Z.of_nat (length evs)) mod 10).
Proof.
  intros Hin Hhandled Hld Hdelay Hglobal Helapsed Hc local.
  unfold nanoseconds_amount in *.
  split; [| intros evs Hall; apply thread_run_inside_counter; assumption].
  rewrite (Handle_inside _ _ _ _ _ Hin Hhandled). cbv zeta.
  set (local_m :=
         if existsb (fun f => inExperiment f p) (scanned trace)
         then long_add (UT.local_delay ut) (Exp.delay (current_experiment p))
         else UT.local_delay ut).
  assert (Hlocal : local_m = local).
  { unfold local_m, local.
    destruct (existsb (fun f => inExperiment f p) (scanned trace)); [|lia].
    apply long_add_exact, in_long_of_bounds. lia. }
  assert (Hlocal_bounds : 0 <= local < 2 ^ 62).
  { unfold local.
    destruct (existsb (fun f => inExperiment f p) (scanned trace)); lia. }
  rewrite Hlocal.
  rewrite (long_sub_exact (global_delay p) local) by (apply in_long_of_bounds; lia).
  eexists _, _, _. split; [reflexivity|]. cbn.
  split; [destruct (_ && _); exact Hin|].
  split.
  - intros Hten. rewrite Hten. cbn.
    split; [reflexivity|]. split.
    + intros Hlt.
      destruct (Z.ltb_spec 0 (global_delay p - local)) as [_ | ?]; [|lia]. cbn.
      split; [reflexivity|]. split; [|reflexivity].
      apply long_add_exact, in_long_of_bounds. lia.
    + intros Hle.
      destruct (Z.ltb_spec 0 (global_delay p - local)) as [? | _]; [lia|]. cbn.
      split; [reflexivity|]. split; [reflexivity|].
      rewrite labs_exact by (apply in_long_of_bounds; lia).
      rewrite long_add_exact by (apply in_long_of_bounds; lia). lia.
  - intros Hnot.
    destruct (Z.eqb_spec (UT.num_signals_received ut + 1) 10) as [? | _];
      [contradiction|]. cbn. auto.
Qed.

End WithHeader.

(** The tenth signal of the sample thread, caught in the target region
    350000 ns behind a ledger of 600000 ns: it sleeps for the 250000 ns
    it is short of and books the 260000 ns it really slept. *)
Lemma Handle_delay_synchronization_witness :
  in_experiment sample_profiler = true /\
  @not_handled sample_header true sample_trace sample_profiler = false /\
  nanoseconds_amount (UT.local_delay sample_thread) /\
  nanoseconds_amount (Exp.delay (current_experiment sample_profiler)) /\
  nanoseconds_amount (global_delay sample_profiler) /\
  nanoseconds_amount 260000 /\
  0 <= UT.num_signals_received sample_thread < 10 /\
  exists (p' : Profiler) (ut' : UT.UserThread),
    @Handle sample_header true sample_trace 260000 sample_profiler
      (Some sample_thread) = Some (p', Some ut', [Sleep 250000]) /\
    UT.local_delay ut' = 610000 /\
    UT.num_signals_received ut' = 0 /\
    global_delay p' = 600000.
Proof.
  assert (H1 : in_experiment sample_profiler = true) by reflexivity.
  assert (H2 : @not_handled sample_header true sample_trace sample_profiler = false)
    by reflexivity.
  assert (H3 : nanoseconds_amount (UT.local_delay sample_thread))
    by (unfold nanoseconds_amount; cbn; lia).
  assert (H4 : nanoseconds_amount (Exp.delay (current_experiment sample_profiler)))
    by (unfold nanoseconds_amount; cbn; lia).
  assert (H5 : nanoseconds_amount (global_delay sample_profiler))
    by (unfold nanoseconds_amount; cbn; lia).
  assert (H6 : nanoseconds_amount 260000) by (unfold nanoseconds_amount; lia).
  assert (H7 : 0 <= UT.num_signals_received sample_thread < 10) by (cbn; lia).
  repeat (split; [assumption|]).
  destruct (proj1 (@Handle_delay_synchronization sample_header true sample_trace
                     260000 sample_profiler sample_thread H1 H2 H3 H4 H5 H6 H7))
    as (p' & ut' & events & Hrun & _ & Hten & _).
  destruct (Hten eq_refl) as (Hcounter & Hsleep & _).
  destruct (Hsleep ltac:(vm_compute; reflexivity)) as (Hevents & Hlocal & Hglobal).
  exists p', ut'. rewrite Hrun, Hevents.
  split; [reflexivity|]. split; [exact Hlocal|]. split; [exact Hcounter | exact Hglobal].
Defined.

Lemma Handle_resets_local_delay_outside_experiment_witness :
  in_experiment (set_prof_ready true (@initial_profiler sample_header)) = false /\
  0 <= call_index (set_prof_ready true (@initial_profiler sample_header)) /\
  exists (p' : Profiler) (ut' : UT.UserThread),
    @thread_run sample_header
      [Breakpoint;
       Signal true {| num_frames := 1; frames := [sample_exp_frame] |} 0;
       Breakpoint]
      (set_prof_ready true (@initial_profiler sample_header))
      (Some {| UT.local_delay := 70000; UT.points_hit := 0;
               UT.num_signals_received := 3 |})
    = Some (p', Some ut', []) /\
    UT.local_delay ut' = 0.
Proof.
  assert (H1 : in_experiment (set_prof_ready true (@initial_profiler sample_header))
               = false) by reflexivity.
  assert (H2 : 0 <= call_index (set_prof_ready true (@initial_profiler sample_header)))
    by (cbn; lia).
  split; [exact H1|]. split; [exact H2|].
  destruct (proj2 (@Handle_resets_local_delay_outside_experiment sample_header
              (set_prof_ready true (@initial_profiler sample_header))
              {| UT.local_delay := 70000; UT.points_hit := 0;
                 UT.num_signals_received := 3 |} H1 H2)
              [Breakpoint;
               Signal true {| num_frames := 1; frames := [sample_exp_frame] |} 0;
               Breakpoint]
              ltac:(vm_compute; reflexivity) ltac:(reflexivity))
    as (p' & ut' & Hrun & Hld & _).
  exists p', ut'. split; [exact Hrun | exact Hld].
Defined.

End HandlerFacts.

(** ** The scheduler *)

Module SchedulerFacts.
Import MachineInt Float32 Speedup Duration Scheduler.

(** *** Sampling rounds *)

Lemma curr_sleep_bounds (r : Z) :
  0 <= r -> SIGNAL_FREQ < curr_sleep_of r <= 2 * SIGNAL_FREQ.
Proof.
  intros Hr. unfold curr_sleep_of.
  pose proof (Z.rem_bound_pos r SIGNAL_FREQ Hr ltac:(unfold SIGNAL_FREQ; lia)).
  lia.
Qed.

Lemma attainable_iff (interval : Z) :
  attainable interval <-> SIGNAL_FREQ < interval <= 2 * SIGNAL_FREQ.
Proof.
  split.
  - intros (r & Hr & <-). apply curr_sleep_bounds, Hr.
  - intros Hi. exists (2 * SIGNAL_FREQ - interval). split; [lia|].
    unfold curr_sleep_of. rewrite Z.rem_small by lia. lia.
Qed.

Lemma sum_sleeps_bounds (used : list Z) :
  Forall (fun r => 0 <= r) used ->
  (SIGNAL_FREQ + 1) * Z.of_nat (length used) <= sum_Z (map curr_sleep_of used)
  /\ sum_Z (map curr_sleep_of used) <= 2 * SIGNAL_FREQ * Z.of_nat (length used).
Proof.
  induction 1 as [|r used Hr _ IH]; [cbn; lia|].
  pose proof (curr_sleep_bounds r Hr).
  cbn [map sum_Z fold_right length]. fold (sum_Z (map curr_sleep_of used)).
  rewrite Nat2Z.inj_succ. lia.
Qed.

Lemma sampling_loop_spec (rands : list Z) :
  forall acc : Z,
  Forall (fun r => 0 <= r) rands ->
  total_needed_time - acc <= SIGNAL_FREQ * Z.of_nat (length rands) ->
  exists used rest : list Z,
    rands = used ++ rest /\
    sampling_loop rands acc =
      Some (sampling_events used, acc + sum_Z (map curr_sleep_of used), rest) /\
    total_needed_time <= acc + sum_Z (map curr_sleep_of used) /\
    (forall k : nat, (k < length used)%nat ->
       acc + sum_Z (map curr_sleep_of (take k used)) < total_needed_time).
Proof.
  induction rands as [|r rands IH]; intros acc Hnonneg Henough.
  - cbn in Henough. exists [], []. cbn.
    destruct (Z.ltb_spec acc total_needed_time) as [? | _]; [lia|].
    repeat split; try lia. rewrite Z.add_0_r. reflexivity.
  - cbn [sampling_loop].
    destruct (Z.ltb_spec acc total_needed_time) as [Hlt | Hge].
    + inversion Hnonneg as [|? ? Hr Hnonneg']; subst.
      pose proof (curr_sleep_bounds r Hr) as Hb.
      cbn [length] in Henough. rewrite Nat2Z.inj_succ in Henough.
      destruct (IH (acc + curr_sleep_of r) Hnonneg' ltac:(lia))
        as (used & rest & -> & -> & Hreached & Hbefore).
      exists (r :: used), rest. split; [reflexivity|]. split.
      * cbn. unfold jcoz_sleep.
        destruct (Z.eqb_spec (curr_sleep_of r) 0) as [? | _]; [lia|].
        cbn. do 3 f_equal. unfold sum_Z. lia.
      * cbn [map sum_Z fold_right]. fold (sum_Z (map curr_sleep_of used)).
        split; [lia|]. intros [|k] Hk.
        -- cbn. lia.
        -- cbn [take map sum_Z fold_right].
           fold (sum_Z (map curr_sleep_of (take k used))).
           cbn [length] in Hk. specialize (Hbefore k ltac:(lia)). lia.
    + exists [], (r :: rands). cbn. repeat split; try lia.
      rewrite Z.add_0_r. reflexivity.
Qed.

(** C7, as the code has it.  Each sampling round sleeps an interval
    drawn from the signal period (excluded) to twice the signal period
    (included), so the intervals are centred on one and a half signal
    periods, and then broadcasts the signal; the rounds end exactly when
    the requested sleep times sum up to the budget of 30 signal periods:
    the sum has reached the budget at the end and had not before any of
    the rounds, which makes 15 to 30 rounds. *)
Theorem sampling_round_timing (rands : list Z) :
  Forall (fun r => 0 <= r) rands ->
  (30 <= length rands)%nat ->
  (exists used rest : list Z,
     rands = used ++ rest /\
     sampling_loop rands 0 =
       Some (sampling_events used, sum_Z (map curr_sleep_of used), rest) /\
     Forall (fun r => SIGNAL_FREQ < curr_sleep_of r <= 2 * SIGNAL_FREQ) used /\
     total_needed_time <= sum_Z (map curr_sleep_of used) /\
     (forall k : nat, (k < length used)%nat ->
        sum_Z (map curr_sleep_of (take k used)) < total_needed_time) /\
     (15 <= length used <= 30)%nat) /\
  total_needed_time = 30 * SIGNAL_FREQ /\
  (forall interval : Z,
     attainable interval <-> SIGNAL_FREQ < interval <= 2 * SIGNAL_FREQ) /\
  centered_on_half_of (3 * SIGNAL_FREQ + 1).
Proof.
  intros Hnonneg Hlen.
  split; [| split; [reflexivity | split; [exact attainable_iff|]]].
  - destruct (sampling_loop_spec rands 0 Hnonneg
                ltac:(unfold total_needed_time, SIGNAL_FREQ; lia))
      as (used & rest & Hsplit & Hrun & Hreached & Hbefore).
    cbn [Z.add] in *.
    assert (Hused : Forall (fun r => 0 <= r) used).
    { rewrite Hsplit in Hnonneg. apply List.Forall_app in Hnonneg. tauto. }
    exists used, rest. split; [exact Hsplit|]. split; [exact Hrun|].
    split; [| split; [exact Hreached | split; [exact Hbefore|]]].
    + eapply List.Forall_impl; [|exact Hused]. intros r Hr.
      apply curr_sleep_bounds, Hr.
    + pose proof (sum_sleeps_bounds used Hused) as [_ Hup].
      assert (H15 : (15 <= length used)%nat)
        by (unfold total_needed_time, SIGNAL_FREQ in *; lia).
      split; [exact H15|].
      specialize (Hbefore (length used - 1)%nat ltac:(lia)).
      assert (Htake : Forall (fun r => 0 <= r) (take (length used - 1) used))
        by (apply Forall_take, Hused).
      pose proof (sum_sleeps_bounds _ Htake) as [Hlow _].
      rewrite length_take in Hlow.
      unfold total_needed_time, SIGNAL_FREQ in *. lia.
  - intros interval. rewrite !attainable_iff. lia.
Qed.

Lemma sampling_round_timing_witness :
  Forall (fun r => 0 <= r) sample_rands /\
  (30 <= length sample_rands)%nat /\
  exists used rest : list Z,
    sample_rands = used ++ rest /\
    sampling_loop sample_rands 0 =
      Some (sampling_events used, sum_Z (map curr_sleep_of used), rest) /\
    (15 <= length used <= 30)%nat.
Proof.
  assert (H1 : Forall (fun r => 0 <= r) sample_rands).
  { apply List.Forall_forall. intros r Hr. apply repeat_spec in Hr.
    subst r. unfold SIGNAL_FREQ. lia. }
  assert (H2 : (30 <= length sample_rands)%nat) by (cbn; lia).
  split; [exact H1|]. split; [exact H2|].
  destruct (proj1 (sampling_round_timing sample_rands H1 H2))
    as (used & rest & Hsplit & Hrun & _ & _ & _ & Hcount).
  exists used, rest. auto.
Defined.

(** C7, as the specification words it, fails: the draw 0 gives the
    longest interval, two signal periods, and the draw [SIGNAL_FREQ - 1]
    the shortest, one nanosecond more than the signal period; no interval
    is as short as the signal period, which therefore is not their
    centre. *)
Lemma sampling_interval_not_centered_on_signal_period :
  curr_sleep_of 0 = 2 * SIGNAL_FREQ /\
  curr_sleep_of (SIGNAL_FREQ - 1) = SIGNAL_FREQ + 1 /\
  ~ attainable SIGNAL_FREQ /\
  ~ centered_on_half_of (2 * SIGNAL_FREQ).
Proof.
  split; [reflexivity|]. split; [reflexivity|]. split.
  - rewrite attainable_iff. lia.
  - intros Hcentered.
    assert (Hlong : attainable (2 * SIGNAL_FREQ)) by (apply attainable_iff; unfold SIGNAL_FREQ; lia).
    apply Hcentered in Hlong. apply attainable_iff in Hlong.
    unfold SIGNAL_FREQ in Hlong. lia.
Qed.

(** *** The wait loop of [runExperiment] *)

Section WithHeader.
Context `{Header}.

Lemma wait_loop_exit (end_ : Z) (wks : list Wakeup) (w : World) :
  wait_condition end_ w = false -> wait_loop end_ wks w = Some (w, wks).
Proof. intros Hc. destruct wks; cbn; rewrite Hc; reflexivity. Qed.

Lemma wait_loop_through (end_ : Z) (pre : list Wakeup) :
  forall (w : World) (wk : Wakeup) (rest : list Wakeup),
  waits_through end_ pre w = true ->
  wait_loop end_ (pre ++ wk :: rest) w =
  wait_loop end_ rest (wait_round wk (wait_rounds pre w)).
Proof.
  induction pre as [|wk0 pre IH]; intros w wk rest Hw;
    cbn [waits_through] in Hw; apply andb_prop in Hw as [Hc Hw].
  - cbn. rewrite Hc. reflexivity.
  - cbn [app wait_loop]. rewrite Hc. rewrite IH by exact Hw. reflexivity.
Qed.

(** The loop hands back a suffix of its wake-ups, and all of them only
    if it did not wait at all. *)
Lemma wait_loop_consumes (end_ : Z) (wks : list Wakeup) :
  forall (w w' : World) (wks' : list Wakeup),
  wait_loop end_ wks w = Some (w', wks') ->
  (length wks' <= length wks)%nat /\
  (wait_condition end_ w = true -> (length wks' < length wks)%nat).
Proof.
  induction wks as [|wk wks IH]; intros w w' wks' Hrun; cbn [wait_loop] in Hrun.
  - destruct (wait_condition end_ w); [discriminate|]. inversion Hrun.
    split; [lia | discriminate].
  - destruct (wait_condition end_ w) eqn:Hc.
    + apply IH in Hrun as [Hle _]. cbn [length]. split; [lia | intros _; lia].
    + inversion Hrun. split; [lia | discriminate].
Qed.

Lemma wait_condition_false_iff (end_ : Z) (w : World) :
  _running (prof w) = true ->
  wait_condition end_ w = false <->
  if end_to_end (prof w)
  then points_hit (prof w) <> 0 /\ end_ <= now w
  else end_ <= now w.
Proof.
  intros Hrun. unfold wait_condition. rewrite Hrun. cbn [andb].
  destruct (end_to_end (prof w)); cbn [andb orb];
    destruct (Z.eqb_spec (points_hit (prof w)) 0);
    destruct (Z.ltb_spec (now w) end_); cbn; split; intros; try discriminate;
    try reflexivity; lia.
Qed.

(** C2, as the code has it.  While the engine is running the wait loop
    stops waiting in normal mode exactly once the duration has elapsed,
    and in end-to-end mode exactly once a progress-point hit has been
    observed and the duration has elapsed as well: there both conditions
    are waited for.  So a loop that waited through the wake-ups [pre]
    ends with the next wake-up if and only if that wake-up brings the
    condition of the mode about. *)
Theorem wait_loop_ends_on_mode_condition
    (end_ : Z) (w0 : World) (pre : list Wakeup) (wk : Wakeup) (rest : list Wakeup) :
  waits_through end_ pre w0 = true ->
  _running (prof (wait_round wk (wait_rounds pre w0))) = true ->
  let w := wait_round wk (wait_rounds pre w0) in
  (wait_condition end_ w = false <->
     if end_to_end (prof w)
     then points_hit (prof w) <> 0 /\ end_ <= now w
     else end_ <= now w) /\
  (wait_loop end_ (pre ++ wk :: rest) w0 = Some (w, rest) <->
     if end_to_end (prof w)
     then points_hit (prof w) <> 0 /\ end_ <= now w
     else end_ <= now w).
Proof.
  intros Hpre Hrun w.
  pose proof (wait_condition_false_iff end_ w Hrun) as Hiff.
  split; [exact Hiff|].
  rewrite (wait_loop_through end_ pre w0 wk rest Hpre). fold w.
  rewrite <- Hiff. split.
  - intros Hloop. destruct (wait_condition end_ w) eqn:Hc; [|reflexivity].
    apply wait_loop_consumes in Hloop as [_ Hlt]. specialize (Hlt Hc). lia.
  - apply wait_loop_exit.
Qed.

End WithHeader.

(** In normal mode the sample scheduler waits through a millisecond and
    ends on the wake-up six seconds later, its five seconds being over. *)
Lemma wait_loop_ends_on_mode_condition_witness :
  waits_through (end_time sample_world)
    [wakeup_quiet] sample_world = true /\
  _running (prof (wait_round wakeup_late (wait_rounds [wakeup_quiet] sample_world)))
    = true /\
  wait_loop (end_time sample_world)
    ([wakeup_quiet] ++ wakeup_late :: [wakeup_quiet]) sample_world
  = Some (wait_round wakeup_late (wait_rounds [wakeup_quiet] sample_world),
          [wakeup_quiet]).
Proof.
  assert (H1 : waits_through (end_time sample_world)
                 [wakeup_quiet] sample_world = true) by reflexivity.
  assert (H2 : _running (prof (wait_round wakeup_late
                 (wait_rounds [wakeup_quiet] sample_world))) = true) by reflexivity.
  split; [exact H1|]. split; [exact H2|].
  apply (proj2 (wait_loop_ends_on_mode_condition
                  (end_time sample_world) sample_world
                  [wakeup_quiet] wakeup_late [wakeup_quiet] H1 H2)).
  vm_compute. discriminate.
Defined.

(** C2, as the specification words it, fails: in end-to-end mode, the
    engine running and a hit observed, the loop does not end before the
    duration has elapsed too; it goes through a further round. *)
Lemma wait_loop_end_to_end_waits_for_duration_too :
  _running (prof sample_end_to_end_world) = true /\
  end_to_end (prof sample_end_to_end_world) = true /\
  points_hit (prof sample_end_to_end_world) = 1 /\
  wait_condition (end_time sample_end_to_end_world)
    sample_end_to_end_world = true /\
  wait_loop (end_time sample_end_to_end_world)
    [wakeup_late] sample_end_to_end_world
  = Some (wait_round wakeup_late sample_end_to_end_world, []) /\
  ~ (forall (end_ : Z) (w : World),
       _running (prof w) = true -> end_to_end (prof w) = true ->
       points_hit (prof w) <> 0 ->
       wait_condition end_ w = false).
Proof.
  repeat (split; [reflexivity|]).
  intros Hends.
  specialize (Hends (end_time sample_end_to_end_world)
                sample_end_to_end_world eq_refl eq_refl ltac:(cbn; lia)).
  discriminate Hends.
Qed.

(** *** [runExperiment] and a stop request *)

Section WithHeader.
Context `{Header}.

Lemma wait_rounds_frame (pre : list Wakeup) :
  forall w : World,
  experiment_time (prof (wait_rounds pre w)) = experiment_time (prof w) /\
  current_experiment (prof (wait_rounds pre w)) = current_experiment (prof w) /\
  events (wait_rounds pre w) = events w ++ wait_events pre.
Proof.
  induction pre as [|wk pre IH]; intros w.
  - cbn. rewrite app_nil_r. auto.
  - cbn [wait_rounds fold_left]. fold (wait_rounds pre (wait_round wk w)).
    destruct (IH (wait_round wk w)) as (-> & -> & ->).
    cbn. rewrite <- !app_assoc. auto.
Qed.

Lemma appended_rows_app (a b : list Event) :
  appended_rows (a ++ b) = appended_rows a ++ appended_rows b.
Proof. apply flat_map_app. Qed.

Lemma appended_rows_wait_events (wks : list Wakeup) :
  appended_rows (wait_events wks) = [].
Proof. induction wks as [|wk wks IH]; [reflexivity | exact IH]. Qed.

(** Whatever ended the wait loop: if the flag is found cleared after the
    last sleep, [runExperiment] returns there. *)
Lemma runExperiment_after_wait
    (rand_value : Z) (class_sig : option string) (wakeups : list Wakeup)
    (w w1 : World) (wk1 wk2 : Wakeup) (rest : list Wakeup) :
  wait_loop (end_time (experiment_started rand_value w)) wakeups
    (experiment_started rand_value w) = Some (w1, wk1 :: wk2 :: rest) ->
  running_now wk2 = false ->
  exists w' : World,
    runExperiment rand_value class_sig wakeups w = Some (w', rest) /\
    _running (prof w') = false /\
    in_experiment (prof w') = false /\
    experiment_time (prof w') = experiment_time (prof w1) /\
    current_experiment (prof w') = current_experiment (prof w1) /\
    global_delay (prof w') = global_delay_now wk2 /\
    events w' = events w1 ++ [Sleep SIGNAL_FREQ; SignalUserThreads; Sleep SIGNAL_FREQ].
Proof.
  intros Hloop Hstop. unfold runExperiment. cbv zeta. rewrite Hloop. cbn.
  rewrite Hstop. cbn. eexists. split; [reflexivity|]. cbn.
  rewrite <- !app_assoc. repeat split; auto.
Qed.

(** C8.  The flag [_running] is cleared while the wait loop of an
    experiment waits, and stays cleared: the loop ends with that round,
    [runExperiment] sleeps, switches the experiment off, signals the
    threads a last time, sleeps, and returns.  It has appended no row to
    the output, has not written the hits and the duration of the trial
    into [current_experiment], whose delay still is the quantum of the
    speedup and not the ledger, and has left [experiment_time] alone. *)
Theorem runExperiment_discards_stopped_trial
    (rand_value : Z) (class_sig : option string) (w : World)
    (pre : list Wakeup) (wk_stop wk1 wk2 : Wakeup) (rest : list Wakeup) :
  waits_through (end_time (experiment_started rand_value w)) pre
    (experiment_started rand_value w) = true ->
  running_now wk_stop = false ->
  running_now wk2 = false ->
  exists w' : World,
    runExperiment rand_value class_sig (pre ++ wk_stop :: wk1 :: wk2 :: rest) w
      = Some (w', rest) /\
    _running (prof w') = false /\
    in_experiment (prof w') = false /\
    events w' =
      events w ++ wait_events (pre ++ [wk_stop])
      ++ [Sleep SIGNAL_FREQ; SignalUserThreads; Sleep SIGNAL_FREQ] /\
    appended_rows (events w') = appended_rows (events w) /\
    experiment_time (prof w') = experiment_time (prof w) /\
    Exp.points_hit (current_experiment (prof w'))
      = Exp.points_hit (current_experiment (prof w)) /\
    Exp.duration (current_experiment (prof w'))
      = Exp.duration (current_experiment (prof w)) /\
    Exp.delay (current_experiment (prof w'))
      = delay_of_speedup (calculate_random_speedup rand_value) /\
    global_delay (prof w') = global_delay_now wk2.
Proof.
  intros Hpre Hstop Hstop2.
  set (w0 := experiment_started rand_value w) in *.
  set (w1 := wait_round wk_stop (wait_rounds pre w0)).
  assert (Hloop : wait_loop (end_time w0) (pre ++ wk_stop :: wk1 :: wk2 :: rest) w0
                  = Some (w1, wk1 :: wk2 :: rest)).
  { rewrite (wait_loop_through _ pre w0 wk_stop _ Hpre). apply wait_loop_exit.
    unfold wait_condition. fold w1. unfold w1. cbn. rewrite Hstop. reflexivity. }
  destruct (runExperiment_after_wait rand_value class_sig _ w w1 wk1 wk2 rest
              Hloop Hstop2)
    as (w' & Hrun & Hrunning & Hexp & Htime & Hcur & Hledger & Hevents).
  destruct (wait_rounds_frame pre w0) as (Htime0 & Hcur0 & Hevents0).
  assert (Hevents1 : events w1 = events w ++ wait_events (pre ++ [wk_stop])).
  { unfold w1. cbn. rewrite Hevents0. unfold wait_events.
    rewrite flat_map_app. cbn. rewrite <- !app_assoc. reflexivity. }
  assert (Hevents' : events w' =
            events w ++ wait_events (pre ++ [wk_stop])
            ++ [Sleep SIGNAL_FREQ; SignalUserThreads; Sleep SIGNAL_FREQ]).
  { rewrite Hevents, Hevents1, <- app_assoc. reflexivity. }
  exists w'. split; [exact Hrun|]. split; [exact Hrunning|]. split; [exact Hexp|].
  split; [exact Hevents'|]. split.
  { rewrite Hevents', !appended_rows_app, appended_rows_wait_events.
    cbn. rewrite app_nil_r. reflexivity. }
  assert (Hcur1 : current_experiment (prof w1) = current_experiment (prof w0))
    by (unfold w1; cbn; exact Hcur0).
  assert (Htime1 : experiment_time (prof w1) = experiment_time (prof w0))
    by (unfold w1; cbn; exact Htime0).
  rewrite Htime, Htime1, Hcur, Hcur1, Hledger. cbn. repeat split; reflexivity.
Qed.

End WithHeader.

(** The sample scheduler is stopped in the second round of a trial. *)
Lemma runExperiment_discards_stopped_trial_witness :
  waits_through (end_time (experiment_started 7 sample_world)) [wakeup_quiet]
    (experiment_started 7 sample_world) = true /\
  running_now wakeup_stopped = false /\
  exists w' : World,
    @runExperiment sample_header 7 (Some "LMain;"%string)
      ([wakeup_quiet] ++ wakeup_stopped :: wakeup_stopped :: wakeup_stopped :: [])
      sample_world = Some (w', []) /\
    appended_rows (events w') = [] /\
    experiment_time (prof w') = 5000.
Proof.
  assert (H1 : waits_through (end_time (experiment_started 7 sample_world))
                 [wakeup_quiet] (experiment_started 7 sample_world) = true)
    by reflexivity.
  assert (H2 : running_now wakeup_stopped = false) by reflexivity.
  split; [exact H1|]. split; [exact H2|].
  destruct (@runExperiment_discards_stopped_trial sample_header 7
              (Some "LMain;"%string) sample_world [wakeup_quiet]
              wakeup_stopped wakeup_stopped wakeup_stopped [] H1 H2 H2)
    as (w' & Hrun & _ & _ & _ & Hrows & Htime & _).
  exists w'. split; [exact Hrun|]. split; [exact Hrows | exact Htime].
Defined.

(** The same trial left to run is recorded: one row, and the duration
    doubled for want of hits. *)
Example runExperiment_records_finished_trial :
  exists w' : World,
    @runExperiment sample_header 9 (Some "Lcom/acme/Main$Inner;"%string)
      [wakeup_late; wakeup_quiet; wakeup_quiet] sample_world = Some (w', []) /\
    appended_rows (events w') =
      [ {| row_class := "com.acme.Main"; row_lineno := 0;
           row_speedup := calculate_random_speedup 9;
           row_duration := 6002000000; row_effective_duration := 6002000000;
           row_points_hit := 0 |} ] /\
    experiment_time (prof w') = 10000.
Proof. eexists. split; [vm_compute; reflexivity|]. split; reflexivity. Qed.

End SchedulerFacts.

(** * Part III: further properties of the code *)

(** ** [cleanSignature] and the delay quantum *)

Module SignatureFacts.
Import Float32 Speedup Scheduler Text ScopeFilter.

Lemma substring_whole_but_end (name : string) (c : ascii) :
  String.substring 0 (String.length name) (name ++ String c "") = name.
Proof.
  induction name as [|d name IH]; [reflexivity|].
  simpl. f_equal. exact IH.
Qed.

Lemma length_with_end (s : string) (c : ascii) :
  String.length (s ++ String c "") = S (String.length s).
Proof. induction s as [|d s IH]; simpl; [reflexivity | rewrite IH; reflexivity]. Qed.

Lemma cleanSignature_strips (name : string) :
  name <> EmptyString ->
  cleanSignature (class_signature name) = clean_chars name.
Proof.
  intros Hne. destruct name as [|d name]; [contradiction|].
  unfold cleanSignature, class_signature.
  set (nm := String d name).
  change (String.length (String "L" (nm ++ ";")))
    with (S (String.length (nm ++ ";"))).
  rewrite length_with_end.
  change (String.length nm) with (S (String.length name)).
  change ((S (S (S (String.length name))) <? 3)%nat) with false.
  change (S (S (S (String.length name))) - 2)%nat with (String.length nm).
  change (String.substring 1 (String.length nm) (String "L" (nm ++ ";")))
    with (String.substring 0 (String.length nm) (nm ++ ";")).
  rewrite substring_whole_but_end. reflexivity.
Qed.

Lemma clean_chars_no_dollar (s : string) :
  has_char "$" s = false -> clean_chars s = replace_char "/" "." s.
Proof.
  induction s as [|c s IH]; [reflexivity|]. cbn [has_char clean_chars replace_char].
  intros Hno. apply orb_false_elim in Hno as [Hc Hs].
  destruct (Ascii.eqb c "/"); [rewrite IH by exact Hs; reflexivity|].
  rewrite Hc, IH by exact Hs. reflexivity.
Qed.

Lemma clean_chars_cut (outer inner : string) :
  has_char "$" outer = false ->
  clean_chars (outer ++ String "$" inner) = clean_chars outer.
Proof.
  induction outer as [|c outer IH]; [reflexivity|].
  intros Hno. cbn [has_char] in Hno.
  apply orb_false_elim in Hno as [Hc Hs].
  change (String c outer ++ String "$" inner)%string
    with (String c (outer ++ String "$" inner)).
  cbn [clean_chars].
  destruct (Ascii.eqb c "/"); [rewrite IH by exact Hs; reflexivity|].
  rewrite Hc, IH by exact Hs. reflexivity.
Qed.

Lemma replace_char_clean (from to : ascii) (s : string) :
  from <> to -> has_char from (replace_char from to s) = false.
Proof.
  intros Hne. induction s as [|c s IH]; [reflexivity|].
  cbn [replace_char has_char]. rewrite IH, orb_false_r.
  destruct (Ascii.eqb_spec c from) as [-> | Hc].
  - apply Ascii.eqb_neq. congruence.
  - apply Ascii.eqb_neq. exact Hc.
Qed.

Lemma replace_char_length (from to : ascii) (s : string) :
  String.length (replace_char from to s) = String.length s.
Proof. induction s as [|c s IH]; cbn; [reflexivity | rewrite IH; reflexivity]. Qed.

(** X1.  For the signature [L<name>;] of a class whose name has no [$],
    [cleanSignature] gives the name with every [/] turned into [.]: the
    marker and the semicolon are gone, the length is that of the name and
    no [/] is left.  For a nested class [<outer>$<inner>] it gives the
    same as for [<outer>]: everything from the first [$] on is cut. *)
Theorem cleanSignature_dotted_outer_class (outer : string) :
  outer <> EmptyString ->
  has_char "$" outer = false ->
  cleanSignature (class_signature outer) = replace_char "/" "." outer /\
  String.length (cleanSignature (class_signature outer)) = String.length outer /\
  has_char "/" (cleanSignature (class_signature outer)) = false /\
  (forall inner : string,
     cleanSignature (class_signature (outer ++ String "$" inner))
     = replace_char "/" "." outer).
Proof.
  intros Hne Hno.
  assert (Hclean : cleanSignature (class_signature outer) = replace_char "/" "." outer).
  { rewrite cleanSignature_strips by exact Hne. apply clean_chars_no_dollar, Hno. }
  rewrite Hclean. split; [reflexivity|]. split; [apply replace_char_length|].
  split; [apply replace_char_clean; discriminate|].
  intros inner. rewrite cleanSignature_strips.
  - rewrite clean_chars_cut by exact Hno. apply clean_chars_no_dollar, Hno.
  - destruct outer; [contradiction | discriminate].
Qed.

Lemma cleanSignature_dotted_outer_class_witness :
  "com/acme/Main"%string <> EmptyString /\
  has_char "$" "com/acme/Main" = false /\
  cleanSignature (class_signature "com/acme/Main") = "com.acme.Main"%string /\
  cleanSignature (class_signature ("com/acme/Main" ++ String "$" "Inner"))
  = "com.acme.Main"%string.
Proof.
  assert (H1 : "com/acme/Main"%string <> EmptyString) by discriminate.
  assert (H2 : has_char "$" "com/acme/Main" = false) by reflexivity.
  destruct (cleanSignature_dotted_outer_class "com/acme/Main" H1 H2)
    as (Hclean & _ & _ & Hinner).
  split; [exact H1|]. split; [exact H2|].
  split; [rewrite Hclean; reflexivity | rewrite Hinner; reflexivity].
Defined.

(** X2.  The delay quantum [runExperiment] derives from the speedup it
    draws is exact in spite of the [float] product: it is 0 for the five
    low residues of the draw and [(residue - 4) * 50000] nanoseconds
    otherwise, a twentieth of the signal period per step, and so lies
    between 0 and the signal period. *)
Theorem delay_quantum_exact (rand_value : Z) :
  delay_of_speedup (calculate_random_speedup rand_value)
  = (SIGNAL_FREQ / 20) * Z.max 0 (Z.rem rand_value 25 - 4) /\
  0 <= delay_of_speedup (calculate_random_speedup rand_value) <= SIGNAL_FREQ.
Proof.
  pose proof (Z.rem_bound_abs rand_value 25 ltac:(lia)) as Hb.
  unfold calculate_random_speedup. cbv zeta.
  generalize dependent (Z.rem rand_value 25). intros v Hv.
  assert (Hrange : -25 < v < 25) by lia. clear Hv.
  destruct (Z.ltb_spec v 5) as [Hlt | Hge].
  - rewrite Z.max_l by lia. split; [reflexivity | vm_compute; split; discriminate].
  - assert (Hcases :
      v = 5 \/ v = 6 \/ v = 7 \/ v = 8 \/ v = 9 \/ v = 10 \/ v = 11 \/
      v = 12 \/ v = 13 \/ v = 14 \/ v = 15 \/ v = 16 \/ v = 17 \/ v = 18 \/
      v = 19 \/ v = 20 \/ v = 21 \/ v = 22 \/ v = 23 \/ v = 24) by lia.
    repeat (destruct Hcases as [-> | Hcases];
            [vm_compute; repeat split; discriminate |]).
    subst v. vm_compute. repeat split; discriminate.
Qed.

End SignatureFacts.

(** ** The scope filter, what it accepts *)

Module ScopeFilterMore.
Import ScopeFilter ScopeFilterFacts Text.

Lemma is_class_fqn_prefix_sound (prefix class_sig : string) :
  is_class_fqn_prefix prefix class_sig = true ->
  naive_is_prefix prefix class_sig = true.
Proof.
  destruct class_sig as [|c name].
  - unfold is_class_fqn_prefix. cbn [strstr].
    destruct (String.prefix prefix ""); discriminate.
  - rewrite is_class_fqn_prefix_spec. intros H.
    apply andb_prop in H as [_ H]. exact H.
Qed.

Lemma prefix_off_marker (prefix name : string) :
  starts_off_marker prefix = true ->
  String.prefix prefix (class_signature name) = false.
Proof.
  destruct prefix as [|c prefix]; [discriminate|].
  unfold starts_off_marker, class_signature. intros Hc.
  apply negb_true_iff in Hc. cbn [String.prefix].
  destruct (ascii_dec c "L") as [-> | _]; [discriminate Hc | reflexivity].
Qed.


(** X3.  [is_in_allowed_scope] never lets in a class whose name does not
    start with one of the search scopes: whenever it answers true, some
    search scope is a prefix of the signature read from its second
    character on. *)
Theorem is_in_allowed_scope_accepts_only_searched
    (ignored_scopes search_scopes : list string) (class_sig : string) :
  is_in_allowed_scope ignored_scopes search_scopes class_sig = true ->
  exists scope : string,
    In scope search_scopes /\ naive_is_prefix scope class_sig = true.
Proof.
  unfold is_in_allowed_scope, contains_class_fqn_prefix. intros H.
  apply andb_prop in H as [_ H]. apply existsb_exists in H as (scope & Hin & Hp).
  exists scope. split; [exact Hin | apply is_class_fqn_prefix_sound, Hp].
Qed.

Lemma is_in_allowed_scope_accepts_only_searched_witness :
  is_in_allowed_scope ["com/acme/gen"%string] ["com/acme"%string; "org"%string]
    (class_signature "com/acme/Main") = true /\
  exists scope : string,
    In scope ["com/acme"%string; "org"%string] /\
    naive_is_prefix scope (class_signature "com/acme/Main") = true.
Proof.
  assert (H1 : is_in_allowed_scope ["com/acme/gen"%string]
                 ["com/acme"%string; "org"%string]
                 (class_signature "com/acme/Main") = true) by reflexivity.
  split; [exact H1|].
  exact (is_in_allowed_scope_accepts_only_searched _ _ _ H1).
Defined.

(** X4.  With scope lists all of whose prefixes begin with a character
    other than [L], and no real package prefix begins otherwise unless
    its first directory does, [is_in_allowed_scope] is on every class
    signature [L<name>;] the reference: some search scope starts
    [<name>;] and no ignored scope does. *)
Theorem is_in_allowed_scope_reference_off_marker
    (ignored_scopes search_scopes : list string) (name : string) :
  forallb starts_off_marker ignored_scopes = true ->
  forallb starts_off_marker search_scopes = true ->
  is_in_allowed_scope ignored_scopes search_scopes (class_signature name) =
  existsb (fun scope => String.prefix scope (name ++ ";")) search_scopes
  && negb (existsb (fun scope => String.prefix scope (name ++ ";")) ignored_scopes).
Proof.
  intros Hi Hs.
  rewrite is_in_allowed_scope_naive.
  - reflexivity.
  - apply List.Forall_forall. intros scope Hin.
    apply prefix_off_marker.
    apply (proj1 (forallb_forall _ _) Hi scope Hin).
  - apply List.Forall_forall. intros scope Hin.
    apply prefix_off_marker.
    apply (proj1 (forallb_forall _ _) Hs scope Hin).
Qed.

Lemma is_in_allowed_scope_reference_off_marker_witness :
  forallb starts_off_marker ["com/acme/gen"%string] = true /\
  forallb starts_off_marker ["com/acme"%string; "org"%string] = true /\
  is_in_allowed_scope ["com/acme/gen"%string] ["com/acme"%string; "org"%string]
    (class_signature "com/acme/gen/Stub") = false.
Proof.
  split; [reflexivity|]. split; [reflexivity|].
  rewrite (is_in_allowed_scope_reference_off_marker
             ["com/acme/gen"%string] ["com/acme"%string; "org"%string]
             "com/acme/gen/Stub" eq_refl eq_refl).
  reflexivity.
Defined.



End ScopeFilterMore.

(** ** The experiment built for a frame *)

Module RangesMore.
Import MachineInt Ranges RangesFacts.

(** The first loop stops at an entry that starts at or before the frame
    and whose successor, if there is one, starts after it. *)
Lemma resolve_lineno_entry
    (entries : list jvmtiLineNumberEntry) (frame_lineno old_lineno : Z) :
  entries <> [] ->
  start_location (entries !!! 0%nat) <= frame_lineno <= MAX_BCI ->
  exists i : nat,
    (i < length entries)%nat /\
    resolve_lineno entries frame_lineno old_lineno = line_number (entries !!! i) /\
    start_location (entries !!! i) <= frame_lineno < next_start entries i.
Proof.
  intros Hne Hfirst. unfold resolve_lineno. cbv zeta.
  set (n := length entries).
  assert (Hn : (0 < n)%nat) by (subst n; destruct entries; [contradiction | cbn; lia]).
  assert (Hgen : forall m k : nat,
            (1 <= k <= n)%nat -> (k + m = S n)%nat ->
            start_location (entries !!! (k - 1)%nat) <= frame_lineno ->
            exists i : nat,
              (i < n)%nat /\
              (fix loop (indices : list nat) : Z :=
                 match indices with
                 | [] => old_lineno
                 | i :: rest =>
                     if (i =? n)%nat
                        || (frame_lineno <? start_location (entries !!! i))
                     then line_number (entries !!! (i - 1)%nat)
                     else loop rest
                 end) (seq k m) = line_number (entries !!! i) /\
              start_location (entries !!! i) <= frame_lineno < next_start entries i).
  { induction m as [|m IH]; intros k Hk Hsum Hprev.
    - exfalso. lia.
    - cbn [seq].
      destruct (Nat.eqb_spec k n) as [Heq | Hneq]; cbn [orb].
      + exists (k - 1)%nat. split; [lia|]. split; [reflexivity|].
        split; [exact Hprev|]. unfold next_start.
        replace (S (k - 1)) with n by lia.
        rewrite (lookup_ge_None_2 entries n) by (subst n; lia). lia.
      + destruct (Z.ltb_spec frame_lineno (start_location (entries !!! k)))
          as [Hlt | Hge].
        * exists (k - 1)%nat. split; [lia|]. split; [reflexivity|].
          split; [exact Hprev|]. unfold next_start.
          replace (S (k - 1)) with k by lia.
          rewrite (list_lookup_lookup_total_lt entries k) by (subst n; lia).
          exact Hlt.
        * apply (IH (S k)); [lia | lia |].
          replace (S k - 1)%nat with k by lia. exact Hge. }
  apply (Hgen n 1%nat); [lia | lia | exact (proj1 Hfirst)].
Qed.

(** X6.  The frame an experiment is built for lies in the experiment: if
    its line-number table is not empty and starts at or before the
    bytecode index of the frame, [inExperiment] holds of the frame
    itself, so a thread sampled again at the same place is delayed. *)
Theorem selected_frame_is_in_its_experiment
    (exp_frame : Frame.JVMPI_CallFrame) (entries : list jvmtiLineNumberEntry)
    (p : Profiler) :
  Forall valid_entry entries ->
  entries <> [] ->
  start_location (entries !!! 0%nat) <= Frame.lineno exp_frame <= MAX_BCI ->
  inExperiment exp_frame (select_experiment exp_frame entries p) = true.
Proof.
  intros Hvalid Hne Hfirst.
  apply inExperiment_spec; [reflexivity|]. split; [reflexivity|].
  destruct (resolve_lineno_entry entries (Frame.lineno exp_frame)
              (Exp.lineno (current_experiment p)) Hne Hfirst)
    as (i & Hi & Hline & Hin).
  exists (start_location (entries !!! i)), (next_start entries i).
  split; [|exact Hin].
  apply in_build_location_ranges; [exact Hvalid|].
  exists i, (entries !!! i).
  split; [apply list_lookup_lookup_total_lt; exact Hi|].
  split; [symmetry; exact Hline | split; reflexivity].
Qed.

Lemma selected_frame_is_in_its_experiment_witness :
  Forall valid_entry sample_entries /\
  sample_entries <> [] /\
  start_location (sample_entries !!! 0%nat) <= Frame.lineno sample_exp_frame
    <= MAX_BCI /\
  inExperiment sample_exp_frame
    (select_experiment sample_exp_frame sample_entries
       (@initial_profiler sample_header)) = true.
Proof.
  assert (H1 : Forall valid_entry sample_entries)
    by (repeat constructor; cbn; unfold MAX_BCI; lia).
  assert (H2 : sample_entries <> []) by discriminate.
  assert (H3 : start_location (sample_entries !!! 0%nat)
               <= Frame.lineno sample_exp_frame <= MAX_BCI)
    by (cbn; unfold MAX_BCI; lia).
  split; [exact H1|]. split; [exact H2|]. split; [exact H3|].
  exact (selected_frame_is_in_its_experiment sample_exp_frame sample_entries
           (@initial_profiler sample_header) H1 H2 H3).
Defined.

End RangesMore.

(** ** Call frames: order, duplicates, the static buffer *)

Module FramesFacts.
Import Handler Frames.

Lemma frame_eq_iff (a b : Frame.JVMPI_CallFrame) : frame_eq a b = true <-> a = b.
Proof.
  unfold frame_eq. destruct a as [la ma], b as [lb mb]. cbn. split.
  - intros H. apply andb_prop in H as [Hm Hl].
    apply Z.eqb_eq in Hm, Hl. congruence.
  - intros [= -> ->]. rewrite !Z.eqb_refl. reflexivity.
Qed.

Lemma frame_lt_irrefl (a : Frame.JVMPI_CallFrame) : frame_lt a a = false.
Proof. unfold frame_lt. rewrite Z.eqb_refl. apply Z.ltb_irrefl. Qed.

Lemma frame_lt_trans (a b c : Frame.JVMPI_CallFrame) :
  frame_lt a b = true -> frame_lt b c = true -> frame_lt a c = true.
Proof.
  unfold frame_lt.
  destruct (Z.eqb_spec (Frame.method_id a) (Frame.method_id b)),
           (Z.eqb_spec (Frame.method_id b) (Frame.method_id c)),
           (Z.eqb_spec (Frame.method_id a) (Frame.method_id c));
    rewrite ?Z.ltb_lt; lia.
Qed.

Lemma frame_trichotomy (a b : Frame.JVMPI_CallFrame) :
  frame_lt a b = true \/ a = b \/ frame_lt b a = true.
Proof.
  unfold frame_lt. destruct a as [la ma], b as [lb mb]. cbn.
  destruct (Z.eqb_spec ma mb) as [-> | Hne].
  - rewrite Z.eqb_refl. rewrite !Z.ltb_lt.
    destruct (Z.lt_trichotomy la lb) as [? | [-> | ?]]; auto.
  - destruct (Z.eqb_spec mb ma); [congruence|]. rewrite !Z.ltb_lt. lia.
Qed.

Lemma frame_lt_asym (a b : Frame.JVMPI_CallFrame) :
  frame_lt a b = true -> frame_lt b a = false.
Proof.
  intros Hab. destruct (frame_lt b a) eqn:Hba; [|reflexivity].
  pose proof (frame_lt_trans a b a Hab Hba) as Haa.
  rewrite frame_lt_irrefl in Haa. discriminate.
Qed.

(** X7.  [operator<] and [operator==] on call frames are what
    [std::sort] and [std::unique] need: [==] is equality of both fields,
    [<] is irreflexive and transitive, and of two frames exactly one of
    [a < b], [a == b], [b < a] holds. *)
Theorem call_frame_operators_order :
  (forall a b, frame_eq a b = true <-> a = b) /\
  (forall a, frame_lt a a = false) /\
  (forall a b c, frame_lt a b = true -> frame_lt b c = true -> frame_lt a c = true) /\
  (forall a b,
     (frame_lt a b = true /\ frame_eq a b = false /\ frame_lt b a = false) \/
     (frame_lt a b = false /\ frame_eq a b = true /\ frame_lt b a = false) \/
     (frame_lt a b = false /\ frame_eq a b = false /\ frame_lt b a = true)).
Proof.
  split; [exact frame_eq_iff|]. split; [exact frame_lt_irrefl|].
  split; [exact frame_lt_trans|]. intros a b.
  destruct (frame_trichotomy a b) as [Hab | [-> | Hba]].
  - left. split; [exact Hab|]. split; [|apply frame_lt_asym, Hab].
    destruct (frame_eq a b) eqn:He; [|reflexivity].
    apply frame_eq_iff in He. subst b. rewrite frame_lt_irrefl in Hab. discriminate.
  - right. left. rewrite frame_lt_irrefl.
    split; [reflexivity|]. split; [apply frame_eq_iff; reflexivity | reflexivity].
  - right. right. split; [apply frame_lt_asym, Hba|]. split; [|exact Hba].
    destruct (frame_eq a b) eqn:He; [|reflexivity].
    apply frame_eq_iff in He. subst b. rewrite frame_lt_irrefl in Hba. discriminate.
Qed.

#[local] Instance frame_le_total : Total frame_le.
Proof.
  intros a b. unfold frame_le.
  destruct (frame_trichotomy a b) as [Hab | [-> | Hba]].
  - left. apply frame_lt_asym, Hab.
  - left. apply frame_lt_irrefl.
  - right. apply frame_lt_asym, Hba.
Qed.

#[local] Instance frame_le_trans : Transitive frame_le.
Proof.
  intros a b c Hab Hbc. unfold frame_le in *.
  destruct (frame_lt c a) eqn:Hca; [|reflexivity].
  destruct (frame_trichotomy a b) as [Hlt | [-> | Hlt]].
  - pose proof (frame_lt_trans c a b Hca Hlt). congruence.
  - congruence.
  - congruence.
Qed.

Lemma frame_le_lt (a b : Frame.JVMPI_CallFrame) :
  frame_le a b -> a <> b -> frame_lt a b = true.
Proof.
  unfold frame_le. intros Hle Hne.
  destruct (frame_trichotomy a b) as [? | [? | ?]]; [assumption | contradiction | congruence].
Qed.

Lemma unique_after_spec (l : list Frame.JVMPI_CallFrame) :
  forall prev : Frame.JVMPI_CallFrame,
  StronglySorted frame_le (prev :: l) ->
  StronglySorted (fun a b => frame_lt a b = true) (prev :: unique_after prev l) /\
  (forall f, In f (unique_after prev l) <-> In f l /\ f <> prev).
Proof.
  induction l as [|b l IH]; intros prev Hs.
  - cbn. split; [repeat constructor | intros f; tauto].
  - apply StronglySorted_inv in Hs as [Hs Hall].
    apply StronglySorted_inv in Hs as [Hl Hb].
    apply Forall_cons in Hall as [Hpb Hprev].
    cbn [unique_after].
    destruct (frame_eq prev b) eqn:He.
    + apply frame_eq_iff in He. subst b.
      destruct (IH prev) as [Hsorted Hin]; [constructor; assumption|].
      split; [exact Hsorted|]. intros f. rewrite Hin. cbn [In].
      split; [intros [? ?]; auto | intros [[<- | ?] ?]; [contradiction | auto]].
    + assert (Hne : prev <> b).
      { intros ->. rewrite (proj2 (frame_eq_iff b b) eq_refl) in He. discriminate. }
      pose proof (frame_le_lt prev b Hpb Hne) as Hlt.
      destruct (IH b) as [Hsorted Hin]; [constructor; assumption|].
      assert (Habove : forall f, In f l -> frame_lt prev f = true).
      { intros f Hf. apply frame_le_lt.
        - apply (proj1 (List.Forall_forall _ _) Hprev f Hf).
        - intros <-.
          pose proof (proj1 (List.Forall_forall _ _) Hb prev Hf) as Hbp.
          unfold frame_le in Hbp. congruence. }
      split.
      * constructor; [exact Hsorted|].
        constructor; [exact Hlt|].
        apply List.Forall_forall. intros f Hf. apply Hin in Hf as [Hf _].
        apply Habove, Hf.
      * intros f. cbn [In]. rewrite Hin. split.
        -- intros [<- | [Hf Hfb]].
           ++ split; [left; reflexivity | congruence].
           ++ split; [right; exact Hf|]. intros ->.
              specialize (Habove prev Hf). rewrite frame_lt_irrefl in Habove.
              discriminate.
        -- intros [[<- | Hf] Hfp]; [left; reflexivity|].
           destruct (frame_eq b f) eqn:Hbf.
           ++ left. apply frame_eq_iff, Hbf.
           ++ right. split; [exact Hf|]. intros ->.
              rewrite (proj2 (frame_eq_iff b b) eq_refl) in Hbf. discriminate.
Qed.

Lemma strictly_sorted_NoDup (l : list Frame.JVMPI_CallFrame) :
  StronglySorted (fun a b => frame_lt a b = true) l -> List.NoDup l.
Proof.
  induction 1 as [|a l Hs IH Hall]; constructor; [|exact IH].
  intros Hin. pose proof (proj1 (List.Forall_forall _ _) Hall a Hin) as Haa.
  cbv beta in Haa. rewrite frame_lt_irrefl in Haa. discriminate.
Qed.

(** Sorting, then dropping equal neighbours: the same frames, in strict
    order. *)
Lemma unique_call_frames_spec
    (call_frames : list Frame.JVMPI_CallFrame) :
  (forall f, In f (unique_call_frames call_frames) <-> In f call_frames) /\
  StronglySorted (fun a b => frame_lt a b = true) (unique_call_frames call_frames).
Proof.
  unfold unique_call_frames, sort.
  pose proof (StronglySorted_merge_sort frame_le call_frames) as Hs.
  pose proof (merge_sort_Permutation frame_le call_frames) as Hperm.
  assert (Hsame : forall f, In f (merge_sort frame_le call_frames) <-> In f call_frames).
  { intros f. split; apply Permutation_in; [exact Hperm | symmetry; exact Hperm]. }
  destruct (merge_sort frame_le call_frames) as [|a l]; cbn [unique].
  - split; [exact Hsame | constructor].
  - destruct (unique_after_spec l a Hs) as [Hsorted Hin].
    split; [|exact Hsorted].
    intros f. rewrite <- Hsame. cbn [In]. rewrite Hin. split.
    + intros [? | [? _]]; auto.
    + intros [<- | Hf]; [left; reflexivity|].
      destruct (frame_eq a f) eqn:Haf.
      * left. apply frame_eq_iff, Haf.
      * right. split; [exact Hf|]. intros ->.
        rewrite (proj2 (frame_eq_iff a a) eq_refl) in Haf. discriminate.
Qed.

(** X8.  The sort-unique-erase of a round removes exactly the
    duplicates: the frames left are pairwise different, they are the
    frames that were sampled, each once, and they come in the strict
    order of [operator<]. *)
Theorem unique_call_frames_removes_duplicates
    (call_frames : list Frame.JVMPI_CallFrame) :
  List.NoDup (unique_call_frames call_frames) /\
  (forall f, In f (unique_call_frames call_frames) <-> In f call_frames) /\
  StronglySorted (fun a b => frame_lt a b = true) (unique_call_frames call_frames).
Proof.
  destruct (unique_call_frames_spec call_frames) as [Hsame Hsorted].
  split; [|split; [exact Hsame | exact Hsorted]].
  apply strictly_sorted_NoDup, Hsorted.
Qed.

(** *** The static buffer *)

Section WithHeader.
Context `{Header}.

Lemma map_lookup_take {A : Type} `{!Inhabited A} (l : list A) (k : nat) :
  (k <= length l)%nat -> map (fun i => l !!! i) (seq 0 k) = take k l.
Proof.
  induction k as [|k IH]; intros Hk; [reflexivity|].
  rewrite seq_S, map_app, IH by lia. cbn [map Nat.add].
  symmetry. apply take_S_r. apply list_lookup_lookup_total_lt. lia.
Qed.

Lemma copied_frames_take (p : Profiler) :
  0 <= NUM_STATIC_CALL_FRAMES ->
  length (static_call_frames p) = Z.to_nat NUM_STATIC_CALL_FRAMES ->
  copied_frames p = take (Z.to_nat (call_index p)) (static_call_frames p).
Proof.
  intros Hnum Hlen. unfold copied_frames.
  rewrite map_lookup_take by lia.
  destruct (Z.le_gt_cases (call_index p) NUM_STATIC_CALL_FRAMES) as [Hle | Hgt].
  - rewrite Z.min_l by lia. reflexivity.
  - rewrite Z.min_r by lia. rewrite !take_ge by lia. reflexivity.
Qed.

Lemma take_take_app {A : Type} (n : nat) (l k : list A) :
  take n (take n l ++ k) = take n (l ++ k).
Proof.
  destruct (Nat.le_gt_cases (length l) n) as [Hle | Hgt].
  - rewrite (take_ge l n) by lia. reflexivity.
  - rewrite take_app_le by (rewrite length_take; lia).
    rewrite take_take, Nat.min_id. rewrite take_app_le by lia. reflexivity.
Qed.

Lemma buffer_step_none (p : Profiler) :
  0 <= NUM_STATIC_CALL_FRAMES ->
  length (static_call_frames p) = Z.to_nat NUM_STATIC_CALL_FRAMES ->
  buffer_step p p [].
Proof.
  intros Hnum Hlen. unfold buffer_step. cbn [length].
  do 4 (split; [reflexivity|]). split; [lia|].
  rewrite app_nil_r, copied_frames_take by assumption.
  destruct (Z.le_gt_cases (call_index p) NUM_STATIC_CALL_FRAMES) as [Hle | Hgt].
  - rewrite take_take. f_equal. lia.
  - rewrite (take_ge _ (Z.to_nat (call_index p))) by lia.
    rewrite take_ge by lia. reflexivity.
Qed.

Lemma record_frame_buffer (f : Frame.JVMPI_CallFrame) (p : Profiler) :
  0 <= NUM_STATIC_CALL_FRAMES ->
  length (static_call_frames p) = Z.to_nat NUM_STATIC_CALL_FRAMES ->
  0 <= call_index p < 2 ^ 31 - 1 ->
  exists p', record_frame f p = Some p' /\ buffer_step p p' [f].
Proof.
  intros Hnum Hlen Hidx. unfold record_frame.
  destruct (Z.ltb_spec (call_index p) 0) as [? | _]; [lia|].
  assert (Hnext : MachineInt.to_jint (call_index p + 1) = call_index p + 1)
    by (apply MachineIntFacts.to_jint_id; unfold MachineInt.in_jint; lia).
  rewrite Hnext.
  eexists. split; [reflexivity|].
  unfold buffer_step. cbn [in_experiment prof_ready in_scope_ids call_index
                           static_call_frames set_call_frames length].
  split; [reflexivity|]. split; [reflexivity|]. split; [reflexivity|].
  split; [destruct (_ <? _); [apply length_insert | reflexivity]|].
  split; [lia|].
  rewrite (copied_frames_take p) by assumption.
  rewrite copied_frames_take; cbn [call_index static_call_frames set_call_frames];
    [| exact Hnum | destruct (_ <? _); [rewrite length_insert|]; exact Hlen].
  replace (Z.to_nat (call_index p + 1)) with (S (Z.to_nat (call_index p))) by lia.
  destruct (Z.ltb_spec (call_index p) NUM_STATIC_CALL_FRAMES) as [Hlt | Hge].
  - rewrite (take_S_r _ _ f) by (apply list_lookup_insert_eq; lia).
    rewrite take_insert_ge by lia.
    rewrite (take_ge (take (Z.to_nat (call_index p)) (static_call_frames p) ++ [f]));
      [reflexivity|].
    rewrite length_app, length_take. cbn [length]. lia.
  - rewrite (take_ge _ (S (Z.to_nat (call_index p)))) by lia.
    rewrite (take_ge _ (Z.to_nat (call_index p))) by lia.
    rewrite take_app_length' by lia. reflexivity.
Qed.

Lemma sampled_frame_same (p p' : Profiler) (ev : ThreadEvent) :
  prof_ready p' = prof_ready p -> in_scope_ids p' = in_scope_ids p ->
  sampled_frame p' ev = sampled_frame p ev.
Proof.
  intros Hready Hids. destruct ev as [jni trace elapsed|]; [|reflexivity].
  unfold sampled_frame, not_handled, frameInScope. rewrite Hready, Hids. reflexivity.
Qed.

Lemma thread_step_buffer (ev : ThreadEvent) (p : Profiler) (ut : UT.UserThread) :
  0 <= NUM_STATIC_CALL_FRAMES ->
  length (static_call_frames p) = Z.to_nat NUM_STATIC_CALL_FRAMES ->
  in_experiment p = false ->
  0 <= call_index p < 2 ^ 31 - 1 ->
  exists p' ut',
    thread_step ev p (Some ut) = Some (p', Some ut', []) /\
    buffer_step p p' (option_list (sampled_frame p ev)).
Proof.
  intros Hnum Hlen Hout Hidx. destruct ev as [jni trace elapsed|].
  - cbn [thread_step sampled_frame]. unfold Handle.
    destruct (not_handled jni trace p).
    + exists p, ut. split; [reflexivity | apply buffer_step_none; assumption].
    + rewrite Hout. cbn [negb].
      destruct (List.find (fun f => frameInScope f p) (scanned trace)) as [f|].
      * destruct (record_frame_buffer f p Hnum Hlen Hidx) as (p' & -> & Hstep).
        exists p', (UT.set_local_delay 0 ut). split; [reflexivity | exact Hstep].
      * exists p, (UT.set_local_delay 0 ut).
        split; [reflexivity | apply buffer_step_none; assumption].
  - cbn. eexists p, _. split; [reflexivity | apply buffer_step_none; assumption].
Qed.

Lemma sampled_frames_in_scope (p : Profiler) (evs : list ThreadEvent) :
  Forall (fun f => frameInScope f p = true) (sampled_frames p evs).
Proof.
  unfold sampled_frames. induction evs as [|ev evs IH]; [constructor|].
  cbn [omap list_omap]. destruct (sampled_frame p ev) as [f|] eqn:Hf; [|exact IH].
  constructor; [|exact IH].
  destruct ev as [jni trace elapsed|]; cbn [sampled_frame] in Hf; [|discriminate].
  destruct (not_handled jni trace p); [discriminate|].
  apply find_some in Hf. tauto.
Qed.

(** The buffer over a series of events outside an experiment. *)
Lemma thread_run_buffer
    (evs : list ThreadEvent) (p : Profiler) (ut : UT.UserThread) :
  0 <= NUM_STATIC_CALL_FRAMES ->
  length (static_call_frames p) = Z.to_nat NUM_STATIC_CALL_FRAMES ->
  in_experiment p = false ->
  0 <= call_index p ->
  call_index p + Z.of_nat (length evs) < 2 ^ 31 ->
  exists (p' : Profiler) (ut' : UT.UserThread),
    thread_run evs p (Some ut) = Some (p', Some ut', []) /\
    buffer_step p p' (sampled_frames p evs).
Proof.
  revert p ut. induction evs as [|ev evs IH]; intros p ut Hnum Hlen Hout Hlo Hhi.
  - exists p, ut. split; [reflexivity|]. apply buffer_step_none; assumption.
  - cbn [length] in Hhi. rewrite Nat2Z.inj_succ in Hhi.
    destruct (thread_step_buffer ev p ut Hnum Hlen Hout ltac:(lia))
      as (p1 & ut1 & Hstep & Hexp & Hready & Hids & Hlen1 & Hidx1 & Hcopied1).
    assert (Hshort : (length (option_list (sampled_frame p ev)) <= 1)%nat)
      by (destruct (sampled_frame p ev); cbn; lia).
    destruct (IH p1 ut1 Hnum ltac:(congruence) ltac:(congruence) ltac:(lia) ltac:(lia))
      as (p2 & ut2 & Hrun & Hexp2 & Hready2 & Hids2 & Hlen2 & Hidx2 & Hcopied2).
    assert (Hsame : sampled_frames p1 evs = sampled_frames p evs).
    { unfold sampled_frames. clear -Hready Hids.
      induction evs as [|e evs IHe]; [reflexivity|]. cbn [omap list_omap].
      rewrite (sampled_frame_same p p1 e Hready Hids), IHe. reflexivity. }
    assert (Hcons : sampled_frames p (ev :: evs)
                    = option_list (sampled_frame p ev) ++ sampled_frames p evs).
    { unfold sampled_frames. cbn [omap list_omap].
      destruct (sampled_frame p ev); reflexivity. }
    exists p2, ut2. rewrite Hcons. rewrite Hsame in Hidx2, Hcopied2.
    cbn [thread_run]. rewrite Hstep. cbn [mbind option_bind].
    rewrite Hrun. cbn [mbind option_bind app].
    split; [reflexivity|].
    split; [congruence|]. split; [congruence|]. split; [congruence|].
    split; [congruence|].
    split; [rewrite Hidx2, Hidx1, length_app; lia|].
    rewrite Hcopied2, Hcopied1, take_take_app, app_assoc. reflexivity.
Qed.

(** X9.  Between two experiments the static buffer collects, in the
    order of the signals, the first frame in scope of every handled
    signal that has one; [call_index] counts all of them, also beyond
    the capacity, and the frames the scheduler copies out afterwards are
    the first [NUM_STATIC_CALL_FRAMES] of them: what does not fit is
    dropped and nothing recorded is overwritten. *)
Theorem static_buffer_keeps_first_samples
    (evs : list ThreadEvent) (p : Profiler) (ut : UT.UserThread) :
  0 <= NUM_STATIC_CALL_FRAMES ->
  length (static_call_frames p) = Z.to_nat NUM_STATIC_CALL_FRAMES ->
  in_experiment p = false ->
  0 <= call_index p ->
  call_index p + Z.of_nat (length evs) < 2 ^ 31 ->
  exists (p' : Profiler) (ut' : UT.UserThread),
    thread_run evs p (Some ut) = Some (p', Some ut', []) /\
    call_index p' = call_index p + Z.of_nat (length (sampled_frames p evs)) /\
    copied_frames p' =
      take (Z.to_nat NUM_STATIC_CALL_FRAMES)
        (copied_frames p ++ sampled_frames p evs) /\
    Forall (fun f => frameInScope f p = true) (sampled_frames p evs) /\
    length (static_call_frames p') = length (static_call_frames p).
Proof.
  intros Hnum Hlen Hout Hlo Hhi.
  destruct (thread_run_buffer evs p ut Hnum Hlen Hout Hlo Hhi)
    as (p' & ut' & Hrun & _ & _ & _ & Hlen' & Hidx & Hcopied).
  exists p', ut'. split; [exact Hrun|]. split; [exact Hidx|].
  split; [exact Hcopied|]. split; [apply sampled_frames_in_scope | exact Hlen'].
Qed.

End WithHeader.

Lemma static_buffer_keeps_first_samples_witness :
  0 <= @NUM_STATIC_CALL_FRAMES sample_header /\
  length (static_call_frames sample_sampling_profiler)
    = Z.to_nat (@NUM_STATIC_CALL_FRAMES sample_header) /\
  in_experiment sample_sampling_profiler = false /\
  0 <= call_index sample_sampling_profiler /\
  call_index sample_sampling_profiler
    + Z.of_nat (length sample_thread_events) < 2 ^ 31 /\
  exists (p' : Profiler) (ut' : UT.UserThread),
    @thread_run sample_header sample_thread_events sample_sampling_profiler
      (Some sample_thread) = Some (p', Some ut', []) /\
    call_index p' = 2 /\
    @copied_frames sample_header p'
      = [Ranges.sample_exp_frame; Ranges.sample_exp_frame].
Proof.
  assert (H1 : 0 <= @NUM_STATIC_CALL_FRAMES sample_header) by (cbn; lia).
  assert (H2 : length (static_call_frames sample_sampling_profiler)
               = Z.to_nat (@NUM_STATIC_CALL_FRAMES sample_header)) by reflexivity.
  assert (H3 : in_experiment sample_sampling_profiler = false) by reflexivity.
  assert (H4 : 0 <= call_index sample_sampling_profiler) by (cbn; lia).
  assert (H5 : call_index sample_sampling_profiler
               + Z.of_nat (length sample_thread_events) < 2 ^ 31) by (cbn; lia).
  repeat (split; [assumption|]).
  destruct (@static_buffer_keeps_first_samples sample_header sample_thread_events
              sample_sampling_profiler sample_thread H1 H2 H3 H4 H5)
    as (p' & ut' & Hrun & Hidx & Hcopied & _ & _).
  exists p', ut'. split; [exact Hrun|].
  split; [rewrite Hidx; vm_compute; reflexivity|].
  rewrite Hcopied. vm_compute. reflexivity.
Defined.

(** X10.  [addInScopeMethods] puts the methods given into the set
    [frameInScope] looks in, keeping those that were there, and
    [clearInScopeMethods] empties it: after adding, a frame is in scope
    if and only if its method was added or was in scope before; after
    clearing, no frame is. *)
Theorem in_scope_methods_add_and_clear
    (methods : list Z) (p : Profiler) (f : Frame.JVMPI_CallFrame) :
  (frameInScope f (addInScopeMethods methods p) = true <->
     In (Frame.method_id f) methods \/ frameInScope f p = true) /\
  frameInScope f (clearInScopeMethods (addInScopeMethods methods p)) = false.
Proof.
  split; [| unfold frameInScope; cbn; apply bool_decide_eq_false; set_solver].
  unfold frameInScope, addInScopeMethods. cbn [in_scope_ids set_in_scope_ids].
  rewrite !bool_decide_eq_true.
  generalize (in_scope_ids p). induction methods as [|m methods IH]; intros ids.
  - cbn. tauto.
  - cbn [fold_left In]. rewrite IH, elem_of_union, elem_of_singleton.
    split.
    + intros [Hm | [Hm | Hm]]; auto.
    + intros [[Hm | Hm] | Hm]; auto.
Qed.

End FramesFacts.

(** ** Threads: hits and delays that must not get lost *)

Module ThreadsFacts.
Import MachineInt MachineIntFacts Ranges Handler HandlerFacts Threads Frames.

Lemma to_ulong_id (z : Z) : 0 <= z < 2 ^ 64 -> to_ulong z = z.
Proof. intros Hz. unfold to_ulong. apply Z.mod_small. exact Hz. Qed.

(** X11.  A thread that ends settles its accounts: its pending hits go
    to the global counter; if it is behind the ledger it sleeps for what
    it is short of, and if it is ahead the ledger is raised to its
    [local_delay], so that afterwards the ledger is the larger of the
    two; its record leaves the registry and no other does.  A thread
    without a record changes nothing. *)
Theorem removeUserThread_settles
    (elapsed : Z) (p : Profiler) (user_threads : gset Z)
    (address : Z) (ut : UT.UserThread) :
  nanoseconds_amount (UT.local_delay ut) ->
  nanoseconds_amount (global_delay p) ->
  0 <= points_hit p -> 0 <= UT.points_hit ut ->
  points_hit p + UT.points_hit ut < 2 ^ 64 ->
  exists (p' : Profiler) (user_threads' : gset Z) (events : list Event),
    removeUserThread elapsed p user_threads (Some (address, ut))
      = (p', user_threads', events) /\
    points_hit p' = points_hit p + UT.points_hit ut /\
    global_delay p' = Z.max (global_delay p) (UT.local_delay ut) /\
    events = (if UT.local_delay ut <? global_delay p
              then [Sleep (global_delay p - UT.local_delay ut)] else []) /\
    user_threads' = user_threads ∖ {[address]} /\
    in_experiment p' = in_experiment p /\
    removeUserThread elapsed p user_threads None = (p, user_threads, []).
Proof.
  unfold nanoseconds_amount. intros Hl Hg Hp Hu Hsum.
  unfold removeUserThread. cbn [global_delay set_points_hit].
  rewrite to_ulong_id by lia.
  rewrite (long_sub_exact (global_delay p) (UT.local_delay ut))
    by (apply in_long_of_bounds; lia).
  destruct (Z.ltb_spec 0 (global_delay p - UT.local_delay ut)) as [Hpos | Hnonpos].
  - eexists _, _, _. split; [reflexivity|]. cbn.
    split; [reflexivity|]. split; [lia|].
    destruct (Z.ltb_spec (UT.local_delay ut) (global_delay p)) as [_ | ?]; [|lia].
    unfold jcoz_sleep. rewrite Z.max_r by lia.
    destruct (Z.eqb_spec (global_delay p - UT.local_delay ut) 0); [lia|].
    cbn. auto.
  - eexists _, _, _. split; [reflexivity|]. cbn.
    rewrite labs_exact by (apply in_long_of_bounds; lia).
    rewrite long_add_exact by (apply in_long_of_bounds; lia).
    split; [reflexivity|]. split; [lia|].
    destruct (Z.ltb_spec (UT.local_delay ut) (global_delay p)) as [? | _]; [lia|].
    auto.
Qed.

Lemma removeUserThread_settles_witness :
  nanoseconds_amount (UT.local_delay sample_thread) /\
  nanoseconds_amount (global_delay sample_profiler) /\
  0 <= points_hit sample_profiler /\ 0 <= UT.points_hit sample_thread /\
  points_hit sample_profiler + UT.points_hit sample_thread < 2 ^ 64 /\
  exists (p' : Profiler) (user_threads' : gset Z),
    removeUserThread 500000 sample_profiler {[4096]} (Some (4096, sample_thread))
      = (p', user_threads', [Sleep 500000]) /\
    points_hit p' = 2 /\ global_delay p' = 600000.
Proof.
  assert (H1 : nanoseconds_amount (UT.local_delay sample_thread))
    by (unfold nanoseconds_amount; cbn; lia).
  assert (H2 : nanoseconds_amount (global_delay sample_profiler))
    by (unfold nanoseconds_amount; cbn; lia).
  assert (H3 : 0 <= points_hit sample_profiler) by (cbn; lia).
  assert (H4 : 0 <= UT.points_hit sample_thread) by (cbn; lia).
  assert (H5 : points_hit sample_profiler + UT.points_hit sample_thread < 2 ^ 64)
    by (cbn; lia).
  repeat (split; [assumption|]).
  destruct (removeUserThread_settles 500000 sample_profiler {[4096]} 4096
              sample_thread H1 H2 H3 H4 H5)
    as (p' & reg' & events & Hrun & Hhits & Hledger & Hevents & _).
  exists p', reg'. rewrite Hrun, Hevents. split; [reflexivity|].
  split; [rewrite Hhits | rewrite Hledger]; reflexivity.
Defined.

(** X12.  A thread that is registered and removed before anything
    happens to it leaves the statics and the registry as they were and
    does not sleep: it starts level with the ledger. *)
Theorem register_then_remove_is_neutral
    (elapsed address : Z) (p : Profiler) (user_threads : gset Z) :
  address ∉ user_threads ->
  nanoseconds_amount (global_delay p) ->
  0 <= points_hit p < 2 ^ 64 ->
  exists (curr_ut : option (Z * UT.UserThread)) (user_threads' : gset Z),
    register address true p user_threads = (curr_ut, user_threads') /\
    address ∈ user_threads' /\
    removeUserThread elapsed p user_threads' curr_ut = (p, user_threads, []).
Proof.
  unfold nanoseconds_amount. intros Hfresh Hg Hp.
  eexists _, _. split; [reflexivity|].
  split; [apply elem_of_union; left; apply elem_of_singleton; reflexivity|].
  unfold removeUserThread.
  cbn [UT.points_hit UT.local_delay global_delay set_points_hit points_hit].
  rewrite Z.add_0_r, to_ulong_id by lia.
  rewrite long_sub_exact by (apply in_long_of_bounds; lia).
  rewrite Z.sub_diag. cbn [Z.ltb Z.compare].
  replace (labs 0) with 0 by (vm_compute; reflexivity).
  rewrite long_add_exact by (apply in_long_of_bounds; lia).
  rewrite Z.add_0_r.
  match goal with
  | |- (?a, ?b, ?c) = _ =>
      replace a with p by (destruct p; reflexivity);
      replace b with user_threads; [reflexivity|]
  end.
  apply set_eq. intros x.
  rewrite elem_of_difference, elem_of_union, elem_of_singleton.
  split; [|intros [[-> | Hx] Hne]; [contradiction | exact Hx]].
  intros Hx. split; [right; exact Hx | intros ->; contradiction].
Qed.

Lemma register_then_remove_is_neutral_witness :
  ((4096 : Z) ∉ (∅ : gset Z)) /\
  nanoseconds_amount (global_delay sample_profiler) /\
  0 <= points_hit sample_profiler < 2 ^ 64 /\
  exists (curr_ut : option (Z * UT.UserThread)) (user_threads' : gset Z),
    register 4096 true sample_profiler ∅ = (curr_ut, user_threads') /\
    removeUserThread 0 sample_profiler user_threads' curr_ut
      = (sample_profiler, ∅, []).
Proof.
  assert (H1 : (4096 : Z) ∉ (∅ : gset Z)) by apply not_elem_of_empty.
  assert (H2 : nanoseconds_amount (global_delay sample_profiler))
    by (unfold nanoseconds_amount; cbn; lia).
  assert (H3 : 0 <= points_hit sample_profiler < 2 ^ 64) by (cbn; lia).
  split; [exact H1|]. split; [exact H2|]. split; [exact H3|].
  destruct (register_then_remove_is_neutral 0 4096 sample_profiler ∅ H1 H2 H3)
    as (curr_ut & reg' & Hreg & _ & Hrem).
  exists curr_ut, reg'. split; [exact Hreg | exact Hrem].
Defined.

Section WithHeader.
Context `{Header}.





Lemma thread_step_pending (ev : ThreadEvent) (p : Profiler) (ut : UT.UserThread) :
  in_experiment p = false ->
  in_long (UT.points_hit ut) ->
  0 <= call_index p < 2 ^ 31 - 1 ->
  exists p' ut',
    thread_step ev p (Some ut) = Some (p', Some ut', []) /\
    same_outside p p' /\
    UT.points_hit ut' = UT.points_hit ut.
Proof.
  intros Hout Hu Hidx. destruct ev as [jni trace elapsed|]; cbn [thread_step].
  - unfold Handle. destruct (not_handled jni trace p).
    + exists p, ut. split; [reflexivity|]. split; [apply same_outside_refl | reflexivity].
    + rewrite Hout. cbn [negb].
      destruct (List.find (fun f => frameInScope f p) (scanned trace)) as [f|].
      * destruct (record_frame_same f p Hidx) as (p' & -> & Hsame).
        exists p', (UT.set_local_delay 0 ut).
        split; [reflexivity|]. split; [exact Hsame | reflexivity].
      * exists p, (UT.set_local_delay 0 ut).
        split; [reflexivity|]. split; [apply same_outside_refl | reflexivity].
  - cbn. eexists p, _. split; [reflexivity|]. split; [apply same_outside_refl|].
    rewrite Hout. destruct ut as [ld ph ns]; cbn in *.
    rewrite long_add_exact; [apply Z.add_0_r|]. rewrite Z.add_0_r. exact Hu.
Qed.

Lemma thread_run_pending (evs : list ThreadEvent) :
  forall (p : Profiler) (ut : UT.UserThread),
  in_experiment p = false ->
  in_long (UT.points_hit ut) ->
  0 <= call_index p ->
  call_index p + Z.of_nat (length evs) < 2 ^ 31 ->
  exists p' ut',
    thread_run evs p (Some ut) = Some (p', Some ut', []) /\
    in_experiment p' = false /\ prof_ready p' = prof_ready p /\
    points_hit p' = points_hit p /\
    UT.points_hit ut' = UT.points_hit ut.
Proof.
  induction evs as [|ev evs IH]; intros p ut Hout Hu Hlo Hhi.
  - exists p, ut. repeat split; auto.
  - cbn [length] in Hhi. rewrite Nat2Z.inj_succ in Hhi.
    destruct (thread_step_pending ev p ut Hout Hu ltac:(lia))
      as (p1 & ut1 & Hstep & (Hexp & Hready & _ & Hhits & _ & Hidx) & Hpend).
    destruct (IH p1 ut1 ltac:(congruence) ltac:(congruence) ltac:(lia) ltac:(lia))
      as (p2 & ut2 & Hrun & Hexp2 & Hready2 & Hhits2 & Hpend2).
    exists p2, ut2. cbn [thread_run]. rewrite Hstep. cbn [mbind option_bind].
    rewrite Hrun. cbn [mbind option_bind app].
    split; [reflexivity|]. split; [exact Hexp2|].
    split; [congruence|]. split; congruence.
Qed.

(** X14.  Hits that a thread still has pending when an experiment ends
    stay pending between the experiments, whatever signals and hits the
    thread gets there, and the global counter does not move; the first
    handled signal of the next experiment, which has started from a
    counter of 0, then moves them into the counter of that experiment. *)
Theorem pending_hits_carry_over_to_next_experiment
    (evs : list ThreadEvent) (p : Profiler) (ut : UT.UserThread)
    (rand_value now : Z) (jni_env_present : bool) (trace : JVMPI_CallTrace)
    (elapsed : Z) :
  in_experiment p = false ->
  0 <= UT.points_hit ut <= LONG_MAX ->
  0 <= call_index p ->
  call_index p + Z.of_nat (length evs) < 2 ^ 31 ->
  not_handled jni_env_present trace p = false ->
  exists (p' : Profiler) (ut' : UT.UserThread),
    thread_run evs p (Some ut) = Some (p', Some ut', []) /\
    UT.points_hit ut' = UT.points_hit ut /\
    points_hit p' = points_hit p /\
    exists (p'' : Profiler) (ut'' : UT.UserThread) (events : list Event),
      Handle jni_env_present trace elapsed
        (Scheduler.prof
           (Scheduler.experiment_started rand_value
              {| Scheduler.prof := p'; Scheduler.now := now;
                 Scheduler.events := [] |}))
        (Some ut') = Some (p'', Some ut'', events) /\
      points_hit p'' = UT.points_hit ut /\
      UT.points_hit ut'' = 0.
Proof.
  intros Hout Hu Hlo Hhi Hhandled.
  destruct (thread_run_pending evs p ut Hout
              ltac:(unfold in_long, LONG_MIN, LONG_MAX in *; lia) Hlo Hhi)
    as (p' & ut' & Hrun & _ & Hready & Hhits & Hpend).
  exists p', ut'. split; [exact Hrun|]. split; [exact Hpend|]. split; [exact Hhits|].
  set (q := Scheduler.prof (Scheduler.experiment_started rand_value
              {| Scheduler.prof := p'; Scheduler.now := now;
                 Scheduler.events := [] |})).
  assert (Hq : in_experiment q = true) by reflexivity.
  assert (Hnot : not_handled jni_env_present trace q = false).
  { unfold not_handled in *. change (prof_ready q) with (prof_ready p').
    rewrite Hready. exact Hhandled. }
  rewrite (Handle_inside _ _ _ _ _ Hq Hnot). cbv zeta.
  eexists _, _, _. split; [reflexivity|].
  cbn [points_hit set_points_hit UT.points_hit]. split; [|reflexivity].
  change (points_hit q) with 0. rewrite Hpend.
  apply to_ulong_id. unfold LONG_MAX in Hu. lia.
Qed.

End WithHeader.

Lemma pending_hits_carry_over_to_next_experiment_witness :
  in_experiment sample_sampling_profiler = false /\
  0 <= UT.points_hit sample_thread <= LONG_MAX /\
  0 <= call_index sample_sampling_profiler /\
  call_index sample_sampling_profiler
    + Z.of_nat (length sample_thread_events) < 2 ^ 31 /\
  @not_handled sample_header true sample_trace sample_sampling_profiler = false /\
  exists (p' : Profiler) (ut' : UT.UserThread),
    @thread_run sample_header sample_thread_events sample_sampling_profiler
      (Some sample_thread) = Some (p', Some ut', []) /\
    UT.points_hit ut' = 2 /\ points_hit p' = 0.
Proof.
  assert (H1 : in_experiment sample_sampling_profiler = false) by reflexivity.
  assert (H2 : 0 <= UT.points_hit sample_thread <= LONG_MAX)
    by (unfold LONG_MAX; cbn; lia).
  assert (H3 : 0 <= call_index sample_sampling_profiler) by (cbn; lia).
  assert (H4 : call_index sample_sampling_profiler
               + Z.of_nat (length sample_thread_events) < 2 ^ 31) by (cbn; lia).
  assert (H5 : @not_handled sample_header true sample_trace
                 sample_sampling_profiler = false) by reflexivity.
  repeat (split; [assumption|]).
  destruct (@pending_hits_carry_over_to_next_experiment sample_header
              sample_thread_events sample_sampling_profiler sample_thread
              7 0 true sample_trace 0 H1 H2 H3 H4 H5)
    as (p' & ut' & Hrun & Hpend & Hhits & _).
  exists p', ut'. split; [exact Hrun|]. split; [exact Hpend | exact Hhits].
Defined.


End ThreadsFacts.

(** ** The trial of an experiment ([Profiler::runExperiment]) *)

Module SchedulerMore.
Import MachineInt Float32 Speedup Duration Scheduler SchedulerFacts.

Section WithHeader.
Context `{Header}.

(** The wait loop runs the rounds of the wake-ups it uses, and only
    returns when its condition is false. *)
Lemma wait_loop_used (end_ : Z) (wks : list Wakeup) :
  forall (w w1 : World) (rest : list Wakeup),
  wait_loop end_ wks w = Some (w1, rest) ->
  wait_condition end_ w1 = false /\
  exists used : list Wakeup, wks = used ++ rest /\ w1 = wait_rounds used w.
Proof.
  induction wks as [|wk wks IH]; intros w w1 rest Hrun; cbn [wait_loop] in Hrun.
  - destruct (wait_condition end_ w) eqn:Hc; [discriminate|].
    inversion Hrun; subst. split; [exact Hc|]. exists []. auto.
  - destruct (wait_condition end_ w) eqn:Hc.
    + apply IH in Hrun as [Hdone (used & -> & ->)].
      split; [exact Hdone|]. exists (wk :: used). auto.
    + inversion Hrun; subst. split; [exact Hc|]. exists []. auto.
Qed.

Lemma wait_rounds_clock (used : list Wakeup) :
  forall w : World,
  end_to_end (prof (wait_rounds used w)) = end_to_end (prof w) /\
  fix_exp (prof (wait_rounds used w)) = fix_exp (prof w).
Proof.
  induction used as [|wk used IH]; intros w; [auto|].
  cbn [wait_rounds fold_left]. fold (wait_rounds used (wait_round wk w)).
  destruct (IH (wait_round wk w)) as [-> ->]. auto.
Qed.

Lemma update_experiment_length_frame (p : Profiler) :
  current_experiment (update_experiment_length p) = current_experiment p /\
  points_hit (update_experiment_length p) = points_hit p /\
  global_delay (update_experiment_length p) = global_delay p /\
  in_experiment (update_experiment_length p) = in_experiment p /\
  _running (update_experiment_length p) = _running p.
Proof.
  unfold update_experiment_length.
  repeat match goal with
         | |- context [if ?b then _ else _] => destruct b
         end; repeat split; reflexivity.
Qed.

(** X15.  A trial that is still running after its closing sleeps is
    recorded with exactly one row.  The row has the speedup that was
    drawn, as its duration the time on the clock since the start of
    [runExperiment], the two closing sleeps included, as its effective
    duration that time less the ledger read after the last sleep, and
    the hits read then; the global counter and the ledger are back at 0
    afterwards. *)
Theorem runExperiment_records_trial
    (rand_value : Z) (sig : string) (wakeups : list Wakeup)
    (w w1 : World) (wk1 wk2 : Wakeup) (rest : list Wakeup) :
  wait_loop (end_time (experiment_started rand_value w)) wakeups
    (experiment_started rand_value w) = Some (w1, wk1 :: wk2 :: rest) ->
  running_now wk2 = true ->
  exists w' : World,
    runExperiment rand_value (Some sig) wakeups w = Some (w', rest) /\
    now w' = now w1 + elapsed wk1 + elapsed wk2 /\
    appended_rows (events w') =
      appended_rows (events w) ++
      [ {| row_class := cleanSignature sig;
           row_lineno := Exp.lineno (current_experiment (prof w));
           row_speedup := calculate_random_speedup rand_value;
           row_duration := now w' - now w;
           row_effective_duration :=
             long_sub (now w' - now w) (global_delay_now wk2);
           row_points_hit := points_hit_now wk2 |} ] /\
    points_hit (prof w') = 0 /\
    global_delay (prof w') = 0 /\
    in_experiment (prof w') = false.
Proof.
  intros Hloop Hrun.
  destruct (wait_loop_used _ _ _ _ _ Hloop) as [_ (used & Hwks & Hw1)].
  destruct (wait_rounds_frame used (experiment_started rand_value w))
    as (_ & Hexp & Hevs).
  rewrite <- Hw1 in Hexp, Hevs.
  unfold runExperiment. cbv zeta. rewrite Hloop. cbn [mbind option_bind].
  cbn. rewrite Hrun. cbn [negb].
  eexists. split; [reflexivity|].
  split; [cbn; lia|].
  split; [|split; [|split]].
  - rewrite !(proj1 (update_experiment_length_frame _)).
    cbn. rewrite !appended_rows_app, Hevs, appended_rows_app,
      appended_rows_wait_events.
    cbn. rewrite Hexp, !app_nil_r. reflexivity.
  - destruct (update_experiment_length_frame
                (set_global_delay 0
                   (set_current_experiment
                      (Exp.set_duration (now w1 + elapsed wk1 + elapsed wk2 - now w)
                         (Exp.set_points_hit (points_hit_now wk2)
                            (Exp.set_delay (global_delay_now wk2)
                               (current_experiment (prof w1)))))
                      (set_points_hit 0
                         (set_global_delay (global_delay_now wk2)
                            (set_points_hit (points_hit_now wk2)
                               (set_running true
                                  (set_in_experiment false
                                     (set_global_delay (global_delay_now wk1)
                                        (set_points_hit (points_hit_now wk1)
                                           (set_running (running_now wk1)
                                              (prof w1))))))))))))
      as (_ & Hhits & _). exact Hhits.
  - apply update_experiment_length_frame.
  - apply update_experiment_length_frame.
Qed.

(** X16.  A trial whose class cannot be looked up any more is thrown
    away after its results were taken: no hit is added and no row is
    appended, and the length of the experiments is not adapted; the
    global counter and the ledger are reset all the same, and
    [current_experiment] holds the hits and the ledger of the trial. *)
Theorem runExperiment_drops_unresolved_trial
    (rand_value : Z) (wakeups : list Wakeup)
    (w w1 : World) (wk1 wk2 : Wakeup) (rest : list Wakeup) :
  wait_loop (end_time (experiment_started rand_value w)) wakeups
    (experiment_started rand_value w) = Some (w1, wk1 :: wk2 :: rest) ->
  running_now wk2 = true ->
  exists w' : World,
    runExperiment rand_value None wakeups w = Some (w', rest) /\
    events w' = events w1 ++ [Sleep SIGNAL_FREQ; SignalUserThreads; Sleep SIGNAL_FREQ] /\
    appended_rows (events w') = appended_rows (events w) /\
    experiment_time (prof w') = experiment_time (prof w) /\
    points_hit (prof w') = 0 /\
    global_delay (prof w') = 0 /\
    Exp.points_hit (current_experiment (prof w')) = points_hit_now wk2 /\
    Exp.delay (current_experiment (prof w')) = global_delay_now wk2.
Proof.
  intros Hloop Hrun.
  destruct (wait_loop_used _ _ _ _ _ Hloop) as [_ (used & Hwks & Hw1)].
  destruct (wait_rounds_frame used (experiment_started rand_value w))
    as (Htime & _ & Hevs).
  rewrite <- Hw1 in Htime, Hevs.
  unfold runExperiment. cbv zeta. rewrite Hloop. cbn [mbind option_bind].
  cbn. rewrite Hrun. cbn [negb].
  eexists. split; [reflexivity|]. cbn.
  split; [rewrite <- !app_assoc; reflexivity|].
  split.
  { rewrite !appended_rows_app, Hevs, appended_rows_app,
      appended_rows_wait_events.
    cbn. rewrite !app_nil_r. reflexivity. }
  split; [exact Htime|]. auto.
Qed.

(** X17.  In normal mode the wait loop ends with the clock: if every
    sleep of a round takes at least [quantum] nanoseconds on the clock,
    the loop ends within the wake-ups it is given as soon as these cover
    the time left to the end of the experiment, whatever the threads do
    in between. *)
Theorem wait_loop_ends_with_the_clock
    (end_ quantum : Z) (wakeups : list Wakeup) (w : World) :
  end_to_end (prof w) = false ->
  0 < quantum ->
  List.Forall (fun wk => quantum <= elapsed wk) wakeups ->
  end_ - now w <= quantum * Z.of_nat (length wakeups) ->
  exists (w1 : World) (rest : list Wakeup),
    wait_loop end_ wakeups w = Some (w1, rest) /\
    (_running (prof w1) = true -> end_ <= now w1).
Proof.
  intros Hmode Hq. revert w Hmode.
  induction wakeups as [|wk wakeups IH]; intros w Hmode Hall Hleft.
  - cbn [length] in Hleft. cbn [wait_loop].
    assert (Hc : wait_condition end_ w = false).
    { unfold wait_condition. rewrite Hmode. cbn [andb orb].
      destruct (Z.ltb_spec (now w) end_); [lia|]. apply andb_false_r. }
    rewrite Hc. exists w, []. split; [reflexivity|]. intros _. lia.
  - cbn [wait_loop]. destruct (wait_condition end_ w) eqn:Hc.
    + apply List.Forall_cons_iff in Hall as [Hwk Hall].
      apply IH; [exact Hmode | exact Hall |].
      cbn [length] in Hleft. rewrite Nat2Z.inj_succ in Hleft.
      cbn [wait_round signal_user_threads log sleep now]. nia.
    + exists w, (wk :: wakeups). split; [reflexivity|]. intros Hrun.
      unfold wait_condition in Hc. rewrite Hrun, Hmode in Hc. cbn [andb orb] in Hc.
      apply Z.ltb_ge in Hc. exact Hc.
Qed.

(** X18.  In end-to-end mode the wait loop does not end with the clock:
    while the profiler is running and no hit of the progress point is
    counted the loop goes on, however late it is and however many
    wake-ups it gets. *)
Theorem wait_loop_end_to_end_needs_a_hit
    (end_ : Z) (wakeups : list Wakeup) (w : World) :
  end_to_end (prof w) = true ->
  _running (prof w) = true ->
  points_hit (prof w) = 0 ->
  List.Forall (fun wk => running_now wk = true /\ points_hit_now wk = 0) wakeups ->
  wait_loop end_ wakeups w = None /\
  waits_through end_ wakeups w = true.
Proof.
  revert w. induction wakeups as [|wk wakeups IH]; intros w Hmode Hrun Hhits Hall.
  - cbn [wait_loop waits_through]. unfold wait_condition.
    rewrite Hmode, Hrun, Hhits. cbn. auto.
  - apply List.Forall_cons_iff in Hall as [[Hwr Hwh] Hall].
    cbn [wait_loop waits_through].
    assert (Hc : wait_condition end_ w = true).
    { unfold wait_condition. rewrite Hmode, Hrun, Hhits. reflexivity. }
    rewrite Hc. cbn [andb].
    apply IH; [exact Hmode | exact Hwr | exact Hwh | exact Hall].
Qed.

End WithHeader.

Lemma runExperiment_records_trial_witness :
  wait_loop (end_time (experiment_started 9 sample_world))
    [wakeup_late; wakeup_quiet; wakeup_late]
    (experiment_started 9 sample_world)
  = Some (wait_round wakeup_late (experiment_started 9 sample_world),
          [wakeup_quiet; wakeup_late]) /\
  running_now wakeup_late = true /\
  exists w' : World,
    @runExperiment sample_header 9 (Some "Lcom/acme/Main$Inner;"%string)
      [wakeup_late; wakeup_quiet; wakeup_late] sample_world = Some (w', []) /\
    now w' = 12001000000 /\
    points_hit (prof w') = 0.
Proof.
  assert (H1 : wait_loop (end_time (experiment_started 9 sample_world))
                 [wakeup_late; wakeup_quiet; wakeup_late]
                 (experiment_started 9 sample_world)
               = Some (wait_round wakeup_late (experiment_started 9 sample_world),
                       [wakeup_quiet; wakeup_late])) by (vm_compute; reflexivity).
  assert (H2 : running_now wakeup_late = true) by reflexivity.
  split; [exact H1|]. split; [exact H2|].
  destruct (@runExperiment_records_trial sample_header 9
              "Lcom/acme/Main$Inner;"%string
              [wakeup_late; wakeup_quiet; wakeup_late] sample_world _
              wakeup_quiet wakeup_late [] H1 H2)
    as (w' & Hrun & Hnow & _ & Hhits & _).
  exists w'. split; [exact Hrun|]. split; [rewrite Hnow; reflexivity | exact Hhits].
Defined.

Lemma runExperiment_drops_unresolved_trial_witness :
  wait_loop (end_time (experiment_started 9 sample_world))
    [wakeup_late; wakeup_quiet; wakeup_late]
    (experiment_started 9 sample_world)
  = Some (wait_round wakeup_late (experiment_started 9 sample_world),
          [wakeup_quiet; wakeup_late]) /\
  running_now wakeup_late = true /\
  exists w' : World,
    @runExperiment sample_header 9 None
      [wakeup_late; wakeup_quiet; wakeup_late] sample_world = Some (w', []) /\
    appended_rows (events w') = [] /\
    experiment_time (prof w') = 5000 /\
    Exp.points_hit (current_experiment (prof w')) = 1.
Proof.
  assert (H1 : wait_loop (end_time (experiment_started 9 sample_world))
                 [wakeup_late; wakeup_quiet; wakeup_late]
                 (experiment_started 9 sample_world)
               = Some (wait_round wakeup_late (experiment_started 9 sample_world),
                       [wakeup_quiet; wakeup_late])) by (vm_compute; reflexivity).
  assert (H2 : running_now wakeup_late = true) by reflexivity.
  split; [exact H1|]. split; [exact H2|].
  destruct (@runExperiment_drops_unresolved_trial sample_header 9
              [wakeup_late; wakeup_quiet; wakeup_late] sample_world _
              wakeup_quiet wakeup_late [] H1 H2)
    as (w' & Hrun & _ & Hrows & Htime & _ & _ & Hhits & _).
  exists w'. split; [exact Hrun|]. split; [exact Hrows|].
  split; [exact Htime | exact Hhits].
Defined.

Lemma wait_loop_ends_with_the_clock_witness :
  end_to_end (prof sample_world) = false /\
  0 < 1000000 /\
  List.Forall (fun wk => 1000000 <= elapsed wk) [wakeup_quiet; wakeup_quiet] /\
  2000000 - now sample_world
    <= 1000000 * Z.of_nat (length [wakeup_quiet; wakeup_quiet]) /\
  exists (w1 : World) (rest : list Wakeup),
    wait_loop 2000000 [wakeup_quiet; wakeup_quiet] sample_world
      = Some (w1, rest).
Proof.
  assert (H1 : end_to_end (prof sample_world) = false) by reflexivity.
  assert (H2 : 0 < 1000000) by lia.
  assert (H3 : List.Forall (fun wk => 1000000 <= elapsed wk)
                 [wakeup_quiet; wakeup_quiet])
    by (repeat constructor; cbn; lia).
  assert (H4 : 2000000 - now sample_world
               <= 1000000 * Z.of_nat (length [wakeup_quiet; wakeup_quiet]))
    by (cbn; lia).
  repeat (split; [assumption|]).
  destruct (wait_loop_ends_with_the_clock 2000000 1000000
              [wakeup_quiet; wakeup_quiet] sample_world H1 H2 H3 H4)
    as (w1 & rest & Hrun & _).
  exists w1, rest. exact Hrun.
Defined.

Lemma wait_loop_end_to_end_needs_a_hit_witness :
  end_to_end (prof sample_waiting_world) = true /\
  _running (prof sample_waiting_world) = true /\
  points_hit (prof sample_waiting_world) = 0 /\
  List.Forall (fun wk => running_now wk = true /\ points_hit_now wk = 0)
    [wakeup_quiet; wakeup_quiet] /\
  wait_loop 0 [wakeup_quiet; wakeup_quiet] sample_waiting_world
    = None.
Proof.
  assert (H1 : end_to_end (prof sample_waiting_world) = true) by reflexivity.
  assert (H2 : _running (prof sample_waiting_world) = true) by reflexivity.
  assert (H3 : points_hit (prof sample_waiting_world) = 0) by reflexivity.
  assert (H4 : List.Forall (fun wk => running_now wk = true /\ points_hit_now wk = 0)
                 [wakeup_quiet; wakeup_quiet])
    by (repeat constructor).
  repeat (split; [assumption|]).
  apply (wait_loop_end_to_end_needs_a_hit 0
           [wakeup_quiet; wakeup_quiet] sample_waiting_world H1 H2 H3 H4).
Defined.

End SchedulerMore.

(** ** The choice of the experiment of a round *)

Module RoundsFacts.
Import Ranges Handler Frames FramesFacts Rounds.

Lemma first_with_table_some (table : Z -> option (list jvmtiLineNumberEntry))
    (call_frames : list Frame.JVMPI_CallFrame)
    (exp_frame : Frame.JVMPI_CallFrame) (entries : list jvmtiLineNumberEntry) :
  first_with_table table call_frames = Some (exp_frame, entries) ->
  exists before after : list Frame.JVMPI_CallFrame,
    call_frames = before ++ exp_frame :: after /\
    table (Frame.method_id exp_frame) = Some entries /\
    List.Forall (fun f => table (Frame.method_id f) = None) before.
Proof.
  induction call_frames as [|f call_frames IH]; cbn [first_with_table]; [discriminate|].
  destruct (table (Frame.method_id f)) as [found|] eqn:Hf.
  - intros Hsome. inversion Hsome; subst. exists [], call_frames.
    split; [reflexivity|]. split; [exact Hf | constructor].
  - intros Hsome. destruct (IH Hsome) as (before & after & -> & Htable & Hnone).
    exists (f :: before), after. split; [reflexivity|]. split; [exact Htable|].
    constructor; assumption.
Qed.

Lemma first_with_table_none (table : Z -> option (list jvmtiLineNumberEntry))
    (call_frames : list Frame.JVMPI_CallFrame) :
  first_with_table table call_frames = None <->
  List.Forall (fun f => table (Frame.method_id f) = None) call_frames.
Proof.
  induction call_frames as [|f call_frames IH]; cbn [first_with_table].
  - split; [constructor | reflexivity].
  - destruct (table (Frame.method_id f)) as [found|] eqn:Hf.
    + split; [discriminate|]. intros Hall. apply List.Forall_cons_iff in Hall as [Hnone _].
      congruence.
    + rewrite IH. split.
      * intros Hall. constructor; assumption.
      * intros Hall. apply List.Forall_cons_iff in Hall as [_ Hall]. exact Hall.
Qed.

Section WithHeader.
Context `{Header}.

(** X19.  The experiment of a round is on a frame that was sampled in
    scope.  The buffer being empty when the sampling starts, whatever
    the shuffle makes of the frames copied out: if the round finds a
    candidate, this is a frame that a handled signal of the sampling
    found in scope, the table of its method was found while that of
    every frame tried before it was not, and method and bytecode index
    of the experiment are those of the frame; the round finds none
    exactly if no copied frame has a table. *)
Theorem experiment_is_on_a_sampled_frame_in_scope
    (table : Z -> option (list jvmtiLineNumberEntry))
    (evs : list ThreadEvent) (p p' : Profiler) (ut ut' : UT.UserThread)
    (shuffled : list Frame.JVMPI_CallFrame) :
  0 <= NUM_STATIC_CALL_FRAMES ->
  length (static_call_frames p) = Z.to_nat NUM_STATIC_CALL_FRAMES ->
  in_experiment p = false ->
  call_index p = 0 ->
  Z.of_nat (length evs) < 2 ^ 31 ->
  thread_run evs p (Some ut) = Some (p', Some ut', []) ->
  Permutation shuffled (unique_call_frames (copied_frames p')) ->
  (round_experiment table shuffled p' = None <->
     List.Forall (fun f => table (Frame.method_id f) = None) (copied_frames p')) /\
  (forall q : Profiler,
     round_experiment table shuffled p' = Some q ->
     exists (exp_frame : Frame.JVMPI_CallFrame)
            (entries : list jvmtiLineNumberEntry)
            (before after : list Frame.JVMPI_CallFrame),
       shuffled = before ++ exp_frame :: after /\
       List.Forall (fun f => table (Frame.method_id f) = None) before /\
       table (Frame.method_id exp_frame) = Some entries /\
       In exp_frame (sampled_frames p evs) /\
       frameInScope exp_frame p = true /\
       Exp.method_id (current_experiment q) = Frame.method_id exp_frame /\
       Exp.bci (current_experiment q) = Frame.lineno exp_frame /\
       call_index q = 0).
Proof.
  intros Hnum Hlen Hout Hidx Hevs Hrun Hperm.
  destruct (thread_run_buffer evs p ut Hnum Hlen Hout ltac:(lia) ltac:(lia))
    as (p1 & ut1 & Hrun1 & _ & _ & _ & _ & _ & Hcopied).
  rewrite Hrun in Hrun1. inversion Hrun1; subst p1 ut1. clear Hrun1.
  pose proof (sampled_frames_in_scope p evs) as Hscope.
  assert (Hempty : copied_frames p = []).
  { unfold copied_frames. rewrite Hidx, Z.min_l by lia. reflexivity. }
  rewrite Hempty in Hcopied. cbn [app] in Hcopied.
  assert (Hin : forall f, In f shuffled <-> In f (copied_frames p')).
  { intros f. rewrite <- (proj1 (unique_call_frames_spec (copied_frames p')) f).
    split; apply Permutation_in; [exact Hperm | symmetry; exact Hperm]. }
  split.
  - unfold round_experiment.
    destruct (first_with_table table shuffled) as [[f entries]|] eqn:Hfirst.
    + cbn. split; [discriminate|]. intros Hall.
      apply first_with_table_some in Hfirst as (before & after & -> & Htable & _).
      assert (Hf : In f (copied_frames p'))
        by (apply Hin, in_or_app; right; left; reflexivity).
      pose proof (proj1 (List.Forall_forall _ _) Hall f Hf) as Hnone.
      cbv beta in Hnone. congruence.
    + cbn. split; [intros _ | reflexivity].
      apply first_with_table_none in Hfirst.
      apply List.Forall_forall. intros f Hf.
      apply (proj1 (List.Forall_forall _ _) Hfirst f), Hin, Hf.
  - intros q Hq. unfold round_experiment in Hq.
    destruct (first_with_table table shuffled) as [[f entries]|] eqn:Hfirst;
      [|discriminate].
    cbn in Hq. inversion Hq; subst q. clear Hq.
    apply first_with_table_some in Hfirst as (before & after & Hsplit & Htable & Hnone).
    exists f, entries, before, after.
    split; [exact Hsplit|]. split; [exact Hnone|]. split; [exact Htable|].
    assert (Hf : In f (sampled_frames p evs)).
    { assert (Hc : In f (copied_frames p'))
        by (apply Hin; rewrite Hsplit; apply in_or_app; right; left; reflexivity).
      rewrite Hcopied in Hc.
      rewrite <- (take_drop (Z.to_nat NUM_STATIC_CALL_FRAMES) (sampled_frames p evs)).
      apply in_or_app. left. exact Hc. }
    split; [exact Hf|].
    split; [exact (proj1 (List.Forall_forall _ _) Hscope f Hf)|].
    split; [reflexivity|]. split; reflexivity.
Qed.

End WithHeader.

Lemma experiment_is_on_a_sampled_frame_in_scope_witness :
  0 <= @NUM_STATIC_CALL_FRAMES sample_header /\
  length (static_call_frames sample_sampling_profiler)
    = Z.to_nat (@NUM_STATIC_CALL_FRAMES sample_header) /\
  in_experiment sample_sampling_profiler = false /\
  call_index sample_sampling_profiler = 0 /\
  Z.of_nat (length sample_thread_events) < 2 ^ 31 /\
  @thread_run sample_header sample_thread_events sample_sampling_profiler
    (Some sample_thread) = Some (sample_sampled_profiler, Some sample_sampled_thread, []) /\
  Permutation [sample_exp_frame]
    (unique_call_frames (@copied_frames sample_header sample_sampled_profiler)) /\
  forall q : Profiler,
    round_experiment sample_table [sample_exp_frame] sample_sampled_profiler = Some q ->
    Exp.method_id (current_experiment q) = 77.
Proof.
  assert (H1 : 0 <= @NUM_STATIC_CALL_FRAMES sample_header) by (cbn; lia).
  assert (H2 : length (static_call_frames sample_sampling_profiler)
               = Z.to_nat (@NUM_STATIC_CALL_FRAMES sample_header)) by reflexivity.
  assert (H3 : in_experiment sample_sampling_profiler = false) by reflexivity.
  assert (H4 : call_index sample_sampling_profiler = 0) by reflexivity.
  assert (H5 : Z.of_nat (length sample_thread_events) < 2 ^ 31) by (cbn; lia).
  assert (H6 : @thread_run sample_header sample_thread_events sample_sampling_profiler
                 (Some sample_thread)
               = Some (sample_sampled_profiler, Some sample_sampled_thread, []))
    by (vm_compute; reflexivity).
  assert (H7 : Permutation [sample_exp_frame]
                 (unique_call_frames
                    (@copied_frames sample_header sample_sampled_profiler)))
    by (vm_compute; apply Permutation_refl).
  repeat (split; [assumption|]).
  intros q Hq.
  destruct (proj2 (@experiment_is_on_a_sampled_frame_in_scope sample_header
                     sample_table sample_thread_events sample_sampling_profiler
                     sample_sampled_profiler sample_thread sample_sampled_thread
                     [sample_exp_frame] H1 H2 H3 H4 H5 H6 H7) q Hq)
    as (f & entries & before & after & Hsplit & _ & _ & _ & _ & Hm & _).
  rewrite Hm. destruct before as [|b before]; cbn in Hsplit.
  - inversion Hsplit. reflexivity.
  - inversion Hsplit as [[Hb Hrest]]. destruct before; discriminate Hrest.
Defined.

End RoundsFacts.

(** ** The progress point *)

Module ProgressFacts.
Import ScopeFilter Progress.

Lemma strstr_at_0 (haystack needle : string) :
  strstr haystack needle = Some 0%nat <-> String.prefix needle haystack = true.
Proof.
  destruct haystack as [|c rest]; cbn [strstr].
  - destruct (String.prefix needle "") eqn:Hp; split; congruence.
  - destruct (String.prefix needle (String c rest)) eqn:Hp;
      [split; reflexivity|].
    split; [|discriminate]. destruct (strstr rest needle); cbn; discriminate.
Qed.

Lemma erase_last_append (stripped : string) (c : ascii) :
  erase_last (stripped ++ String c "") = Some stripped.
Proof.
  induction stripped as [|a stripped IH]; [reflexivity|].
  change (String a stripped ++ String c "")%string
    with (String a (stripped ++ String c "")).
  cbn [erase_last].
  destruct (stripped ++ String c "")%string as [|b rest] eqn:E.
  - discriminate IH.
  - rewrite IH. reflexivity.
Qed.

Lemma erase_last_spec (klass_sig stripped : string) :
  erase_last klass_sig = Some stripped <->
  exists c : ascii, klass_sig = (stripped ++ String c "")%string.
Proof.
  split; [|intros [c ->]; apply erase_last_append].
  revert stripped. induction klass_sig as [|c rest IH]; intros stripped;
    [discriminate|].
  cbn [erase_last]. destruct rest as [|d rest'].
  - intros Hs. inversion Hs. exists c. reflexivity.
  - destruct (erase_last (String d rest')) as [t|]; cbn; [|discriminate].
    intros Hs. inversion Hs. destruct (IH t eq_refl) as [e He].
    exists e. rewrite He. reflexivity.
Qed.

Lemma erase_last_none (klass_sig : string) :
  erase_last klass_sig = None <-> klass_sig = EmptyString.
Proof.
  split; [|intros ->; reflexivity].
  induction klass_sig as [|c rest IH]; [reflexivity|].
  cbn [erase_last]. destruct rest as [|d rest']; [discriminate|].
  destruct (erase_last (String d rest')); cbn; [discriminate|].
  intros _. discriminate (IH eq_refl).
Qed.

Lemma prefix_append (p tail : string) : String.prefix p (p ++ tail) = true.
Proof.
  induction p as [|c p IH]; [destruct tail; reflexivity|].
  change (String c p ++ tail)%string with (String c (p ++ tail)).
  cbn [String.prefix]. destruct (ascii_dec c c); [exact IH | contradiction].
Qed.

(** X20.  The two checks of the class of the progress point come to
    one: [addProgressPoint] is called exactly for a class whose
    signature is the progress class and one more character, so a class
    whose name only starts with the name of the progress class does not
    get the progress point; on a class signature [L<name>;] the check
    holds exactly if the progress class is [L<name>].  The check has no
    result only if both the signature and the progress class are
    empty. *)
Theorem progress_class_check_is_exact (progress_class klass_sig : string) :
  (progress_class_check progress_class klass_sig = Some true <->
     exists c : ascii, klass_sig = (progress_class ++ String c "")%string) /\
  (progress_class_check progress_class klass_sig = None <->
     progress_class = EmptyString /\ klass_sig = EmptyString) /\
  (forall name : string,
     progress_class_check progress_class (class_signature name)
     = Some (String.eqb (String "L" name) progress_class)).
Proof.
  split; [|split].
  - unfold progress_class_check. split.
    + destruct (strstr klass_sig progress_class) as [[|n]|]; try discriminate.
      destruct (erase_last klass_sig) as [stripped|] eqn:He; cbn; [|discriminate].
      intros Hs. inversion Hs as [Heq]. apply String.eqb_eq in Heq. subst stripped.
      apply erase_last_spec, He.
    + intros [c ->].
      rewrite (proj2 (strstr_at_0 _ _) (prefix_append progress_class _)).
      rewrite (proj2 (erase_last_spec _ progress_class)) by (exists c; reflexivity).
      cbn. rewrite String.eqb_refl. reflexivity.
  - unfold progress_class_check. split.
    + destruct (strstr klass_sig progress_class) as [[|n]|] eqn:Hs; try discriminate.
      destruct (erase_last klass_sig) as [stripped|] eqn:He; cbn; [discriminate|].
      intros _. apply erase_last_none in He. subst klass_sig.
      apply strstr_at_0 in Hs. destruct progress_class; [auto | discriminate Hs].
    + intros [-> ->]. reflexivity.
  - intros name. unfold progress_class_check.
    assert (He : erase_last (class_signature name) = Some (String "L" name))
      by (apply erase_last_spec; exists ";"%char; reflexivity).
    destruct (strstr (class_signature name) progress_class) as [[|n]|] eqn:Hs.
    + rewrite He. reflexivity.
    + f_equal. symmetry. apply String.eqb_neq. intros <-.
      assert (H0 : strstr (class_signature name) (String "L" name) = Some 0%nat)
        by (apply strstr_at_0; apply (prefix_append (String "L" name) ";")).
      congruence.
    + f_equal. symmetry. apply String.eqb_neq. intros <-.
      assert (H0 : strstr (class_signature name) (String "L" name) = Some 0%nat)
        by (apply strstr_at_0; apply (prefix_append (String "L" name) ";")).
      congruence.
Qed.

Lemma entry_on_line_some (lineno : Z) (entries : list jvmtiLineNumberEntry)
    (curr_entry : jvmtiLineNumberEntry) :
  entry_on_line lineno entries = Some curr_entry ->
  exists before after : list jvmtiLineNumberEntry,
    entries = before ++ curr_entry :: after /\
    line_number curr_entry = lineno /\
    List.Forall (fun e => line_number e <> lineno) before.
Proof.
  unfold entry_on_line.
  induction entries as [|e entries IH]; cbn [List.find]; [discriminate|].
  destruct (Z.eqb_spec (line_number e) lineno) as [Heq | Hne].
  - intros Hs. inversion Hs; subst. exists [], entries.
    split; [reflexivity|]. split; [reflexivity | constructor].
  - intros Hs. destruct (IH Hs) as (before & after & -> & Hline & Hnone).
    exists (e :: before), after. split; [reflexivity|]. split; [exact Hline|].
    constructor; assumption.
Qed.

Lemma entry_on_line_none (lineno : Z) (entries : list jvmtiLineNumberEntry) :
  entry_on_line lineno entries = None <->
  List.Forall (fun e => line_number e <> lineno) entries.
Proof.
  unfold entry_on_line.
  induction entries as [|e entries IH]; cbn [List.find].
  - split; [constructor | reflexivity].
  - destruct (Z.eqb_spec (line_number e) lineno) as [Heq | Hne].
    + split; [discriminate|]. intros Hall.
      apply List.Forall_cons_iff in Hall as [Hne _]. contradiction.
    + rewrite IH. split.
      * intros Hall. constructor; assumption.
      * intros Hall. apply List.Forall_cons_iff in Hall as [_ Hall]. exact Hall.
Qed.

Lemma first_on_line_some (lineno : Z)
    (methods : list (Z * option (list jvmtiLineNumberEntry))) (method loc : Z) :
  first_on_line lineno methods = Some (method, loc) ->
  exists (skipped rest : list (Z * option (list jvmtiLineNumberEntry)))
         (before after : list jvmtiLineNumberEntry)
         (curr_entry : jvmtiLineNumberEntry),
    methods = skipped ++ (method, Some (before ++ curr_entry :: after)) :: rest /\
    List.Forall (off_line lineno) skipped /\
    List.Forall (fun e => line_number e <> lineno) before /\
    line_number curr_entry = lineno /\
    start_location curr_entry = loc.
Proof.
  induction methods as [|[m table] methods IH]; cbn [first_on_line]; [discriminate|].
  destruct table as [entries|].
  - destruct (entry_on_line lineno entries) as [e|] eqn:He.
    + intros Hs. inversion Hs; subst.
      apply entry_on_line_some in He as (before & after & -> & Hline & Hnone).
      exists [], methods, before, after, e. cbn. repeat split; auto.
    + intros Hs. destruct (IH Hs)
        as (skipped & rest & before & after & e & -> & Hskip & Hnone & Hline & Hloc).
      exists ((m, Some entries) :: skipped), rest, before, after, e.
      split; [reflexivity|]. split; [|auto].
      constructor; [|exact Hskip].
      intros entries' Heq. cbn in Heq. inversion Heq; subst.
      apply entry_on_line_none, He.
  - intros Hs. destruct (IH Hs)
      as (skipped & rest & before & after & e & -> & Hskip & Hnone & Hline & Hloc).
    exists ((m, None) :: skipped), rest, before, after, e.
    split; [reflexivity|]. split; [|auto].
    constructor; [|exact Hskip]. intros entries' Heq. discriminate Heq.
Qed.

Lemma first_on_line_none (lineno : Z)
    (methods : list (Z * option (list jvmtiLineNumberEntry))) :
  first_on_line lineno methods = None <-> List.Forall (off_line lineno) methods.
Proof.
  induction methods as [|[m table] methods IH]; cbn [first_on_line].
  - split; [constructor | reflexivity].
  - destruct table as [entries|].
    + destruct (entry_on_line lineno entries) as [e|] eqn:He.
      * split; [discriminate|]. intros Hall.
        apply List.Forall_cons_iff in Hall as [Hoff _].
        specialize (Hoff entries eq_refl). apply entry_on_line_none in Hoff.
        congruence.
      * rewrite IH. split.
        -- intros Hall. constructor; [|exact Hall].
           intros entries' Heq. cbn in Heq. inversion Heq; subst.
           apply entry_on_line_none, He.
        -- intros Hall. apply List.Forall_cons_iff in Hall as [_ Hall]. exact Hall.
    + rewrite IH. split.
      * intros Hall. constructor; [|exact Hall]. intros entries' Heq. discriminate Heq.
      * intros Hall. apply List.Forall_cons_iff in Hall as [_ Hall]. exact Hall.
Qed.

(** X21.  While no progress point is set and the mode is not
    end-to-end, [addProgressPoint] sets the breakpoint at the first
    entry of the line in the first method that has one: the methods
    before it have no entry of the line or no table, the entries before
    it are of other lines, and the progress point names the method and
    the location of the breakpoint, its line unchanged.  It exits exactly
    if no method of the class has an entry of the line. *)
Theorem addProgressPoint_sets_first_entry_of_line
    (methods : list (Z * option (list jvmtiLineNumberEntry)))
    (progress_point : ProgressPoint) :
  method_id progress_point = 0 ->
  (addProgressPoint false methods progress_point = None <->
     List.Forall (off_line (lineno progress_point)) methods) /\
  (forall (progress_point' : ProgressPoint) (calls : list BreakpointCall),
     addProgressPoint false methods progress_point = Some (progress_point', calls) ->
     calls = [SetBreakpoint (method_id progress_point') (location progress_point')] /\
     lineno progress_point' = lineno progress_point /\
     exists (skipped rest : list (Z * option (list jvmtiLineNumberEntry)))
            (before after : list jvmtiLineNumberEntry)
            (curr_entry : jvmtiLineNumberEntry),
       methods = skipped
                 ++ (method_id progress_point', Some (before ++ curr_entry :: after))
                 :: rest /\
       List.Forall (off_line (lineno progress_point)) skipped /\
       List.Forall (fun e => line_number e <> lineno progress_point) before /\
       line_number curr_entry = lineno progress_point /\
       start_location curr_entry = location progress_point').
Proof.
  intros Hunset. unfold addProgressPoint. rewrite Hunset. cbn [Z.eqb negb orb].
  split.
  - rewrite <- first_on_line_none.
    destruct (first_on_line (lineno progress_point) methods) as [[m loc]|];
      split; congruence.
  - intros pp' calls.
    destruct (first_on_line (lineno progress_point) methods) as [[m loc]|] eqn:Hf;
      [|discriminate].
    intros Hs. inversion Hs; subst. cbn [method_id location lineno].
    split; [reflexivity|]. split; [reflexivity|].
    apply first_on_line_some, Hf.
Qed.

Lemma first_on_line_real (lineno : Z)
    (methods : list (Z * option (list jvmtiLineNumberEntry))) (method loc : Z) :
  real_methods methods ->
  first_on_line lineno methods = Some (method, loc) -> method <> 0.
Proof.
  intros Hreal Hf.
  apply first_on_line_some in Hf as (skipped & rest & before & after & e & -> & _).
  unfold real_methods in Hreal. apply Forall_app in Hreal as [_ Hreal].
  apply List.Forall_cons_iff in Hreal as [Hm _]. exact Hm.
Qed.

Lemma add_for_classes_set (end_to_end : bool)
    (classes : list (list (Z * option (list jvmtiLineNumberEntry))))
    (progress_point : ProgressPoint) :
  end_to_end = true \/ method_id progress_point <> 0 ->
  add_for_classes end_to_end classes progress_point = Some (progress_point, []).
Proof.
  intros Hset. induction classes as [|methods classes IH]; [reflexivity|].
  cbn [add_for_classes]. unfold addProgressPoint.
  assert (Htest : end_to_end || negb (method_id progress_point =? 0) = true).
  { destruct Hset as [-> | Hne]; [reflexivity|].
    apply orb_true_iff. right.
    destruct (Z.eqb_spec (method_id progress_point) 0); [contradiction | reflexivity]. }
  rewrite Htest. cbn. rewrite IH. reflexivity.
Qed.

(** X22.  The progress point is set at most once, however many classes
    pass the check: over all of them either nothing is done and the
    progress point is as before (always so in end-to-end mode and once a
    method is set), or exactly one breakpoint is set, the one the
    progress point names afterwards; [clearProgressPoint] then clears
    that very breakpoint and leaves the progress point unset, and does
    nothing when called again. *)
Theorem progress_point_is_set_once
    (end_to_end : bool)
    (classes : list (list (Z * option (list jvmtiLineNumberEntry))))
    (progress_point progress_point' : ProgressPoint) (calls : list BreakpointCall) :
  List.Forall real_methods classes ->
  add_for_classes end_to_end classes progress_point = Some (progress_point', calls) ->
  (end_to_end = true \/ method_id progress_point <> 0 ->
     progress_point' = progress_point /\ calls = []) /\
  ((progress_point' = progress_point /\ calls = []) \/
   (end_to_end = false /\ method_id progress_point = 0 /\
    method_id progress_point' <> 0 /\
    calls = [SetBreakpoint (method_id progress_point') (location progress_point')] /\
    exists cleared : ProgressPoint,
      clearProgressPoint end_to_end progress_point'
      = (cleared,
         [ClearBreakpoint (method_id progress_point') (location progress_point')]) /\
      method_id cleared = 0 /\
      lineno cleared = lineno progress_point /\
      clearProgressPoint end_to_end cleared = (cleared, []))).
Proof.
  intros Hreal Hrun. split.
  - intros Hset. rewrite (add_for_classes_set _ _ _ Hset) in Hrun.
    inversion Hrun. auto.
  - revert progress_point Hrun.
    induction classes as [|methods classes IH]; intros progress_point Hrun.
    + cbn in Hrun. inversion Hrun. left. auto.
    + apply List.Forall_cons_iff in Hreal as [Hm Hreal].
      cbn [add_for_classes] in Hrun. unfold addProgressPoint in Hrun.
      destruct end_to_end.
      * cbn in Hrun.
        rewrite (add_for_classes_set true classes progress_point (or_introl eq_refl))
          in Hrun.
        cbn in Hrun. inversion Hrun. left. auto.
      * cbn [orb] in Hrun.
        destruct (Z.eqb_spec (method_id progress_point) 0) as [Hunset | Hset];
          cbn [negb] in Hrun.
        -- destruct (first_on_line (lineno progress_point) methods) as [[m loc]|] eqn:Hf;
             [|discriminate Hrun].
           pose proof (first_on_line_real _ _ _ _ Hm Hf) as Hne.
           cbn [mbind option_bind] in Hrun.
           rewrite (add_for_classes_set false classes
                      {| lineno := lineno progress_point; method_id := m;
                         location := loc |} (or_intror Hne)) in Hrun.
           cbn in Hrun. inversion Hrun; subst. right.
           cbn [method_id location lineno].
           split; [reflexivity|]. split; [exact Hunset|]. split; [exact Hne|].
           split; [reflexivity|].
           unfold clearProgressPoint. cbn [negb andb method_id location lineno].
           destruct (Z.eqb_spec m 0) as [? | _]; [contradiction|]. cbn [negb].
           eexists. split; [reflexivity|]. cbn. auto.
        -- cbn [mbind option_bind] in Hrun.
           rewrite (add_for_classes_set false classes progress_point (or_intror Hset))
             in Hrun.
           cbn in Hrun. inversion Hrun. left. auto.
Qed.

Lemma addProgressPoint_sets_first_entry_of_line_witness :
  method_id sample_progress_point = 0 /\
  addProgressPoint false sample_methods sample_progress_point
  = Some ({| lineno := 12; method_id := 56; location := 6 |}, [SetBreakpoint 56 6]) /\
  ~ List.Forall (off_line (lineno sample_progress_point)) sample_methods.
Proof.
  assert (H1 : method_id sample_progress_point = 0) by reflexivity.
  split; [exact H1|]. split; [reflexivity|].
  intros Hall.
  apply (proj1 (addProgressPoint_sets_first_entry_of_line sample_methods
                  sample_progress_point H1)) in Hall.
  discriminate Hall.
Defined.

Lemma progress_point_is_set_once_witness :
  List.Forall real_methods [sample_methods; sample_methods] /\
  add_for_classes false [sample_methods; sample_methods] sample_progress_point
  = Some ({| lineno := 12; method_id := 56; location := 6 |}, [SetBreakpoint 56 6]) /\
  ((({| lineno := 12; method_id := 56; location := 6 |} = sample_progress_point) /\
    [SetBreakpoint 56 6] = []) \/
   (method_id sample_progress_point = 0 /\
    [SetBreakpoint 56 6] = [SetBreakpoint 56 6])).
Proof.
  assert (H1 : List.Forall real_methods [sample_methods; sample_methods])
    by (repeat constructor; cbn; lia).
  assert (H2 : add_for_classes false [sample_methods; sample_methods]
                 sample_progress_point
               = Some ({| lineno := 12; method_id := 56; location := 6 |},
                       [SetBreakpoint 56 6])) by reflexivity.
  split; [exact H1|]. split; [exact H2|].
  destruct (proj2 (progress_point_is_set_once false [sample_methods; sample_methods]
                     sample_progress_point _ _ H1 H2))
    as [[Hsame Hnone] | (_ & Hunset & _ & Hcalls & _)].
  - left. split; [exact Hsame | exact Hnone].
  - right. split; [exact Hunset | exact Hcalls].
Defined.

End ProgressFacts.

(** ** The delay of one thread reaches the others ([Profiler::Handle]) *)

Module HandlerMore.
Import MachineInt MachineIntFacts Ranges Handler HandlerFacts Threads.

Section WithHeader.
Context `{Header}.

(** X23.  A sample in the region of the experiment makes another thread
    pause.  A thread level with the ledger that is sampled in the region
    on its tenth signal does not sleep and raises the ledger by the
    delay quantum; a second thread, at or behind the old ledger and
    outside the region, then sleeps on its tenth signal for what it is
    short of the raised ledger, the quantum included, and leaves the
    ledger where the first thread put it. *)
Theorem delay_of_one_thread_pauses_the_other
    (jni_a jni_b : bool) (trace_a trace_b : JVMPI_CallTrace)
    (elapsed_a elapsed_b : Z) (p : Profiler) (ut_a ut_b : UT.UserThread) :
  in_experiment p = true ->
  not_handled jni_a trace_a p = false ->
  not_handled jni_b trace_b p = false ->
  existsb (fun f => inExperiment f p) (scanned trace_a) = true ->
  existsb (fun f => inExperiment f p) (scanned trace_b) = false ->
  UT.num_signals_received ut_a = 9 ->
  UT.num_signals_received ut_b = 9 ->
  nanoseconds_amount (global_delay p) ->
  0 < Exp.delay (current_experiment p) < 2 ^ 61 ->
  UT.local_delay ut_a = global_delay p ->
  0 <= UT.local_delay ut_b <= global_delay p ->
  nanoseconds_amount elapsed_b ->
  exists (p1 p2 : Profiler) (ut_a' ut_b' : UT.UserThread),
    Handle jni_a trace_a elapsed_a p (Some ut_a) = Some (p1, Some ut_a', []) /\
    global_delay p1 = global_delay p + Exp.delay (current_experiment p) /\
    UT.local_delay ut_a' = global_delay p1 /\
    Handle jni_b trace_b elapsed_b p1 (Some ut_b)
    = Some (p2, Some ut_b',
            [Sleep (global_delay p + Exp.delay (current_experiment p)
                    - UT.local_delay ut_b)]) /\
    UT.local_delay ut_b' = UT.local_delay ut_b + elapsed_b /\
    global_delay p2 = global_delay p1.
Proof.
  unfold nanoseconds_amount.
  intros Hin Hha Hhb Hra Hrb Hca Hcb Hg Hd Hla Hlb Heb.
  rewrite (Handle_inside _ _ _ _ _ Hin Hha). cbv zeta.
  rewrite Hra, Hca, Hla. change (9 + 1 =? 10) with true. cbn [andb].
  rewrite (long_add_exact (global_delay p) (Exp.delay (current_experiment p)))
    by (apply in_long_of_bounds; lia).
  rewrite (long_sub_exact (global_delay p))
    by (apply in_long_of_bounds; lia).
  destruct (Z.ltb_spec 0 (global_delay p
                          - (global_delay p + Exp.delay (current_experiment p))))
    as [? | _]; [lia|]. cbn [negb].
  rewrite labs_exact by (apply in_long_of_bounds; lia).
  rewrite long_add_exact by (apply in_long_of_bounds; lia).
  set (p1 := set_points_hit _ (set_global_delay _ p)).
  assert (Hg1 : global_delay p1
                = global_delay p + Exp.delay (current_experiment p))
    by (subst p1; cbn; lia).
  assert (Hin1 : in_experiment p1 = true) by exact Hin.
  assert (Hhb1 : not_handled jni_b trace_b p1 = false) by exact Hhb.
  assert (Hrb1 : existsb (fun f => inExperiment f p1) (scanned trace_b) = false)
    by exact Hrb.
  eexists p1, _, _, _. split; [reflexivity|]. split; [exact Hg1|].
  split; [cbn [UT.local_delay]; lia|].
  rewrite (Handle_inside _ _ _ _ _ Hin1 Hhb1). cbv zeta.
  rewrite Hrb1, Hcb, Hg1. change (9 + 1 =? 10) with true. cbn [andb].
  rewrite (long_sub_exact _ (UT.local_delay ut_b))
    by (apply in_long_of_bounds; lia).
  destruct (Z.ltb_spec 0 (global_delay p + Exp.delay (current_experiment p)
                          - UT.local_delay ut_b)) as [_ | ?]; [|lia].
  cbn [negb].
  rewrite long_add_exact by (apply in_long_of_bounds; lia).
  split; [reflexivity|]. split; [reflexivity | exact Hg1].
Qed.

End WithHeader.

Lemma delay_of_one_thread_pauses_the_other_witness :
  in_experiment sample_profiler = true /\
  @not_handled sample_header true sample_trace sample_profiler = false /\
  @not_handled sample_header true sample_other_trace sample_profiler = false /\
  existsb (fun f => inExperiment f sample_profiler) (scanned sample_trace) = true /\
  existsb (fun f => inExperiment f sample_profiler) (scanned sample_other_trace)
    = false /\
  UT.num_signals_received sample_level_thread = 9 /\
  nanoseconds_amount (global_delay sample_profiler) /\
  0 < Exp.delay (current_experiment sample_profiler) < 2 ^ 61 /\
  UT.local_delay sample_level_thread = global_delay sample_profiler /\
  0 <= UT.local_delay sample_level_thread <= global_delay sample_profiler /\
  nanoseconds_amount 250000 /\
  exists (p1 p2 : Profiler) (ut_a' ut_b' : UT.UserThread),
    @Handle sample_header true sample_trace 0 sample_profiler
      (Some sample_level_thread) = Some (p1, Some ut_a', []) /\
    global_delay p1 = 850000 /\
    @Handle sample_header true sample_other_trace 250000 p1
      (Some sample_level_thread) = Some (p2, Some ut_b', [Sleep 250000]).
Proof.
  assert (H1 : in_experiment sample_profiler = true) by reflexivity.
  assert (H2 : @not_handled sample_header true sample_trace sample_profiler = false)
    by reflexivity.
  assert (H3 : @not_handled sample_header true sample_other_trace sample_profiler
               = false) by reflexivity.
  assert (H4 : existsb (fun f => inExperiment f sample_profiler)
                 (scanned sample_trace) = true) by reflexivity.
  assert (H5 : existsb (fun f => inExperiment f sample_profiler)
                 (scanned sample_other_trace) = false) by reflexivity.
  assert (H6 : UT.num_signals_received sample_level_thread = 9) by reflexivity.
  assert (H7 : nanoseconds_amount (global_delay sample_profiler))
    by (unfold nanoseconds_amount; cbn; lia).
  assert (H8 : 0 < Exp.delay (current_experiment sample_profiler) < 2 ^ 61)
    by (cbn; lia).
  assert (H9 : UT.local_delay sample_level_thread = global_delay sample_profiler)
    by reflexivity.
  assert (H10 : 0 <= UT.local_delay sample_level_thread
                <= global_delay sample_profiler) by (cbn; lia).
  assert (H11 : nanoseconds_amount 250000) by (unfold nanoseconds_amount; lia).
  repeat (split; [assumption|]).
  destruct (@delay_of_one_thread_pauses_the_other sample_header true true
              sample_trace sample_other_trace 0 250000 sample_profiler
              sample_level_thread sample_level_thread
              H1 H2 H3 H4 H5 H6 H6 H7 H8 H9 H10 H11)
    as (p1 & p2 & ut_a' & ut_b' & Hrun_a & Hg1 & _ & Hrun_b & _).
  exists p1, p2, ut_a', ut_b'. split; [exact Hrun_a|].
  split; [rewrite Hg1; reflexivity | exact Hrun_b].
Defined.

End HandlerMore.
